(** * Two-dimensional spectra of quantarhei: storage, resolution and lineshapes

    A shallow embedding of [quantarhei/spectroscopy/twod2.py]:

    - the resolution tables and the aggregation functions
      ([_pathways_to_signals], [_types_to_processes], ...),
    - the storage property [d__data] of [TwoDSpectrumBase] (its getter and
      its setter), [set_data_flag], [_add_data], [add_data], [set_data],
      [set_resolution] and [_convert_resolution],
    - [get_all_tags], and the spectra that were never written to,
    - [MockTwoDSpectrumCalculator.calculate_pathway], [calculate_one]
      and [calculate].

    Python exceptions are values of [exn]; a function that only reads the
    object returns an [outcome]; a method that assigns attributes is a
    state transformer [M] which returns the object as it is at the moment
    of the [raise] as well, so that the effect of a failed call can be
    stated.

    Arrays are two-dimensional [numpy] arrays of one numeric kind [C],
    stored row-major together with their shape.  The storage code is
    generic in [C] (class [Numeric]): it only uses zero and addition.  The
    lineshape code works over complex numbers whose parts are real numbers
    of the Standard Library, the usual idealisation of [complex128];
    where the rounding of the sums matters, the storage code is taken at
    [complex128] itself, two binary64 numbers. *)

From Stdlib Require Import Bool Arith ZArith Lia String Ascii List DecimalString.
From Stdlib Require Import Reals Lra.
From Stdlib Require PrimFloat.
Import ListNotations.

Set Implicit Arguments.
Unset Strict Implicit.

Local Open Scope string_scope.
Local Open Scope list_scope.
Local Open Scope nat_scope.

(* ================================================================== *)
(** ** Exceptions and outcomes *)
(* ================================================================== *)

Inductive exn : Type :=
| Exception (msg : string)
| TypeError
| KeyError
| AttributeError
| ValueError
| IndexError
| UnboundLocalError.

Inductive outcome (A : Type) : Type :=
| Ok (a : A)
| Raise (e : exn).

Arguments Ok {A} a.
Arguments Raise {A} e.

Definition obind {A B : Type} (m : outcome A) (k : A -> outcome B)
  : outcome B :=
  match m with
  | Ok a => k a
  | Raise e => Raise e
  end.

Arguments obind {A B} !m k /.

Notation "x <- m ;; k" := (obind m (fun x => k))
  (at level 61, m at next level, right associativity).

(** [for x in l: acc = body(acc, x)], stopping at the first exception. *)
Fixpoint foldM {A S : Type} (body : S -> A -> outcome S) (l : list A)
  (acc : S) : outcome S :=
  match l with
  | [] => Ok acc
  | x :: l' => acc' <- body acc x ;; foldM body l' acc'
  end.

(* ================================================================== *)
(** ** Strings, lists and dictionaries as Python uses them *)
(* ================================================================== *)

(** [x in l] for a list of strings. *)
Definition in_list (x : string) (l : list string) : bool :=
  existsb (String.eqb x) l.

(** [l.index(x)] for an [x] known to occur; [length l] otherwise. *)
Fixpoint index_of (x : string) (l : list string) : nat :=
  match l with
  | [] => 0
  | y :: l' => if String.eqb x y then 0 else S (index_of x l')
  end.

(** [str(n)] for a natural number. *)
Definition str (n : nat) : string :=
  NilEmpty.string_of_uint (Nat.to_uint n).

(** Keys of dictionaries: strings, and tags, which may be [None]. *)
Class Key (K : Type) : Type := { keqb : K -> K -> bool }.

#[export] Instance string_Key : Key string := {| keqb := String.eqb |}.

Definition option_string_eqb (a b : option string) : bool :=
  match a, b with
  | Some x, Some y => String.eqb x y
  | None, None => true
  | _, _ => false
  end.

#[export] Instance tag_Key : Key (option string) :=
  {| keqb := option_string_eqb |}.

(** The comparison of keys decides their equality. *)
Class KeyLaws (K : Type) `{Key K} : Prop := {
  keqb_eq : forall a b : K, keqb a b = true <-> a = b
}.

(** A Python [dict]: insertion ordered, one entry per key. *)
Definition dict (K V : Type) : Type := list (K * V).

Section Dict.
Context {K V : Type} `{Key K}.

Fixpoint dict_get (d : dict K V) (k : K) : option V :=
  match d with
  | [] => None
  | (k', v) :: d' => if keqb k k' then Some v else dict_get d' k
  end.

(** [d[k] = v]: replaces in place, or appends a new entry. *)
Fixpoint dict_set (d : dict K V) (k : K) (v : V) : dict K V :=
  match d with
  | [] => [(k, v)]
  | (k', v') :: d' =>
      if keqb k k' then (k, v) :: d' else (k', v') :: dict_set d' k v
  end.

(** [k in d] *)
Definition dict_mem (d : dict K V) (k : K) : bool :=
  match dict_get d k with Some _ => true | None => false end.

(** [d[k]] *)
Definition getitem (d : dict K V) (k : K) : outcome V :=
  match dict_get d k with
  | Some v => Ok v
  | None => Raise KeyError
  end.

Definition dict_keys (d : dict K V) : list K := map fst d.
Definition dict_values (d : dict K V) : list V := map snd d.
End Dict.

(** Python indexing of a list, negative indices counting from the end. *)
Definition py_index {A : Type} (l : list A) (i : Z) : outcome A :=
  let n := Z.of_nat (List.length l) in
  let j := if (i <? 0)%Z then (n + i)%Z else i in
  if ((j <? 0) || (n <=? j))%Z then Raise IndexError
  else match nth_error l (Z.to_nat j) with
       | Some a => Ok a
       | None => Raise IndexError
       end.

(* ================================================================== *)
(** ** Arrays *)
(* ================================================================== *)

Class Numeric (C : Type) : Type := {
  czero : C;
  cadd : C -> C -> C
}.

(** What the statements about values need of the arithmetic. *)
Class NumericLaws (C : Type) `{Numeric C} : Prop := {
  cadd_0_l : forall x : C, cadd czero x = x
}.

#[export] Instance Z_Numeric : Numeric Z := {| czero := 0%Z; cadd := Z.add |}.

Record ndarray (C : Type) : Type := mk_ndarray {
  shape : nat * nat;
  buf : list C
}.

(** The buffer of an [n] by [m] array whose entry [(i, j)] is [f i j]. *)
Definition tabulate {C : Type} (n m : nat) (f : nat -> nat -> C) : list C :=
  flat_map (fun i => map (f i) (seq 0 m)) (seq 0 n).

Section Arrays.
Context {C : Type} `{Numeric C}.

(** [numpy.zeros((n, m), dtype=...)] *)
Definition zeros (n m : nat) : ndarray C :=
  {| shape := (n, m); buf := repeat czero (n * m) |}.

(** [a[i, j]] *)
Definition get (a : ndarray C) (i j : nat) : C :=
  nth (i * snd (shape a) + j) (buf a) czero.

(** Can an array of shape [s] be broadcast to the shape [(n, m)]? *)
Definition broadcastable (s : nat * nat) (n m : nat) : bool :=
  ((fst s =? n) || (fst s =? 1)) && ((snd s =? m) || (snd s =? 1)).

(** Entry [(i, j)] of [x] broadcast to a larger shape: an axis of
    length one is repeated. *)
Definition bget (x : ndarray C) (i j : nat) : C :=
  get x (if fst (shape x) =? 1 then 0 else i)
        (if snd (shape x) =? 1 then 0 else j).

(** [data += x] *)
Definition iadd (data x : ndarray C) : outcome (ndarray C) :=
  let '(n, m) := shape data in
  if broadcastable (shape x) n m then
    Ok {| shape := (n, m);
          buf := tabulate n m (fun i j => cadd (get data i j) (bget x i j)) |}
  else Raise ValueError.

(** [a[:, k] = v] for a one-dimensional [v]. *)
Definition set_column (a : ndarray C) (k : nat) (v : list C)
  : outcome (ndarray C) :=
  let '(n, m) := shape a in
  if m <=? k then Raise IndexError
  else if (List.length v =? n) || (List.length v =? 1) then
    Ok {| shape := (n, m);
          buf := tabulate n m (fun i j =>
                   if j =? k
                   then nth (if List.length v =? 1 then 0 else i) v czero
                   else get a i j) |}
  else Raise ValueError.
End Arrays.

(* ================================================================== *)
(** ** The tables of the module *)
(* ================================================================== *)

(** Pathway types *)
Definition _ptypes : list string :=
  ["R1g"; "R2g"; "R3g"; "R4g"; "R1fs"; "R2fs"; "R3fs"; "R4fs"].

(** Processes: GSB, SE, ESA and DC *)
Definition _processes : dict string (list string) :=
  [("GSB", ["R1g"; "R2g"]); ("SE", ["R3g"; "R4g"]);
   ("ESA", ["R1fs"; "R2fs"]); ("DC", ["R3fs"; "R4fs"])].

(** Types of signals: rephasing, non-rephasing and double coherence *)
Definition _signals : dict string (list string) :=
  [("REPH", ["R2g"; "R3g"; "R1fs"]); ("NONR", ["R1g"; "R4g"; "R2fs"]);
   ("DC", ["R3fs"; "R4fs"])].

(** Storage resolutions *)
Definition _resolutions : list string :=
  ["off"; "signals"; "processes"; "types"; "pathways"].

Definition _resolution2number (res : string) : outcome nat :=
  if in_list res _resolutions then Ok (index_of res _resolutions)
  else Raise (Exception "Unknow resolution level in TwoDSpectrum").

(* ================================================================== *)
(** ** The spectrum object *)
(* ================================================================== *)

Module FrequencyAxis.
(** Modelled from the spec: the class [FrequencyAxis], which belongs to
    the module [quantarhei.core.frequency], is an ordered sequence of
    samples with a [length]; the code below reads its attributes
    [length] and [data]. *)
Record t : Type := mk { length : nat; data : list R }.
End FrequencyAxis.

(** What the storage dictionary holds under a key: the dictionary of the
    tagged pathways of one type (resolution "pathways"), or one array
    (the lower resolutions).  The setter only ever writes the former and
    [_convert_resolution] only the latter, and a resolution is never
    raised; where the code would meet the wrong kind of entry it fails
    with some error of Python's, which the embedding fixes as stated at
    each such place. *)
Inductive value (C : Type) : Type :=
| VArr (a : ndarray C)
| VDict (p : dict (option string) (ndarray C)).

Arguments VArr {C} a.
Arguments VDict {C} p.

Definition storage (C : Type) : Type := dict string (value C).

(** The attributes of a [TwoDSpectrumBase] that the code below touches.
    [_d__data] is [None] as long as the attribute has not been
    assigned. *)
Record TwoDSpectrum (C : Type) : Type := mk_TwoDSpectrum {
  xaxis : option FrequencyAxis.t;
  yaxis : option FrequencyAxis.t;
  reph2D : option (ndarray C);
  nonr2D : option (ndarray C);
  data : option (ndarray C);
  dtype : option string;
  storage_resolution : string;
  storage_initialized : bool;
  current_dtype : option string;
  current_tag : option string;
  address_length : nat;
  _d__data : option (storage C)
}.

(** An argument that may or may not be a [numpy.ndarray]. *)
Inductive pyarg (C : Type) : Type :=
| Arr (a : ndarray C)
| NotArray.

Arguments Arr {C} a.
Arguments NotArray {C}.

(** A data flag: a list (of a type and a tag) or anything else. *)
Inductive flag : Type :=
| FlagList (l : list (option string))
| FlagAtom (x : option string).

Section Spectrum.
Context {C : Type} `{Numeric C}.

Local Abbreviation spectrum := (TwoDSpectrum C).

(** A method: the outcome, and the object after the call. *)
Definition M (A : Type) : Type := spectrum -> outcome A * spectrum.

(** [TwoDSpectrumBase.__init__] *)
Definition __init__ : spectrum :=
  {| xaxis := None; yaxis := None;
     reph2D := None; nonr2D := None; data := None;
     dtype := None;
     storage_resolution := "pathways";
     storage_initialized := false;
     current_dtype := None; current_tag := None;
     address_length := 1;
     _d__data := None |}.

(** *** Attribute assignments *)

Definition with_xaxis (a : option FrequencyAxis.t) (s : spectrum) :=
  mk_TwoDSpectrum a (yaxis s) (reph2D s) (nonr2D s) (data s) (dtype s)
    (storage_resolution s) (storage_initialized s) (current_dtype s)
    (current_tag s) (address_length s) (_d__data s).

Definition with_yaxis (a : option FrequencyAxis.t) (s : spectrum) :=
  mk_TwoDSpectrum (xaxis s) a (reph2D s) (nonr2D s) (data s) (dtype s)
    (storage_resolution s) (storage_initialized s) (current_dtype s)
    (current_tag s) (address_length s) (_d__data s).

Definition with_reph2D (a : option (ndarray C)) (s : spectrum) :=
  mk_TwoDSpectrum (xaxis s) (yaxis s) a (nonr2D s) (data s) (dtype s)
    (storage_resolution s) (storage_initialized s) (current_dtype s)
    (current_tag s) (address_length s) (_d__data s).

Definition with_nonr2D (a : option (ndarray C)) (s : spectrum) :=
  mk_TwoDSpectrum (xaxis s) (yaxis s) (reph2D s) a (data s) (dtype s)
    (storage_resolution s) (storage_initialized s) (current_dtype s)
    (current_tag s) (address_length s) (_d__data s).

Definition with_data (a : option (ndarray C)) (s : spectrum) :=
  mk_TwoDSpectrum (xaxis s) (yaxis s) (reph2D s) (nonr2D s) a (dtype s)
    (storage_resolution s) (storage_initialized s) (current_dtype s)
    (current_tag s) (address_length s) (_d__data s).

Definition with_dtype (d : option string) (s : spectrum) :=
  mk_TwoDSpectrum (xaxis s) (yaxis s) (reph2D s) (nonr2D s) (data s) d
    (storage_resolution s) (storage_initialized s) (current_dtype s)
    (current_tag s) (address_length s) (_d__data s).

Definition with_storage_resolution (r : string) (s : spectrum) :=
  mk_TwoDSpectrum (xaxis s) (yaxis s) (reph2D s) (nonr2D s) (data s)
    (dtype s) r (storage_initialized s) (current_dtype s)
    (current_tag s) (address_length s) (_d__data s).

Definition with_storage_initialized (b : bool) (s : spectrum) :=
  mk_TwoDSpectrum (xaxis s) (yaxis s) (reph2D s) (nonr2D s) (data s)
    (dtype s) (storage_resolution s) b (current_dtype s)
    (current_tag s) (address_length s) (_d__data s).

Definition with_flag (d t : option string) (n : nat) (s : spectrum) :=
  mk_TwoDSpectrum (xaxis s) (yaxis s) (reph2D s) (nonr2D s) (data s)
    (dtype s) (storage_resolution s) (storage_initialized s) d t n
    (_d__data s).

Definition with_d__data (st : option (storage C)) (s : spectrum) :=
  mk_TwoDSpectrum (xaxis s) (yaxis s) (reph2D s) (nonr2D s) (data s)
    (dtype s) (storage_resolution s) (storage_initialized s)
    (current_dtype s) (current_tag s) (address_length s) st.

(** *** Reading attributes *)

(** [obj._d__data], an [AttributeError] while it is not assigned. *)
Definition attr_d__data (obj : spectrum) : outcome (storage C) :=
  match _d__data obj with
  | Some st => Ok st
  | None => Raise AttributeError
  end.

(** [(obj.xaxis.length, obj.yaxis.length)]; an axis that is still
    [None] has no attribute [length]. *)
Definition axes_shape (obj : spectrum) : outcome (nat * nat) :=
  match xaxis obj, yaxis obj with
  | Some x, Some y => Ok (FrequencyAxis.length x, FrequencyAxis.length y)
  | _, _ => Raise AttributeError
  end.

(** [numpy.zeros((obj.xaxis.length, obj.yaxis.length), dtype=COMPLEX)] *)
Definition zeros_axes (obj : spectrum) : outcome (ndarray C) :=
  s <- axes_shape obj ;; Ok (zeros (fst s) (snd s)).

(** [for tag in pways: data += pways[tag]]; an array in the place of
    the dictionary cannot be indexed by what iterating it yields. *)
Definition add_pathways (data : ndarray C) (pways : value C)
  : outcome (ndarray C) :=
  match pways with
  | VDict p => foldM (fun data kv => iadd data (snd kv)) p data
  | VArr _ => Raise IndexError
  end.

(** [data += ddata] for an entry of the lower resolutions; a
    dictionary cannot be added to an array. *)
Definition add_entry (data : ndarray C) (ddata : value C)
  : outcome (ndarray C) :=
  match ddata with
  | VArr a => iadd data a
  | VDict _ => Raise TypeError
  end.

(** *** Aggregation *)

Definition _pathways_to_processes (obj : spectrum) (process : string)
  : outcome (ndarray C) :=
  if storage_initialized obj then
    data <- zeros_axes obj ;;
    if negb (dict_mem _processes process) then
      Raise (Exception (String.append "Unknown process: " process))
    else
      (* types corresponding to process *)
      types <- getitem _processes process ;;
      foldM (fun data typ =>
               (* pways corresponding to a given type; a bare except *)
               match (st <- attr_d__data obj ;; getitem st typ) with
               | Ok pways => add_pathways data pways
               | Raise _ => Ok data
               end) types data
  else Ok (zeros 1 1).

Definition _pathways_to_signals (obj : spectrum) (signal : string)
  : outcome (ndarray C) :=
  data <- (if storage_initialized obj then zeros_axes obj
           else Ok (zeros 1 1)) ;;
  if negb (dict_mem _signals signal) then
    Raise (Exception (String.append "Unknown signal: " signal))
  else
    types <- getitem _signals signal ;;
    foldM (fun data typ =>
             match (st <- attr_d__data obj ;; getitem st typ) with
             | Ok pways => add_pathways data pways
             | Raise _ => Ok data
             end) types data.

Definition _pathways_to_total (obj : spectrum) : outcome (ndarray C) :=
  data <- (if storage_initialized obj then zeros_axes obj
           else Ok (zeros 1 1)) ;;
  foldM (fun data signal =>
           d <- _pathways_to_signals obj signal ;; iadd data d)
        (dict_keys _signals) data.

(** Sums pathways of different types into a specified process
    spectrum *)
Definition _types_to_processes (obj : spectrum) (process : string)
  : outcome (ndarray C) :=
  data <- (if storage_initialized obj then zeros_axes obj
           else Ok (zeros 1 1)) ;;
  types <- getitem _processes process ;;
  foldM (fun data dtype =>
           match (st <- attr_d__data obj ;; getitem st dtype) with
           | Ok ddata => add_entry data ddata
           | Raise KeyError => Ok data       (* dtype not present *)
           | Raise AttributeError => Ok data (* no data *)
           | Raise e => Raise e
           end) types data.

(** Sums pathways of different types into a specified signal
    spectrum *)
Definition _types_to_signals (obj : spectrum) (signal : string)
  : outcome (ndarray C) :=
  data <- (if storage_initialized obj then zeros_axes obj
           else Ok (zeros 1 1)) ;;
  types <- getitem _signals signal ;;
  foldM (fun data dtype =>
           match (st <- attr_d__data obj ;; getitem st dtype) with
           | Ok ddata => add_entry data ddata
           | Raise KeyError => Ok data
           | Raise AttributeError => Ok data
           | Raise e => Raise e
           end) types data.

(** Sums spectra corresponding to different signals into the total
    spectrum *)
Definition _signals_to_total (obj : spectrum) : outcome (ndarray C) :=
  if storage_initialized obj then
    data <- zeros_axes obj ;;
    foldM (fun data signal =>
             st <- attr_d__data obj ;;
             d <- getitem st signal ;;
             add_entry data d)
          (dict_keys _signals) data
  else Ok (zeros 1 1).

(** Sums spectra corresponding to different processes into the total
    spectrum *)
Definition _processes_to_total (obj : spectrum) : outcome (ndarray C) :=
  if storage_initialized obj then
    data <- zeros_axes obj ;;
    foldM (fun data process =>
             st <- attr_d__data obj ;;
             d <- getitem st process ;;
             add_entry data d)
          (dict_keys _processes) data
  else Ok (zeros 1 1).

(** The call [_types_to_processes(process)] of [_types_to_total]: one
    argument for the two parameters [(obj, process)], which Python
    refuses with a [TypeError] before the body runs. *)
Definition _types_to_processes_1 (process : string)
  : outcome (ndarray C) :=
  Raise TypeError.

(** Sums all pathways into the total spectrum *)
Definition _types_to_total (obj : spectrum) : outcome (ndarray C) :=
  if storage_initialized obj then
    data <- zeros_axes obj ;;
    (* sum over all processes *)
    foldM (fun data process =>
             d <- _types_to_processes_1 process ;; iadd data d)
          (dict_keys _processes) data
  else Ok (zeros 1 1).

(** *** The storage property [d__data] *)

(** The getter.  A call that runs off the end of the function returns
    Python's [None], here [Ok None]. *)
Definition d__data_get (self : spectrum) : outcome (option (value C)) :=
  storage <- attr_d__data self ;;
  if String.eqb (storage_resolution self) "pathways" then
    (* with pathway resolution => type and tag has to be specified *)
    match current_dtype self with
    | None => Ok None
    | Some cd =>
      if in_list cd _ptypes then
        if storage_initialized self then
          match getitem storage cd with
          | Raise _ => z <- zeros_axes self ;; Ok (Some (VArr z))
          | Ok piece =>
            match current_tag self with
            | Some tag =>
              (* return as pathway *)
              match piece with
              | VDict p => a <- getitem p (Some tag) ;; Ok (Some (VArr a))
              | VArr _ => Raise IndexError
              end
            | None =>
              (* return as type: tag not specified so we add up all
                 pathways of a given type *)
              match piece with
              | VDict p =>
                match dict_values p with
                | [] => Raise UnboundLocalError
                | dat :: rest =>
                  data <- foldM iadd rest dat ;; Ok (Some (VArr data))
                end
              | VArr _ => Raise IndexError
              end
            end
          end
        else Ok (Some (VArr (zeros 1 1)))
      else if dict_mem _processes cd then
        (* return as process *)
        d <- _pathways_to_processes self cd ;; Ok (Some (VArr d))
      else if dict_mem _signals cd then
        (* return as signals *)
        d <- _pathways_to_signals self cd ;; Ok (Some (VArr d))
      else if String.eqb cd "total" then
        (* return total spectrum *)
        d <- _pathways_to_total self ;; Ok (Some (VArr d))
      else Ok None
    end
  else if String.eqb (storage_resolution self) "types" then
    match current_dtype self with
    | None => Ok None
    | Some cd =>
      if in_list cd _ptypes then
        v <- getitem storage cd ;; Ok (Some v)
      else if dict_mem _processes cd then
        d <- _types_to_processes self cd ;; Ok (Some (VArr d))
      else if dict_mem _signals cd then
        d <- _types_to_signals self cd ;; Ok (Some (VArr d))
      else if String.eqb cd "total" then
        d <- _types_to_total self ;; Ok (Some (VArr d))
      else Ok None
    end
  else if String.eqb (storage_resolution self) "processes" then
    match current_dtype self with
    | None => Ok None
    | Some cd =>
      if dict_mem _processes cd then
        v <- getitem storage cd ;; Ok (Some v)
      else if String.eqb cd "total" then
        d <- _processes_to_total self ;; Ok (Some (VArr d))
      else Ok None
    end
  else if String.eqb (storage_resolution self) "signals" then
    match current_dtype self with
    | None => Ok None
    | Some cd =>
      if dict_mem _signals cd then
        v <- getitem storage cd ;; Ok (Some v)
      else if String.eqb cd "total" then
        d <- _signals_to_total self ;; Ok (Some (VArr d))
      else Ok None
    end
  else Raise (Exception "not implemented").

(** The setter.  The test of the shape of [value] stands in the source
    after the [raise] of the duplicate tag, inside the same [if]: it is
    never reached, and so has no counterpart here. *)
Definition d__data_set (value : pyarg C) : M unit := fun self =>
  let self :=
    if negb (storage_initialized self)
    then with_storage_initialized true (with_d__data (Some []) self)
    else self in
  match value with
  | Arr a =>
    match attr_d__data self with
    | Raise e => (Raise e, self)
    | Ok storage =>
      (* with pathway resolution => type and tag has to be specified *)
      if String.eqb (storage_resolution self) "pathways" then
        match current_dtype self with
        | Some cd =>
          if in_list cd _ptypes then
            (* get the dictionary of pathways with a given type; if it
               does not exist, create it *)
            let storage :=
              match dict_get storage cd with
              | Some _ => storage
              | None => dict_set storage cd (VDict [])
              end in
            match dict_get storage cd with
            | Some (VDict piece) =>
              if dict_mem piece (current_tag self) then
                (* if the tag exists raise Exception *)
                (Raise (Exception "Tag already exists"),
                 with_d__data (Some storage) self)
              else
                (Ok tt,
                 with_d__data
                   (Some (dict_set storage cd
                            (VDict (dict_set piece (current_tag self) a))))
                   self)
            | _ =>
              (* an array has no method [keys] *)
              (Raise AttributeError, with_d__data (Some storage) self)
            end
          else (Raise (Exception "Wrong pathways type"), self)
        | None => (Raise (Exception "Wrong pathways type"), self)
        end
      else (Ok tt, self)
    end
  | NotArray => (Raise TypeError, self)
  end.

(** *** Methods of [TwoDSpectrumBase] *)

(** Sets the x-axis of the spectrum (omega_1 axis) *)
Definition set_axis_1 (axis : FrequencyAxis.t) : M unit := fun self =>
  (Ok tt, with_xaxis (Some axis) self).

(** Sets the y-axis of the spectrum (omega_3 axis) *)
Definition set_axis_3 (axis : FrequencyAxis.t) : M unit := fun self =>
  (Ok tt, with_yaxis (Some axis) self).

Definition dtypes : list string := ["Tot"; "Reph"; "Nonr"].

(** [a != b] for two values that are strings or [None]. *)
Definition py_ne (a b : option string) : bool := negb (option_string_eqb a b).

Definition set_data_type (dtype : string) : M unit := fun self =>
  if in_list dtype dtypes then (Ok tt, with_dtype (Some dtype) self)
  else (Raise (Exception "Unknown data type for TwoDSpectrum object"), self).

(** The attributes [dtype] and [data], under names that the parameters
    of the methods do not hide. *)
Definition self_dtype (self : spectrum) : option string := dtype self.
Definition self_data (self : spectrum) : option (ndarray C) := data self.

(** [set_data]; the argument [dtype] is a string or [None]. *)
Definition set_data (data : ndarray C) (dtype : option string) : M unit :=
  fun self =>
  let checked : outcome unit * spectrum :=
    match self_dtype self with
    | None =>
      match dtype with
      | Some d => if in_list d dtypes then (Ok tt, with_dtype dtype self)
                  else (Ok tt, self)
      | None => (Ok tt, self)
      end
    | Some _ =>
      if py_ne dtype (self_dtype self) then
        (Raise (Exception "Incorrect data type in TwoDSpectrum"), self)
      else (Ok tt, self)
    end in
  match checked with
  | (Raise e, self) => (Raise e, self)
  | (Ok _, self) =>
    match dtype with
    | Some d =>
      if String.eqb d "Tot" then (Ok tt, with_data (Some data) self)
      else if String.eqb d "Reph" then (Ok tt, with_reph2D (Some data) self)
      else if String.eqb d "Nonr" then (Ok tt, with_nonr2D (Some data) self)
      else
        (Raise (Exception (String.append "Unknow type of data: " d)), self)
    | None => (Raise TypeError, self)   (* str + None *)
    end
  end.

(** [if acc is None: acc = numpy.zeros(data.shape, dtype=data.dtype)] *)
Definition lazy_zeros (acc : option (ndarray C)) (data : ndarray C)
  : ndarray C :=
  match acc with
  | None => zeros (fst (shape data)) (snd (shape data))
  | Some a => a
  end.

(** [add_data].  The first test is on the argument [dtype], not on the
    attribute: with an argument that is not [None], the call goes on
    only if the attribute [dtype] already equals it. *)
Definition add_data (data : ndarray C) (dtype : option string) : M unit :=
  fun self =>
  match dtype with
  | None =>
    (* [None in self.dtypes] is false; then no branch applies and
       the message cannot be built from [None] *)
    (Raise TypeError, self)
  | Some d =>
    if py_ne dtype (self_dtype self) then
      (Raise (Exception "Incorrect data type in TwoDSpectrum"), self)
    else if String.eqb d "Tot" then
      let acc := lazy_zeros (self_data self) data in
      match iadd acc data with
      | Ok a => (Ok tt, with_data (Some a) self)
      | Raise e => (Raise e, with_data (Some acc) self)
      end
    else if String.eqb d "Reph" then
      let acc := lazy_zeros (reph2D self) data in
      match iadd acc data with
      | Ok a => (Ok tt, with_reph2D (Some a) self)
      | Raise e => (Raise e, with_reph2D (Some acc) self)
      end
    else if String.eqb d "Nonr" then
      let acc := lazy_zeros (nonr2D self) data in
      match iadd acc data with
      | Ok a => (Ok tt, with_nonr2D (Some a) self)
      | Raise e => (Raise e, with_nonr2D (Some acc) self)
      end
    else (Raise (Exception (String.append "Unknow type of data: " d)), self)
  end.

(** Sets a flag by which data will be retrieved and saved *)
Definition set_data_flag (f : flag) : M unit := fun self =>
  match f with
  | FlagList l =>
    match py_index l 0 with
    | Raise e => (Raise e, self)
    | Ok d =>
      let self := with_flag d (current_tag self) (address_length self) self in
      match py_index l 1 with
      | Raise IndexError =>
        (Raise (Exception
                  "flag in form of a list must have two elements"), self)
      | Raise e => (Raise e, self)
      | Ok t => (Ok tt, with_flag d t 2 self)
      end
    end
  | FlagAtom x => (Ok tt, with_flag x None 1 self)
  end.

(** The body of the loop [for dtype in _ptypes] of the conversion of
    "pathways" to "types": the local variables [storage] and
    [data_present] before and after one round. *)
Definition sum_pathways_of_type (self : spectrum) (acc : storage C * bool)
  (dtype : string) : outcome (storage C * bool) :=
  let '(storage, data_present) := acc in
  (* get a dictionary of pathways of a given type *)
  let '(pdict, data_present) :=
    match attr_d__data self with
    | Ok st =>
      match dict_get st dtype with
      | Some v => (v, data_present)
      | None => (VDict [], data_present)  (* KeyError: ignore if absent *)
      end
    | Raise _ => (VDict [], false)        (* AttributeError: no data *)
    end in
  (* sum all data *)
  data <- (if data_present then zeros_axes self else Ok (zeros 1 1)) ;;
  data <- match pdict with
          | VDict p => foldM (fun data kv => iadd data (snd kv)) p data
          | VArr _ => Raise AttributeError  (* no method [keys] *)
          end ;;
  Ok (dict_set storage dtype (VArr data), data_present).

(** Converts storage from one level of resolution to another *)
Definition _convert_resolution (old new : nat) : M unit := fun self =>
  if (old =? 4) && (new =? 3) then
    (* convert "pathways" to "types" *)
    match
      foldM (sum_pathways_of_type self) _ptypes (([] : storage C), true)
    with
    | Ok (storage, _) => (Ok tt, with_d__data (Some storage) self)
    | Raise e => (Raise e, self)
    end
  else if (old =? 3) && (new =? 2) then
    (* convert "types" to "processes" *)
    match
      foldM (fun (storage : storage C) process =>
               data <- _types_to_processes self process ;;
               Ok (dict_set storage process (VArr data)))
            (dict_keys _processes) []
    with
    | Ok storage => (Ok tt, with_d__data (Some storage) self)
    | Raise e => (Raise e, self)
    end
  else if (old =? 3) && (new =? 1) then
    (* convert "types" to "signals" *)
    match
      foldM (fun (storage : storage C) signal =>
               data <- _types_to_signals self signal ;;
               Ok (dict_set storage signal (VArr data)))
            (dict_keys _signals) []
    with
    | Ok storage => (Ok tt, with_d__data (Some storage) self)
    | Raise e => (Raise e, self)
    end
  else if (old =? 1) && (new =? 0) then
    (* converts "signals" to "off": the dictionary built here is a local
       variable which is not assigned to the object *)
    match _signals_to_total self with
    | Ok data => let storage : storage C := dict_set [] "off" (VArr data) in
                 (Ok tt, self)
    | Raise e => (Raise e, self)
    end
  else if (old =? 2) && (new =? 0) then
    (* converts "processes" to "off" *)
    match _processes_to_total self with
    | Ok data => let storage : storage C := dict_set [] "off" (VArr data) in
                 (Ok tt, self)
    | Raise e => (Raise e, self)
    end
  else
    (Raise (Exception
              (String.append "Cannot convert resolution for level "
                 (String.append (str old)
                    (String.append " to level " (str new))))), self).

(** Sets the storage resolution attribute of TwoDSpectrum *)
Definition set_resolution (resolution : string) : M unit := fun self =>
  if in_list resolution _resolutions then
    match _resolution2number (storage_resolution self) with
    | Raise e => (Raise e, self)
    | Ok res_old =>
      match _resolution2number resolution with
      | Raise e => (Raise e, self)
      | Ok res_new =>
        if res_old <? res_new then
          (Raise (Exception
                    "Cannot convert from lower to higher resolution"), self)
        else if res_new <? res_old then
          (* recalculate data towards lower resolution *)
          match _convert_resolution res_old res_new self with
          | (Ok _, self) => (Ok tt, with_storage_resolution resolution self)
          | (Raise e, self) => (Raise e, self)
          end
        else (Ok tt, with_storage_resolution resolution self)
      end
    end
  else
    (Raise (Exception (String.append "Unknown resolution: " resolution)),
     self).

(** Adds data to this 2D spectrum *)
Definition _add_data (data : pyarg C) (resolution : option string)
  (dtype : string) (tag : option string) : M unit := fun self =>
  let checked : outcome string :=
    match resolution with
    | None => Ok (storage_resolution self)
    | Some resolution =>
      res1 <- _resolution2number resolution ;;
      res2 <- _resolution2number (storage_resolution self) ;;
      if res1 <=? res2 then Ok resolution
      else Raise (Exception
                    (String.append
                       "This TwoDSpectrum does not have enough resolution to add data with resolution = "
                       resolution))
    end in
  match checked with
  | Raise e => (Raise e, self)
  | Ok resolution =>
    if String.eqb resolution "pathways" then
      if in_list dtype _ptypes then
        match tag with
        | Some _ =>
          match set_data_flag (FlagList [Some dtype; tag]) self with
          | (Ok _, self) => d__data_set data self
          | (Raise e, self) => (Raise e, self)
          end
        | None =>
          (Raise (Exception "Tag for Liouville pathway not specified"), self)
        end
      else
        (Raise (Exception
                  (String.append "Unknown type of Liouville pathway: " dtype)),
         self)
    else (Ok tt, self)
  end.

(** Sequencing of method calls on one object. *)
Definition mbind {A B : Type} (m : M A) (k : A -> M B) : M B := fun self =>
  match m self with
  | (Ok a, self) => k a self
  | (Raise e, self) => (Raise e, self)
  end.

Definition mthen {A B : Type} (m : M A) (k : M B) : M B :=
  mbind m (fun _ => k).

(** Reading through the property after setting the flag:
    [self.set_data_flag(f); self.d__data]. *)
Definition read (f : flag) : M (option (value C)) :=
  mthen (set_data_flag f) (fun self => (d__data_get self, self)).

End Spectrum.

Notation "m1 >> m2" := (mthen m1 m2) (at level 62, left associativity).


(* ================================================================== *)
(** ** Lineshapes of Liouville pathways *)
(* ================================================================== *)

Local Open Scope R_scope.

(** Complex numbers with real parts. *)
Record complex : Type := mk_complex { re : R; im : R }.

#[export] Instance complex_Numeric : Numeric complex :=
  {| czero := mk_complex 0 0;
     cadd := fun a b => mk_complex (re a + re b) (im a + im b) |}.

(** [z * x] for a real [x] *)
Definition cscale (z : complex) (x : R) : complex :=
  mk_complex (re z * x) (im z * x).

(** [numpy.abs(z)], a real number *)
Definition cabs (z : complex) : complex :=
  mk_complex (sqrt (re z ^ 2 + im z ^ 2)) 0.

Module LiouvillePathway.
(** Modelled from the spec: the pathway descriptor is an object of
    another module, a record with [pathway_type] (R or NR), [order],
    [relax_order], the centre frequencies [frequency], the prefactor
    [pref] and the per-axis parameters [widths] and [dephs], where a
    negative value asks for the default. *)
Record t : Type := mk {
  pathway_type : string;
  order : Z;
  relax_order : Z;
  frequency : list R;
  pref : complex;
  widths : list R;
  dephs : list R
}.
End LiouvillePathway.

Module MockTwoDSpectrumCalculator.
(** The attributes of a [MockTwoDSpectrumCalculator] after [bootstrap]
    that [calculate_pathway] reads.  The defaults [widthx], [widthy],
    [dephx] and [dephy] are set to [convert(300, "1/cm", "int")] by
    [__init__], where [convert] belongs to another module, and can be
    changed by [set_width] and [set_deph]: they are arbitrary here. *)
Record t : Type := mk {
  widthx : R;
  widthy : R;
  dephx : R;
  dephy : R;
  all_positive : bool;
  oa1 : FrequencyAxis.t;
  oa3 : FrequencyAxis.t
}.
End MockTwoDSpectrumCalculator.

Module Mock := MockTwoDSpectrumCalculator.

(** The four parameters of the line, in the order
    [(widthx, widthy, dephx, dephy)]: the descriptor's value, or the
    default of the calculator for a negative one.  This is the block of
    four [if]s of [calculate_pathway]; the last one tests [widths[3]]
    and then reads [dephs[3]]. *)
Definition line_parameters (self : Mock.t) (pathway : LiouvillePathway.t)
  : outcome (R * R * R * R) :=
  let widths := LiouvillePathway.widths pathway in
  let dephs := LiouvillePathway.dephs pathway in
  w1 <- py_index widths 1%Z ;;
  widthx <- (if Rlt_dec w1 0 then Ok (Mock.widthx self)
             else py_index widths 1%Z) ;;
  w3 <- py_index widths 3%Z ;;
  widthy <- (if Rlt_dec w3 0 then Ok (Mock.widthy self)
             else py_index widths 3%Z) ;;
  d1 <- py_index dephs 1%Z ;;
  dephx <- (if Rlt_dec d1 0 then Ok (Mock.dephx self)
            else py_index dephs 1%Z) ;;
  w3 <- py_index widths 3%Z ;;
  dephy <- (if Rlt_dec w3 0 then Ok (Mock.dephy self)
            else py_index dephs 3%Z) ;;
  Ok (widthx, widthy, dephx, dephy).

(** [pref*numpy.exp(-((o1-cen1)/widthx)**2)
         *numpy.exp(-((oo3-cen3)/widthy)**2)].  With a width that is
    zero [numpy] divides by zero, which the real numbers do not render:
    the statements about the values take widths that are not zero. *)
Definition gaussian_column (pref : complex) (o1 cen1 widthx : R)
  (oo3 : list R) (cen3 widthy : R) : list complex :=
  map (fun o3 =>
         cscale (cscale pref (exp (- ((o1 - cen1) / widthx) ^ 2)))
                (exp (- ((o3 - cen3) / widthy) ^ 2)))
      oo3.

(** [pref*(dephx/((o1-cen1)**2 + dephx**2))
         *(dephy/((oo3-cen3)**2 + dephy**2))], for denominators that
    are not zero. *)
Definition lorentzian_column (pref : complex) (o1 cen1 dephx : R)
  (oo3 : list R) (cen3 dephy : R) : list complex :=
  map (fun o3 =>
         cscale (cscale pref (dephx / ((o1 - cen1) ^ 2 + dephx ^ 2)))
                (dephy / ((o3 - cen3) ^ 2 + dephy ^ 2)))
      oo3.

(** The loop [for i1 in range(N1)] that fills column [i1] of the array
    from [o1 = -self.oa1.data[i1]] (rephasing) or [o1 = self.oa1.data[i1]]
    (non-rephasing). *)
Definition fill_columns (self : Mock.t) (sample : R -> R)
  (column : R -> list complex) (N1 : nat) (arr : ndarray complex)
  : outcome (ndarray complex) :=
  foldM (fun arr i1 =>
           x <- py_index (FrequencyAxis.data (Mock.oa1 self))
                         (Z.of_nat i1) ;;
           let o1 := sample x in
           set_column arr i1 (column o1))
        (seq 0%nat N1) arr.

(** Calculate the shape of a Liouville pathway.  A pathway type other
    than "R" and "NR" runs off the end of the function: [Ok None]. *)
Definition calculate_pathway (self : Mock.t) (pathway : LiouvillePathway.t)
  (shape : string) : outcome (option (ndarray complex)) :=
  let noe := (1 + LiouvillePathway.order pathway
                + LiouvillePathway.relax_order pathway)%Z in
  cen1 <- py_index (LiouvillePathway.frequency pathway) 0%Z ;;
  cen3 <- py_index (LiouvillePathway.frequency pathway) (noe - 2) ;;
  let pref :=
    if Mock.all_positive self then cabs (LiouvillePathway.pref pathway)
    else LiouvillePathway.pref pathway in
  let N1 := FrequencyAxis.length (Mock.oa1 self) in
  let N3 := FrequencyAxis.length (Mock.oa3 self) in
  params <- line_parameters self pathway ;;
  let '(widthx, widthy, dephx, dephy) := params in
  let oo3 := FrequencyAxis.data (Mock.oa3 self) in
  if String.eqb (LiouvillePathway.pathway_type pathway) "R" then
    let reph2D := zeros N1 N3 in
    if String.eqb shape "Gaussian" then
      reph2D <- fill_columns self Ropp
                  (fun o1 => gaussian_column pref o1 cen1 widthx
                               oo3 cen3 widthy) N1 reph2D ;;
      Ok (Some reph2D)
    else if String.eqb shape "Lorentzian" then
      reph2D <- fill_columns self Ropp
                  (fun o1 => lorentzian_column pref o1 cen1 dephx
                               oo3 cen3 dephy) N1 reph2D ;;
      Ok (Some reph2D)
    else Raise (Exception (String.append "Unknown line shape: " shape))
  else if String.eqb (LiouvillePathway.pathway_type pathway) "NR" then
    let nonr2D := zeros N1 N3 in
    if String.eqb shape "Gaussian" then
      nonr2D <- fill_columns self (fun x => x)
                  (fun o1 => gaussian_column pref o1 cen1 widthx
                               oo3 cen3 widthy) N1 nonr2D ;;
      Ok (Some nonr2D)
    else if String.eqb shape "Lorentzian" then
      nonr2D <- fill_columns self (fun x => x)
                  (fun o1 => lorentzian_column pref o1 cen1 dephx
                               oo3 cen3 dephy) N1 nonr2D ;;
      Ok (Some nonr2D)
    else Raise (Exception (String.append "Unknown line shape: " shape))
  else Ok None.

Local Close Scope R_scope.

(* ================================================================== *)
(** ** Vocabulary of the statements *)
(* ================================================================== *)

(** The level of a resolution name, as [_resolution2number] counts it
    (5 for a string that names no resolution). *)
Definition level (res : string) : nat := index_of res _resolutions.

(** The five conversions between different resolutions. *)
Definition lowering (old new : string) : bool :=
  (String.eqb old "pathways" && String.eqb new "types")
  || (String.eqb old "types" && String.eqb new "processes")
  || (String.eqb old "types" && String.eqb new "signals")
  || (String.eqb old "signals" && String.eqb new "off")
  || (String.eqb old "processes" && String.eqb new "off").

(** The transitions along which a resolution can be set: the five
    conversions, and staying at the current resolution. *)
Definition allowed (old new : string) : bool :=
  lowering old new || (in_list old _resolutions && String.eqb old new).

(** The keys that the storage holds at a resolution. *)
Definition keys_of (res : string) : list string :=
  if String.eqb res "types" then _ptypes
  else if String.eqb res "processes" then dict_keys _processes
  else if String.eqb res "signals" then dict_keys _signals
  else [].

(** The data types that the getter serves at a resolution below
    "pathways". *)
Definition served (res dtype : string) : bool :=
  if String.eqb res "types" then
    in_list dtype _ptypes || dict_mem _processes dtype
    || dict_mem _signals dtype || String.eqb dtype "total"
  else if String.eqb res "processes" then
    dict_mem _processes dtype || String.eqb dtype "total"
  else if String.eqb res "signals" then
    dict_mem _signals dtype || String.eqb dtype "total"
  else false.

(** The data types that name a pathway type, a process, a signal or the
    total. *)
Definition recognized (dtype : string) : bool :=
  in_list dtype _ptypes || dict_mem _processes dtype
  || dict_mem _signals dtype || String.eqb dtype "total".

Section Vocabulary.
Context {C : Type} `{Numeric C}.

Local Abbreviation spectrum := (TwoDSpectrum C).

(** Can [a] be added to an accumulator of shape [tgt]? *)
Definition fits (tgt : nat * nat) (a : ndarray C) : bool :=
  broadcastable (shape a) (fst tgt) (snd tgt).

(** An entry of the "pathways" storage: absent, or a dictionary of
    arrays that fit. *)
Definition piece_fits (tgt : nat * nat) (v : option (value C)) : bool :=
  match v with
  | None => true
  | Some (VDict p) => forallb (fun kv => fits tgt (snd kv)) p
  | Some (VArr _) => false
  end.

(** An entry of a lower resolution: an array that fits; [required]
    tells whether the key may be absent. *)
Definition entry_fits (required : bool) (tgt : nat * nat)
  (v : option (value C)) : bool :=
  match v with
  | None => negb required
  | Some (VArr a) => fits tgt a
  | Some (VDict _) => false
  end.

(** An entry that is an array of the shape [tgt]. *)
Definition of_shape (tgt : nat * nat) (kv : string * value C) : Prop :=
  exists a, snd kv = VArr a /\ shape a = tgt.

(** The shape of the accumulators of a spectrum: that of the axes once
    the storage is initialized, 1 by 1 before. *)
Definition accumulator_shape (s : spectrum) : option (nat * nat) :=
  if storage_initialized s then
    match axes_shape s with Ok tgt => Some tgt | Raise _ => None end
  else Some (1, 1).

(** The storage agrees with the axes: every array that a conversion
    from the current resolution adds up can be added to its
    accumulator, and every key that it reads is there. *)
Definition consistent (s : spectrum) : bool :=
  let res := storage_resolution s in
  if String.eqb res "pathways" then
    match _d__data s with
    | None => negb (storage_initialized s)
    | Some st =>
      storage_initialized s
      && match axes_shape s with
         | Ok tgt => forallb (fun t => piece_fits tgt (dict_get st t)) _ptypes
         | Raise _ => false
         end
    end
  else if String.eqb res "types" then
    match accumulator_shape s, _d__data s with
    | Some tgt, Some st =>
      forallb (fun t => entry_fits false tgt (dict_get st t)) _ptypes
    | _, _ => false
    end
  else if String.eqb res "processes" || String.eqb res "signals" then
    negb (storage_initialized s)
    || match axes_shape s, _d__data s with
       | Ok tgt, Some st =>
         forallb (fun k => entry_fits true tgt (dict_get st k)) (keys_of res)
       | _, _ => false
       end
  else String.eqb res "off".

(** The tagged pathways of a type in a "pathways" storage. *)
Definition piece_of (st : storage C) (dtype : string)
  : dict (option string) (ndarray C) :=
  match dict_get st dtype with
  | Some (VDict p) => p
  | _ => []
  end.

(** Is the pair (type, tag) populated? *)
Definition populated (s : spectrum) (dtype tag : string) : bool :=
  storage_initialized s
  && match _d__data s with
     | Some st => dict_mem (piece_of st dtype) (Some tag)
     | None => false
     end.

(** A spectrum at resolution "pathways" as the setter leaves it: once
    initialized it has a storage, which holds dictionaries of tagged
    pathways. *)
Definition pathways_store (s : spectrum) : bool :=
  String.eqb (storage_resolution s) "pathways"
  && (negb (storage_initialized s)
      || match _d__data s with
         | Some st =>
           forallb (fun kv => match snd kv with
                              | VDict _ => true
                              | VArr _ => false
                              end) st
         | None => false
         end).

(** A spectrum that was never written to, after its resolution was
    lowered: the storage holds the 1 by 1 zero array under every key of
    the resolution. *)
Definition unwritten (s : spectrum) : Prop :=
  storage_initialized s = false
  /\ exists st, _d__data s = Some st
     /\ forall k, In k (keys_of (storage_resolution s)) ->
                  dict_get st k = Some (VArr (zeros 1 1)).

(** The elementwise sum of two arrays of one shape. *)
Definition is_sum (y a b : ndarray C) : Prop :=
  shape y = shape a
  /\ forall i j, i < fst (shape a) -> j < snd (shape a) ->
       get y i j = cadd (get a i j) (get b i j).

End Vocabulary.

(** *** Concrete spectra over the integers *)

Definition axis_of_length (n : nat) : FrequencyAxis.t :=
  FrequencyAxis.mk n [].

Definition arr_1x1 : ndarray Z := {| shape := (1, 1); buf := [7%Z] |}.
Definition arr_2x2 : ndarray Z :=
  {| shape := (2, 2); buf := [1; 2; 3; 4]%Z |}.
Definition arr_2x2' : ndarray Z :=
  {| shape := (2, 2); buf := [10; 20; 30; 40]%Z |}.
Definition arr_1x3 : ndarray Z := {| shape := (1, 3); buf := [1; 2; 3]%Z |}.
Definition arr_2x3 : ndarray Z :=
  {| shape := (2, 3); buf := [1; 2; 3; 4; 5; 6]%Z |}.

(** A new spectrum with axes of lengths [n] and [m]. *)
Definition fresh_with_axes (n m : nat) : TwoDSpectrum Z :=
  snd ((set_axis_1 (axis_of_length n) >> set_axis_3 (axis_of_length m))
         __init__).

(** Two pathways of type R1g and one of type R2g on a 2 by 2 grid. *)
Definition three_pathways : TwoDSpectrum Z :=
  snd ((_add_data (Arr arr_2x2) None "R1g" (Some "a")
        >> _add_data (Arr arr_2x2') None "R1g" (Some "b")
        >> _add_data (Arr arr_2x2) None "R2g" (Some "c"))
         (fresh_with_axes 2 2)).

(** A pathway stored on a 2 by 3 grid, whose first axis is then replaced
    by one of length 3. *)
Definition axis_replaced : TwoDSpectrum Z :=
  snd ((_add_data (Arr arr_2x3) None "R1g" (Some "a")
        >> set_axis_1 (axis_of_length 3))
         (fresh_with_axes 2 3)).

(** A new spectrum lowered to "off" without ever being written to. *)
Definition lowered_to_off : TwoDSpectrum Z :=
  snd ((set_resolution "types" >> set_resolution "signals"
        >> set_resolution "off") __init__).

(** *** Vocabulary of the statements about lineshapes *)

Local Open Scope R_scope.

(** [i] is the index of a sample of [l] nearest to [x]. *)
Definition nearest (l : list R) (x : R) (i : nat) : Prop :=
  (i < List.length l)%nat
  /\ forall j, (j < List.length l)%nat ->
       Rabs (nth i l 0 - x) <= Rabs (nth j l 0 - x).

(** The real part of [arr] is largest at the entry [(i, j)]. *)
Definition peak_at (arr : ndarray complex) (i j : nat) : Prop :=
  forall a b, (a < fst (shape arr))%nat -> (b < snd (shape arr))%nat ->
    re (get arr a b) <= re (get arr i j).

(** A descriptor with centre frequencies (100, 100), prefactor 1.0 and
    default widths (negative [widths[1]] and [widths[3]]). *)
Definition centred_100_100 (p : LiouvillePathway.t) : Prop :=
  let noe := (1 + LiouvillePathway.order p
                + LiouvillePathway.relax_order p)%Z in
  py_index (LiouvillePathway.frequency p) 0%Z = Ok 100
  /\ py_index (LiouvillePathway.frequency p) (noe - 2)%Z = Ok 100
  /\ LiouvillePathway.pref p = mk_complex 1 0
  /\ (exists w1, py_index (LiouvillePathway.widths p) 1%Z = Ok w1 /\ w1 < 0)
  /\ (exists w3, py_index (LiouvillePathway.widths p) 3%Z = Ok w3 /\ w3 < 0)
  /\ (exists d1, py_index (LiouvillePathway.dephs p) 1%Z = Ok d1).

(** An axis object whose [length] is the number of its samples. *)
Definition axis_ok (a : FrequencyAxis.t) : Prop :=
  FrequencyAxis.length a = List.length (FrequencyAxis.data a).

(** *** Concrete calculators and descriptors *)

(** One sample at frequency 0 on each axis; default dephasings 2. *)
Definition one_point_calculator : Mock.t :=
  Mock.mk 300 300 2 2 false (FrequencyAxis.mk 1 [0]) (FrequencyAxis.mk 1 [0]).

(** A non-rephasing pathway at (0, 0) whose widths are left to the
    defaults and whose dephasings are given: [dephs[3]] is 5. *)
Definition given_dephasing : LiouvillePathway.t :=
  LiouvillePathway.mk "NR" 3 0 [0; 0; 0] (mk_complex 1 0)
    [-1; -1; -1; -1] [1; 1; 1; 5].

(** A non-rephasing pathway at (0, 0) whose widths are given and whose
    dephasings are left to the defaults: [dephs[3]] is -1. *)
Definition default_dephasing : LiouvillePathway.t :=
  LiouvillePathway.mk "NR" 3 0 [0; 0; 0] (mk_complex 1 0)
    [10; 10; 10; 10] [-1; -1; -1; -1].

(** Three samples -100, 0, 100 on each axis. *)
Definition three_point_calculator : Mock.t :=
  Mock.mk 300 300 300 300 false
    (FrequencyAxis.mk 3 [-100; 0; 100]) (FrequencyAxis.mk 3 [-100; 0; 100]).

Definition rephasing_100_100 : LiouvillePathway.t :=
  LiouvillePathway.mk "R" 3 0 [100; 0; 100] (mk_complex 1 0)
    [-1; -1; -1; -1] [-1; -1; -1; -1].

Definition nonrephasing_100_100 : LiouvillePathway.t :=
  LiouvillePathway.mk "NR" 3 0 [100; 0; 100] (mk_complex 1 0)
    [-1; -1; -1; -1] [-1; -1; -1; -1].

Local Close Scope R_scope.

(* ================================================================== *)
(** ** Further functions of the module *)
(* ================================================================== *)

Section MoreOfTheStore.
Context {C : Type} `{Numeric C}.

Local Abbreviation spectrum := (TwoDSpectrum C).

(** Returns tags of the pathways stored under "pathways" resolution, as
    pairs of a type and a tag. *)
Definition get_all_tags (self : spectrum)
  : outcome (list (string * option string)) :=
  foldM (fun tags typ =>
           pdict <- match (st <- attr_d__data self ;; getitem st typ) with
                    | Ok pdict => Ok pdict
                    | Raise KeyError => Ok (VDict [])
                    | Raise e => Raise e
                    end ;;
           match pdict with
           | VDict p => Ok (tags ++ map (fun key => (typ, key)) (dict_keys p))
           | VArr _ => Raise AttributeError  (* no method [keys] *)
           end)
        _ptypes [].

(** The array that belongs to a data type: [data] for "Tot", [reph2D]
    for "Reph", [nonr2D] for "Nonr". *)
Definition array_of (dtype : string) (s : spectrum) : option (ndarray C) :=
  if String.eqb dtype "Tot" then self_data s
  else if String.eqb dtype "Reph" then reph2D s
  else if String.eqb dtype "Nonr" then nonr2D s
  else None.

(** The buffer of an array has as many entries as its shape says. *)
Definition well_formed (a : ndarray C) : Prop :=
  List.length (buf a) = fst (shape a) * snd (shape a).

(** The value of an entry of the storage at a point of the grid. *)
Definition point (i j : nat) (a : ndarray C) : C := bget a i j.

(** The sum of the values of arrays at a point, from the left. *)
Definition sum_at (i j : nat) (l : list (ndarray C)) (start : C) : C :=
  fold_left (fun acc a => cadd acc (point i j a)) l start.

(** The pathways of a list of types, in the order of the loops. *)
Definition pathways_of (st : storage C) (types : list string)
  : list (ndarray C) :=
  flat_map (fun t => dict_values (piece_of st t)) types.

End MoreOfTheStore.

(** *** Double-precision complex numbers

    The arrays of the module are [numpy] arrays of [COMPLEX], that is
    [complex128]: two binary64 numbers, added componentwise. *)
Record complex128 : Type :=
  mk_complex128 { re64 : PrimFloat.float; im64 : PrimFloat.float }.

#[export] Instance complex128_Numeric : Numeric complex128 :=
  {| czero := mk_complex128 PrimFloat.zero PrimFloat.zero;
     cadd := fun a b =>
               mk_complex128 (PrimFloat.add (re64 a) (re64 b))
                             (PrimFloat.add (im64 a) (im64 b)) |}.

(** A 1 by 1 array with a real entry. *)
Definition real_1x1 (x : PrimFloat.float) : ndarray complex128 :=
  {| shape := (1, 1); buf := [mk_complex128 x PrimFloat.zero] |}.

Section Doubles.
Import PrimFloat.

(** A spectrum on a 1 by 1 grid with one pathway of type R1g, of value
    1e16, and two of type R2g, of value 1 each. *)
Definition large_and_small : TwoDSpectrum complex128 :=
  snd ((set_axis_1 (axis_of_length 1) >> set_axis_3 (axis_of_length 1)
        >> _add_data (Arr (real_1x1 1e16%float)) None "R1g" (Some "a")
        >> _add_data (Arr (real_1x1 1%float)) None "R2g" (Some "b")
        >> _add_data (Arr (real_1x1 1%float)) None "R2g" (Some "c")
        >> set_data_flag (FlagAtom (Some "GSB")))
         __init__).

End Doubles.

(* ================================================================== *)
(** ** The spectrum of a list of pathways *)
(* ================================================================== *)

Local Open Scope R_scope.

(** The body of the loop [for pwy in self.pathways] of [calculate_one]
    and [calculate] of the mock calculator.  Where [calculate_pathway]
    has returned [None], [add_data] is not reached; were it called with
    [None], the test of the data type would come first, and then [None]
    has no [shape] and cannot be added to an array. *)
Definition add_pathway (self : Mock.t) (shape : string)
  (onetwod : TwoDSpectrum complex) (pwy : LiouvillePathway.t)
  : outcome (TwoDSpectrum complex) :=
  data <- calculate_pathway self pwy shape ;;
  let add_data' (dtype : string) :=
    match data with
    | Some data =>
      match add_data data (Some dtype) onetwod with
      | (Ok _, onetwod) => Ok onetwod
      | (Raise e, _) => Raise e
      end
    | None =>
      if py_ne (Some dtype) (self_dtype onetwod) then
        Raise (Exception "Incorrect data type in TwoDSpectrum")
      else match array_of dtype onetwod with
           | None => Raise AttributeError
           | Some _ => Raise TypeError
           end
    end in
  if String.eqb (LiouvillePathway.pathway_type pwy) "R" then
    add_data' "Reph"%string
  else if String.eqb (LiouvillePathway.pathway_type pwy) "NR" then
    add_data' "Nonr"%string
  else Raise (Exception "Unknown pathway type").

(** [TwoDSpectrum()] with the two axes of the calculator set. *)
Definition new_onetwod (self : Mock.t) : TwoDSpectrum complex :=
  let onetwod := __init__ in
  let onetwod := snd (set_axis_1 (Mock.oa1 self) onetwod) in
  snd (set_axis_3 (Mock.oa3 self) onetwod).

(** Calculate the 2D spectrum for all pathways.  The attributes
    [pathways] and [shape], which [bootstrap] and [set_pathways] set,
    are arguments here; the result is the spectrum with its waiting
    time [t2]. *)
Definition calculate (self : Mock.t) (pathways : list LiouvillePathway.t)
  (shape : string) : outcome (TwoDSpectrum complex * R) :=
  let onetwod := new_onetwod self in
  onetwod <- foldM (add_pathway self shape) pathways onetwod ;;
  Ok (onetwod, 0).

(** [calculate_one(tc)]: the same with the waiting time
    [self.t2axis.data[tc]]; [t2data] is [self.t2axis.data]. *)
Definition calculate_one (self : Mock.t) (pathways : list LiouvillePathway.t)
  (shape : string) (t2data : list R) (tc : Z)
  : outcome (TwoDSpectrum complex * R) :=
  let onetwod := new_onetwod self in
  onetwod <- foldM (add_pathway self shape) pathways onetwod ;;
  t2 <- py_index t2data tc ;;
  Ok (onetwod, t2).

(** *** Vocabulary of the statements about lines *)

(** The prefactor that [calculate_pathway] uses. *)
Definition prefactor (self : Mock.t) (p : LiouvillePathway.t) : complex :=
  if Mock.all_positive self then cabs (LiouvillePathway.pref p)
  else LiouvillePathway.pref p.

(** The descriptor [p] gives [calculate_pathway] a line centred at
    [(cen1, cen3)] with the widths [widthx] and [widthy]. *)
Definition line_of (self : Mock.t) (p : LiouvillePathway.t)
  (cen1 cen3 widthx widthy : R) : Prop :=
  let noe := (1 + LiouvillePathway.order p
                + LiouvillePathway.relax_order p)%Z in
  py_index (LiouvillePathway.frequency p) 0%Z = Ok cen1
  /\ py_index (LiouvillePathway.frequency p) (noe - 2)%Z = Ok cen3
  /\ exists dephx dephy,
       line_parameters self p = Ok (widthx, widthy, dephx, dephy).

(** The real part of [arr] has a strict peak at the entry [(i3, i1)]:
    it is largest there and positive, and it is strictly smaller at
    every entry [(a, b)] whose sample [a] of the axis [l3] is farther
    from [x3], or whose sample [b] of the axis [l1] is farther from
    [x1].  The first index of the array runs over the samples of
    omega_3, the second over those of omega_1. *)
Definition strict_peak_at (arr : ndarray complex) (l3 l1 : list R)
  (x3 x1 : R) (i3 i1 : nat) : Prop :=
  peak_at arr i3 i1
  /\ 0 < re (get arr i3 i1)
  /\ forall a b, (a < fst (shape arr))%nat -> (b < snd (shape arr))%nat ->
       Rabs (nth i3 l3 0 - x3) < Rabs (nth a l3 0 - x3)
       \/ Rabs (nth i1 l1 0 - x1) < Rabs (nth b l1 0 - x1) ->
       re (get arr a b) < re (get arr i3 i1).

(** Two samples on the first axis, three on the second. *)
Definition two_by_three_calculator : Mock.t :=
  Mock.mk 300 300 300 300 false
    (FrequencyAxis.mk 2 [0; 100]) (FrequencyAxis.mk 3 [-100; 0; 100]).

(** Three samples -100, 0, 100 on each axis, prefactors replaced by
    their absolute values. *)
Definition all_positive_calculator : Mock.t :=
  Mock.mk 300 300 300 300 true
    (FrequencyAxis.mk 3 [-100; 0; 100]) (FrequencyAxis.mk 3 [-100; 0; 100]).

(** A rephasing pathway at (100, -100) with the prefactor -2 + i, its
    widths 50 and 80 given. *)
Definition negative_pathway : LiouvillePathway.t :=
  LiouvillePathway.mk "R" 3 0 [100; 0; -100] (mk_complex (-2) 1)
    [50; 50; 80; 80] [-1; -1; -1; -1].

Local Close Scope R_scope.

(* ================================================================== *)
(** ** Spectra that were never written to *)
(* ================================================================== *)

Section NeverWritten.
Context {C : Type} `{Numeric C}.

Local Abbreviation spectrum := (TwoDSpectrum C).

(** The storage as [__init__] leaves it: the flag is false, the
    attribute [_d__data] is not assigned, the resolution is
    "pathways". *)
Definition new_storage (s : spectrum) : Prop :=
  storage_initialized s = false
  /\ _d__data s = None
  /\ storage_resolution s = "pathways".

(** The spectra reached from a new storage by calls of the methods that
    do not assign [d__data], whether the call returns or raises. *)
Inductive never_written : spectrum -> Prop :=
| nw_new (s : spectrum) :
    new_storage s -> never_written s
| nw_set_resolution (resolution : string) (s : spectrum) :
    never_written s -> never_written (snd (set_resolution resolution s))
| nw_set_data_flag (f : flag) (s : spectrum) :
    never_written s -> never_written (snd (set_data_flag f s))
| nw_set_axis_1 (axis : FrequencyAxis.t) (s : spectrum) :
    never_written s -> never_written (snd (set_axis_1 axis s))
| nw_set_axis_3 (axis : FrequencyAxis.t) (s : spectrum) :
    never_written s -> never_written (snd (set_axis_3 axis s))
| nw_set_data_type (dtype : string) (s : spectrum) :
    never_written s -> never_written (snd (set_data_type dtype s))
| nw_set_data (data : ndarray C) (dtype : option string) (s : spectrum) :
    never_written s -> never_written (snd (set_data data dtype s))
| nw_add_data (data : ndarray C) (dtype : option string) (s : spectrum) :
    never_written s -> never_written (snd (add_data data dtype s)).

(** What holds of the storage of such a spectrum: it is new, or it
    holds the 1 by 1 zero arrays of a lowered resolution, or the
    resolution is "off". *)
Definition placeholders (s : spectrum) : Prop :=
  storage_initialized s = false
  /\ (new_storage s
      \/ ((storage_resolution s = "types"
           \/ storage_resolution s = "processes"
           \/ storage_resolution s = "signals") /\ unwritten s)
      \/ storage_resolution s = "off").

(** Two spectra with the same storage, flag and resolution. *)
Definition same_storage (s s' : spectrum) : Prop :=
  storage_initialized s' = storage_initialized s
  /\ _d__data s' = _d__data s
  /\ storage_resolution s' = storage_resolution s.

End NeverWritten.
(* ================================================================== *)
(** ** Facts about keys and dictionaries *)
(* ================================================================== *)

#[export] Instance string_KeyLaws : @KeyLaws string string_Key.
Proof. constructor. intros a b. apply String.eqb_eq. Qed.

#[export] Instance tag_KeyLaws : @KeyLaws (option string) tag_Key.
Proof.
  constructor. intros a b.
  destruct a as [x|], b as [y|]; simpl; split; intro E;
    try discriminate; try reflexivity.
  - apply String.eqb_eq in E. now subst.
  - injection E as ->. apply String.eqb_refl.
Qed.

#[export] Instance Z_NumericLaws : @NumericLaws Z Z_Numeric.
Proof. constructor. intro x. reflexivity. Qed.

Section DictFacts.
Context {K V : Type} `{KeyLaws K}.

Lemma keqb_refl (k : K) : keqb k k = true.
Proof. now apply keqb_eq. Qed.

Lemma keqb_neq (k k' : K) : k <> k' -> keqb k k' = false.
Proof.
  intro Hne. destruct (keqb k k') eqn:E; [|reflexivity].
  apply keqb_eq in E. contradiction.
Qed.

Lemma dict_get_set_eq (d : dict K V) (k : K) (v : V) :
  dict_get (dict_set d k v) k = Some v.
Proof.
  induction d as [|[k' v'] d IH]; simpl.
  - now rewrite keqb_refl.
  - destruct (keqb k k') eqn:E; simpl.
    + now rewrite keqb_refl.
    + now rewrite E.
Qed.

Lemma dict_get_set_ne (d : dict K V) (k k' : K) (v : V) :
  k <> k' -> dict_get (dict_set d k v) k' = dict_get d k'.
Proof.
  intro Hne. induction d as [|[k0 v0] d IH]; simpl.
  - rewrite keqb_neq; [reflexivity|]. congruence.
  - destruct (keqb k k0) eqn:E; simpl.
    + apply keqb_eq in E. subst k0.
      rewrite !(@keqb_neq k' k); [reflexivity|congruence].
    + now rewrite IH.
Qed.

Lemma dict_set_twice (d : dict K V) (k : K) (v w : V) :
  dict_set (dict_set d k v) k w = dict_set d k w.
Proof.
  induction d as [|[k' v'] d IH]; simpl.
  - now rewrite keqb_refl.
  - destruct (keqb k k') eqn:E; simpl.
    + now rewrite keqb_refl.
    + now rewrite E, IH.
Qed.

Lemma dict_get_In (d : dict K V) (k : K) (v : V) :
  dict_get d k = Some v -> exists k', In (k', v) d.
Proof.
  induction d as [|[k0 v0] d IH]; simpl; [discriminate|].
  destruct (keqb k k0).
  - intros [= ->]. exists k0. now left.
  - intro E. destruct (IH E) as [k' Hin]. exists k'. now right.
Qed.

Lemma dict_set_Forall (P : K * V -> Prop) (d : dict K V) (k : K) (v : V) :
  Forall P d -> P (k, v) -> Forall P (dict_set d k v).
Proof.
  intros Hd Hkv. induction d as [|[k0 v0] d IH]; simpl.
  - now constructor.
  - inversion Hd; subst. destruct (keqb k k0); constructor; auto.
Qed.

End DictFacts.

(* ================================================================== *)
(** ** Facts about arrays *)
(* ================================================================== *)

Lemma length_tabulate {C : Type} (n m : nat) (f : nat -> nat -> C) :
  List.length (tabulate n m f) = n * m.
Proof.
  unfold tabulate.
  enough (forall a,
    List.length (flat_map (fun i => map (f i) (seq 0 m)) (seq a n)) = n * m)
    as E by apply E.
  induction n as [|n IH]; intro a; simpl; [reflexivity|].
  now rewrite length_app, length_map, length_seq, IH.
Qed.

Lemma nth_tabulate_from {C : Type} (m : nat) (f : nat -> nat -> C) (d : C) :
  forall n a i j, i < n -> j < m ->
    nth (i * m + j) (flat_map (fun i => map (f i) (seq 0 m)) (seq a n)) d
    = f (a + i) j.
Proof.
  induction n as [|n IH]; intros a i j Hi Hj; [lia|].
  simpl. destruct i as [|i].
  - rewrite app_nth1 by (rewrite length_map, length_seq; lia).
    simpl. rewrite (nth_indep _ d (f a 0)) by
      (rewrite length_map, length_seq; lia).
    rewrite map_nth, seq_nth by lia. now rewrite Nat.add_0_r.
  - rewrite app_nth2 by (rewrite length_map, length_seq; simpl; lia).
    rewrite length_map, length_seq.
    replace (S i * m + j - m) with (i * m + j) by (simpl; lia).
    rewrite IH by lia. f_equal. lia.
Qed.

Lemma nth_tabulate {C : Type} (n m : nat) (f : nat -> nat -> C) (d : C)
  (i j : nat) :
  i < n -> j < m -> nth (i * m + j) (tabulate n m f) d = f i j.
Proof. intros Hi Hj. unfold tabulate. now rewrite nth_tabulate_from. Qed.

Section ArrayFacts.
Context {C : Type} `{Numeric C}.

Lemma shape_zeros (n m : nat) : shape (zeros n m) = (n, m).
Proof. reflexivity. Qed.

Lemma get_zeros (n m i j : nat) : get (zeros n m) i j = czero.
Proof.
  unfold get, zeros; simpl.
  destruct (Nat.lt_ge_cases (i * m + j) (n * m)) as [Hlt|Hge].
  - now rewrite nth_repeat_lt.
  - rewrite nth_overflow; [reflexivity|]. now rewrite repeat_length.
Qed.

Lemma broadcastable_refl (s : nat * nat) :
  broadcastable s (fst s) (snd s) = true.
Proof. unfold broadcastable. now rewrite !Nat.eqb_refl. Qed.

Lemma iadd_shape (data x y : ndarray C) :
  iadd data x = Ok y -> shape y = shape data.
Proof.
  unfold iadd. destruct (shape data) as [n m].
  destruct (broadcastable (shape x) n m); [|discriminate].
  intros [= <-]. reflexivity.
Qed.

Lemma iadd_succeeds (data x : ndarray C) :
  broadcastable (shape x) (fst (shape data)) (snd (shape data)) = true ->
  exists y, iadd data x = Ok y /\ shape y = shape data.
Proof.
  intro Hb. unfold iadd. destruct (shape data) as [n m]; simpl in Hb.
  rewrite Hb. eexists; split; reflexivity.
Qed.

Lemma iadd_raises (data x : ndarray C) (e : exn) :
  iadd data x = Raise e ->
  broadcastable (shape x) (fst (shape data)) (snd (shape data)) = false.
Proof.
  unfold iadd. destruct (shape data) as [n m]; simpl.
  now destruct (broadcastable (shape x) n m).
Qed.

Lemma get_iadd (data x y : ndarray C) (i j : nat) :
  iadd data x = Ok y ->
  i < fst (shape data) -> j < snd (shape data) ->
  get y i j = cadd (get data i j) (bget x i j).
Proof.
  unfold iadd. destruct (shape data) as [n m] eqn:Es; simpl.
  destruct (broadcastable (shape x) n m); [|discriminate].
  intros [= <-] Hi Hj. unfold get at 1; simpl.
  now rewrite nth_tabulate.
Qed.

(** An array of the shape of [data] is read as it is. *)
Lemma bget_same_shape (x : ndarray C) (n m i j : nat) :
  shape x = (n, m) -> i < n -> j < m -> bget x i j = get x i j.
Proof.
  intros Es Hi Hj. unfold bget. rewrite Es; simpl.
  destruct (Nat.eqb_spec n 1) as [->|_], (Nat.eqb_spec m 1) as [->|_];
    try reflexivity;
    repeat match goal with
           | Hlt : ?k < 1 |- _ => assert (k = 0) as -> by lia; clear Hlt
           end; reflexivity.
Qed.

(** A loop of [+=] over arrays that all broadcast to the accumulator. *)
Lemma foldM_iadd_succeeds {K : Type} (p : list (K * ndarray C)) :
  forall data : ndarray C,
    Forall (fun kv => broadcastable (shape (snd kv))
                        (fst (shape data)) (snd (shape data)) = true) p ->
    exists y, foldM (fun data kv => iadd data (snd kv)) p data = Ok y
              /\ shape y = shape data.
Proof.
  induction p as [|kv p IH]; intros data Hall; simpl.
  - eexists; split; reflexivity.
  - inversion Hall as [|? ? Hkv Hp]; subst.
    destruct (iadd_succeeds Hkv) as (y & -> & Ey). simpl.
    destruct (IH y) as (z & -> & Ez); [now rewrite Ey|].
    exists z. split; [reflexivity|congruence].
Qed.

End ArrayFacts.

(* ================================================================== *)
(** ** The resolution of the storage *)
(* ================================================================== *)

Lemma in_resolutions (r : string) :
  in_list r _resolutions = true ->
  r = "off" \/ r = "signals" \/ r = "processes" \/ r = "types"
  \/ r = "pathways".
Proof.
  unfold in_list, _resolutions; simpl.
  rewrite !orb_true_iff, !String.eqb_eq. intuition discriminate.
Qed.

Lemma resolution2number_level (r : string) (n : nat) :
  _resolution2number r = Ok n -> in_list r _resolutions = true /\ n = level r.
Proof.
  unfold _resolution2number, level.
  destruct (in_list r _resolutions); [|discriminate].
  intros [= <-]. split; reflexivity.
Qed.

Section Resolution.
Context {C : Type} `{Numeric C}.

Local Abbreviation spectrum := (TwoDSpectrum C).

Lemma with_storage_resolution_same (s : spectrum) :
  with_storage_resolution (storage_resolution s) s = s.
Proof. now destruct s. Qed.

(** A conversion that raises has assigned nothing. *)
Lemma convert_resolution_raise (old new : nat) (s : spectrum) (e : exn) :
  fst (_convert_resolution old new s) = Raise e ->
  snd (_convert_resolution old new s) = s.
Proof.
  unfold _convert_resolution.
  repeat match goal with
         | |- context [if ?b then _ else _] => destruct b
         end;
    match goal with
    | |- context [match ?m with Ok _ => _ | Raise _ => _ end] =>
        destruct m as [[]|]
    | _ => idtac
    end; simpl; intro E; congruence.
Qed.

(** A conversion returns only for the five pairs of levels. *)
Lemma convert_resolution_pairs (old new : nat) (s : spectrum) :
  fst (_convert_resolution old new s) = Ok tt ->
  (old, new) = (4, 3) \/ (old, new) = (3, 2) \/ (old, new) = (3, 1)
  \/ (old, new) = (1, 0) \/ (old, new) = (2, 0).
Proof.
  unfold _convert_resolution.
  repeat match goal with
         | |- context [if (?a =? ?x) && (?b =? ?y) then _ else _] =>
             let E := fresh "E" in
             destruct ((a =? x) && (b =? y)) eqn:E;
             [ apply andb_true_iff in E; destruct E as [Ea Eb];
               apply Nat.eqb_eq in Ea; apply Nat.eqb_eq in Eb; subst;
               intros _; auto 10 | ]
         end.
  simpl. discriminate.
Qed.

(** The two conversions to "off" leave the whole object as it is. *)
Lemma convert_resolution_off (old : nat) (s : spectrum) :
  old = 1 \/ old = 2 -> snd (_convert_resolution old 0 s) = s.
Proof.
  intros [-> | ->]; unfold _convert_resolution; simpl.
  - now destruct (_signals_to_total s).
  - now destruct (_processes_to_total s).
Qed.

(** C9.  Whenever [set_resolution] raises -- the name of the resolution
    is unknown, the requested resolution is higher than the current one,
    the conversion is not supported, or anything else -- the spectrum is
    the one before the call: [storage_resolution], the storage mapping
    and every other attribute are unchanged. *)
Theorem set_resolution_raise_unchanged
  (resolution : string) (s : spectrum) (e : exn) :
  fst (set_resolution resolution s) = Raise e ->
  snd (set_resolution resolution s) = s.
Proof.
  unfold set_resolution.
  destruct (in_list resolution _resolutions); [|reflexivity].
  destruct (_resolution2number (storage_resolution s)) as [res_old|];
    [|reflexivity].
  destruct (_resolution2number resolution) as [res_new|]; [|reflexivity].
  destruct (res_old <? res_new); [reflexivity|].
  destruct (res_new <? res_old); [|discriminate].
  destruct (_convert_resolution res_old res_new s) as [[u|e'] s'] eqn:E;
    simpl; [discriminate|].
  intros _. change s' with (snd (Raise (A:=unit) e', s')). rewrite <- E.
  apply convert_resolution_raise with (e := e'). now rewrite E.
Qed.

End Resolution.

(** The three causes of C9 (an unsupported conversion, a higher
    resolution, an unknown name) on a spectrum lowered to "processes". *)
Lemma set_resolution_raise_unchanged_witness :
  let s := snd ((set_resolution "types" >> set_resolution "processes")
                  (@__init__ Z)) in
  fst (set_resolution "signals" s)
  = Raise (Exception "Cannot convert resolution for level 2 to level 1")
  /\ snd (set_resolution "signals" s) = s
  /\ snd (set_resolution "types" s) = s
  /\ snd (set_resolution "fine" s) = s.
Proof.
  cbv zeta. split; [reflexivity|]. split; [|split].
  - apply set_resolution_raise_unchanged
      with (e := Exception "Cannot convert resolution for level 2 to level 1").
    reflexivity.
  - apply set_resolution_raise_unchanged
      with (e := Exception "Cannot convert from lower to higher resolution").
    reflexivity.
  - apply set_resolution_raise_unchanged
      with (e := Exception "Unknown resolution: fine").
    reflexivity.
Defined.

(* ================================================================== *)
(** ** When the conversions return *)
(* ================================================================== *)

Section Conversions.
Context {C : Type} `{Numeric C}.

Local Abbreviation spectrum := (TwoDSpectrum C).

Lemma fits_of_shape (tgt : nat * nat) (a : ndarray C) :
  shape a = tgt -> fits tgt a = true.
Proof. intros <-. apply broadcastable_refl. Qed.

Lemma accumulator_zeros (s : spectrum) (tgt : nat * nat) :
  accumulator_shape s = Some tgt ->
  (if storage_initialized s then zeros_axes s else Ok (zeros 1 1))
  = Ok (zeros (fst tgt) (snd tgt)).
Proof.
  unfold accumulator_shape, zeros_axes.
  destruct (storage_initialized s).
  - destruct (axes_shape s); [|discriminate]. now intros [= <-].
  - now intros [= <-].
Qed.

(** The loop of [_signals_to_total] and [_processes_to_total]. *)
Lemma foldM_total_succeeds (s : spectrum) (st : storage C)
  (ks : list string) :
  _d__data s = Some st ->
  forall data : ndarray C,
    forallb (fun k => entry_fits true (shape data) (dict_get st k)) ks = true ->
    exists y,
      foldM (fun data k =>
               st <- attr_d__data s ;; d <- getitem st k ;; add_entry data d)
            ks data = Ok y
      /\ shape y = shape data.
Proof.
  intro Est. induction ks as [|k ks IH]; intros data Hall; simpl.
  - eexists; split; reflexivity.
  - simpl in Hall. apply andb_true_iff in Hall as [Hk Hks].
    unfold attr_d__data at 1. rewrite Est. simpl. unfold getitem at 1.
    destruct (dict_get st k) as [[a|p]|]; simpl in Hk; try discriminate.
    simpl. destruct (iadd_succeeds Hk) as (y & -> & Ey). simpl.
    destruct (IH y) as (z & Ez & Es); [now rewrite Ey|].
    exists z. split; [exact Ez|congruence].
Qed.

(** The loop of [_types_to_processes] and [_types_to_signals]. *)
Lemma foldM_types_succeeds (s : spectrum) (st : storage C)
  (ks : list string) :
  _d__data s = Some st ->
  forall data : ndarray C,
    forallb (fun k => entry_fits false (shape data) (dict_get st k)) ks = true ->
    exists y,
      foldM (fun data dtype =>
               match (st <- attr_d__data s ;; getitem st dtype) with
               | Ok ddata => add_entry data ddata
               | Raise KeyError => Ok data
               | Raise AttributeError => Ok data
               | Raise e => Raise e
               end)
            ks data = Ok y
      /\ shape y = shape data.
Proof.
  intro Est. induction ks as [|k ks IH]; intros data Hall; simpl.
  - eexists; split; reflexivity.
  - simpl in Hall. apply andb_true_iff in Hall as [Hk Hks].
    unfold attr_d__data at 1. rewrite Est. simpl. unfold getitem at 1.
    destruct (dict_get st k) as [[a|p]|]; simpl in Hk; try discriminate; simpl.
    + destruct (iadd_succeeds Hk) as (y & -> & Ey). simpl.
      destruct (IH y) as (z & Ez & Es); [now rewrite Ey|].
      exists z. split; [exact Ez|congruence].
    + now apply IH.
Qed.

(** One round of the conversion of "pathways" to "types". *)
Lemma sum_pathways_of_type_succeeds (s : spectrum) (st st0 : storage C)
  (tgt : nat * nat) (k : string) :
  _d__data s = Some st ->
  axes_shape s = Ok tgt ->
  piece_fits tgt (dict_get st k) = true ->
  exists y,
    sum_pathways_of_type s (st0, true) k
    = Ok (dict_set st0 k (VArr y), true)
    /\ shape y = tgt.
Proof.
  intros Est Eax Hk.
  assert (Hloop : forall p : dict (option string) (ndarray C),
             forallb (fun kv => fits tgt (snd kv)) p = true ->
             exists y, foldM (fun data kv => iadd data (snd kv)) p
                         (zeros (fst tgt) (snd tgt)) = Ok y
                       /\ shape y = tgt).
  { intros p Hp.
    destruct (@foldM_iadd_succeeds _ _ _ p (zeros (fst tgt) (snd tgt)))
      as (y & Ey & Es).
    - apply Forall_forall. intros kv Hin.
      apply (proj1 (forallb_forall _ _) Hp kv Hin).
    - exists y. split; [exact Ey|]. rewrite Es. now destruct tgt. }
  unfold sum_pathways_of_type, attr_d__data, zeros_axes.
  rewrite Est, Eax. simpl.
  destruct (dict_get st k) as [[a|p]|]; simpl in Hk; try discriminate; simpl.
  - destruct (Hloop p Hk) as (y & -> & Es). simpl. now exists y.
  - destruct (Hloop [] eq_refl) as (y & Ey & Es). simpl in *.
    injection Ey as <-. eexists. split; [reflexivity|]. now destruct tgt.
Qed.

(** The loop of the conversion of "pathways" to "types". *)
Lemma foldM_sum_pathways_succeeds (s : spectrum) (st : storage C)
  (tgt : nat * nat) (ks : list string) :
  _d__data s = Some st ->
  axes_shape s = Ok tgt ->
  forallb (fun t => piece_fits tgt (dict_get st t)) ks = true ->
  forall st0 : storage C,
    Forall (of_shape tgt) st0 ->
    exists st1,
      foldM (sum_pathways_of_type s) ks (st0, true) = Ok (st1, true)
      /\ Forall (of_shape tgt) st1.
Proof.
  intros Est Eax. induction ks as [|k ks IH]; intros Hall st0 Hst0.
  - eexists; split; [reflexivity|assumption].
  - simpl in Hall. apply andb_true_iff in Hall as [Hk Hks].
    destruct (@sum_pathways_of_type_succeeds s st st0 tgt k Est Eax Hk)
      as (y & Ey & Es).
    change (foldM (sum_pathways_of_type s) (k :: ks) (st0, true))
      with (acc' <- sum_pathways_of_type s (st0, true) k ;;
            foldM (sum_pathways_of_type s) ks acc').
    rewrite Ey. simpl obind.
    apply IH; [assumption|].
    apply dict_set_Forall; [assumption|]. exists y. now split.
Qed.

Lemma entries_of_shape_fit (tgt : nat * nat) (st : storage C) (k : string) :
  Forall (of_shape tgt) st ->
  entry_fits false tgt (dict_get st k) = true.
Proof.
  intro Hall. destruct (dict_get st k) as [v|] eqn:E; [|reflexivity].
  destruct (dict_get_In E) as [k' Hin].
  destruct (proj1 (Forall_forall _ _) Hall _ Hin) as (a & Ea & Es).
  simpl in Ea. subst v. simpl. now apply fits_of_shape.
Qed.

(** One process or signal out of a consistent "types" storage. *)
Lemma foldM_types_of_consistent (s : spectrum) (st : storage C)
  (tgt : nat * nat) (types : list string) :
  _d__data s = Some st ->
  forallb (fun t => entry_fits false tgt (dict_get st t)) _ptypes = true ->
  incl types _ptypes ->
  exists y,
    foldM (fun data dtype =>
             match (st <- attr_d__data s ;; getitem st dtype) with
             | Ok ddata => add_entry data ddata
             | Raise KeyError => Ok data
             | Raise AttributeError => Ok data
             | Raise e => Raise e
             end)
          types (zeros (fst tgt) (snd tgt)) = Ok y
    /\ shape y = tgt.
Proof.
  intros Est Hall Hincl.
  destruct (@foldM_types_succeeds s st types Est (zeros (fst tgt) (snd tgt)))
    as (y & Ey & Es).
  - apply forallb_forall. intros t Hin. simpl.
    replace (fst tgt, snd tgt) with tgt by now destruct tgt.
    apply (proj1 (forallb_forall _ _) Hall t (Hincl t Hin)).
  - exists y. split; [exact Ey|]. rewrite Es. now destruct tgt.
Qed.

Lemma types_to_processes_succeeds (s : spectrum) (st : storage C)
  (tgt : nat * nat) (process : string) :
  accumulator_shape s = Some tgt ->
  _d__data s = Some st ->
  forallb (fun t => entry_fits false tgt (dict_get st t)) _ptypes = true ->
  In process (dict_keys _processes) ->
  exists y, _types_to_processes s process = Ok y /\ shape y = tgt.
Proof.
  intros Eacc Est Hall Hin. unfold _types_to_processes.
  rewrite (accumulator_zeros Eacc). cbn [obind].
  simpl in Hin.
  destruct Hin as [<-|[<-|[<-|[<-|[]]]]];
    lazymatch goal with
    | |- context [getitem _processes ?p] =>
        let v := eval vm_compute in (getitem _processes p) in
        change (getitem _processes p) with v
    end; cbn [obind];
    apply foldM_types_of_consistent with (st := st); try assumption;
    intros t Ht; simpl in Ht; simpl; tauto.
Qed.

Lemma types_to_signals_succeeds (s : spectrum) (st : storage C)
  (tgt : nat * nat) (signal : string) :
  accumulator_shape s = Some tgt ->
  _d__data s = Some st ->
  forallb (fun t => entry_fits false tgt (dict_get st t)) _ptypes = true ->
  In signal (dict_keys _signals) ->
  exists y, _types_to_signals s signal = Ok y /\ shape y = tgt.
Proof.
  intros Eacc Est Hall Hin. unfold _types_to_signals.
  rewrite (accumulator_zeros Eacc). cbn [obind].
  simpl in Hin.
  destruct Hin as [<-|[<-|[<-|[]]]];
    lazymatch goal with
    | |- context [getitem _signals ?p] =>
        let v := eval vm_compute in (getitem _signals p) in
        change (getitem _signals p) with v
    end; cbn [obind];
    apply foldM_types_of_consistent with (st := st); try assumption;
    intros t Ht; simpl in Ht; simpl; tauto.
Qed.

(** The total of a consistent storage of signals or processes. *)
Lemma signals_to_total_succeeds (s : spectrum) :
  storage_resolution s = "signals" -> consistent s = true ->
  exists y, _signals_to_total s = Ok y.
Proof.
  intros Er Hc. unfold consistent in Hc. rewrite Er in Hc. simpl in Hc.
  unfold _signals_to_total, zeros_axes.
  destruct (storage_initialized s); [|eexists; reflexivity].
  simpl in Hc. destruct (axes_shape s) as [tgt|]; [|discriminate].
  destruct (_d__data s) as [st|] eqn:Est; [|discriminate]. simpl obind.
  destruct (@foldM_total_succeeds s st (dict_keys _signals) Est
              (zeros (fst tgt) (snd tgt))) as (y & Ey & _).
  - simpl shape. replace (fst tgt, snd tgt) with tgt by now destruct tgt.
    exact Hc.
  - exists y. exact Ey.
Qed.

Lemma processes_to_total_succeeds (s : spectrum) :
  storage_resolution s = "processes" -> consistent s = true ->
  exists y, _processes_to_total s = Ok y.
Proof.
  intros Er Hc. unfold consistent in Hc. rewrite Er in Hc. simpl in Hc.
  unfold _processes_to_total, zeros_axes.
  destruct (storage_initialized s); [|eexists; reflexivity].
  simpl in Hc. destruct (axes_shape s) as [tgt|]; [|discriminate].
  destruct (_d__data s) as [st|] eqn:Est; [|discriminate]. simpl obind.
  destruct (@foldM_total_succeeds s st (dict_keys _processes) Est
              (zeros (fst tgt) (snd tgt))) as (y & Ey & _).
  - simpl shape. replace (fst tgt, snd tgt) with tgt by now destruct tgt.
    exact Hc.
  - exists y. exact Ey.
Qed.

End Conversions.

(* ================================================================== *)
(** ** The transitions of [set_resolution] *)
(* ================================================================== *)

Section Transitions.
Context {C : Type} `{Numeric C}.

Local Abbreviation spectrum := (TwoDSpectrum C).

(** [set_resolution] towards a lower level is the conversion followed
    by the assignment of the attribute. *)
Lemma set_resolution_lower (s : spectrum) (r : string) (old new : nat) :
  _resolution2number (storage_resolution s) = Ok old ->
  _resolution2number r = Ok new ->
  new < old ->
  set_resolution r s
  = match _convert_resolution old new s with
    | (Ok _, s') => (Ok tt, with_storage_resolution r s')
    | (Raise e, s') => (Raise e, s')
    end.
Proof.
  intros Eold Enew Hlt. unfold set_resolution. rewrite Eold, Enew.
  destruct (resolution2number_level Enew) as [-> _].
  destruct (Nat.ltb_spec old new); [lia|].
  destruct (Nat.ltb_spec new old); [reflexivity|lia].
Qed.

(** [set_resolution] to the current resolution assigns the attribute
    and does nothing else. *)
Lemma set_resolution_same (s : spectrum) :
  in_list (storage_resolution s) _resolutions = true ->
  set_resolution (storage_resolution s) s = (Ok tt, s).
Proof.
  intro Hin. unfold set_resolution, _resolution2number. rewrite Hin.
  rewrite Nat.ltb_irrefl. now rewrite with_storage_resolution_same.
Qed.

(** A call that returns went along one of the transitions, and did not
    raise the level. *)
Lemma set_resolution_ok_allowed (s : spectrum) (r : string) :
  fst (set_resolution r s) = Ok tt ->
  allowed (storage_resolution s) r = true
  /\ storage_resolution (snd (set_resolution r s)) = r
  /\ level r <= level (storage_resolution s).
Proof.
  unfold set_resolution.
  destruct (in_list r _resolutions) eqn:Hr; [|discriminate].
  destruct (_resolution2number (storage_resolution s)) as [old|] eqn:Eold;
    [|discriminate].
  destruct (_resolution2number r) as [new|] eqn:Enew; [|discriminate].
  destruct (resolution2number_level Eold) as [Hold ->].
  destruct (resolution2number_level Enew) as [_ ->].
  destruct (Nat.ltb_spec (level (storage_resolution s)) (level r));
    [discriminate|].
  destruct (Nat.ltb_spec (level r) (level (storage_resolution s)))
    as [Hlt|Hge].
  - destruct (_convert_resolution (level (storage_resolution s)) (level r) s)
      as [[u|e] s'] eqn:Econv; [|discriminate].
    intros _. split; [|split].
    + assert (Hp := @convert_resolution_pairs _ _
                      (level (storage_resolution s)) (level r) s).
      rewrite Econv in Hp. destruct u. specialize (Hp eq_refl).
      apply in_resolutions in Hold, Hr.
      destruct Hold as [Eo|[Eo|[Eo|[Eo|Eo]]]];
        destruct Hr as [En|[En|[En|[En|En]]]];
        rewrite Eo, En in *; vm_compute in Hp;
        try reflexivity;
        repeat (destruct Hp as [Hp|Hp]; try discriminate Hp).
    + reflexivity.
    + lia.
  - intros _. split; [|split].
    + assert (Heq : level r = level (storage_resolution s)) by lia.
      apply in_resolutions in Hold, Hr.
      destruct Hold as [Eo|[Eo|[Eo|[Eo|Eo]]]];
        destruct Hr as [En|[En|[En|[En|En]]]];
        rewrite Eo, En in *; vm_compute in Heq;
        try reflexivity; discriminate Heq.
    + reflexivity.
    + lia.
Qed.

(** *** The five conversions on a consistent spectrum *)

Lemma axes_shape_converted (r : string) (d : option (storage C))
  (s : spectrum) :
  axes_shape (with_storage_resolution r (with_d__data d s)) = axes_shape s.
Proof. reflexivity. Qed.

Lemma pathways_to_types_consistent (s : spectrum) :
  storage_resolution s = "pathways" -> consistent s = true ->
  exists s', set_resolution "types" s = (Ok tt, s') /\ consistent s' = true.
Proof.
  intros Er Hc.
  rewrite (@set_resolution_lower s "types" 4 3);
    [|now rewrite Er|reflexivity|lia].
  unfold consistent in Hc. rewrite Er in Hc. simpl in Hc.
  unfold _convert_resolution. cbn [Nat.eqb andb].
  destruct (_d__data s) as [st|] eqn:Est.
  - apply andb_true_iff in Hc as [Hini Hc].
    destruct (axes_shape s) as [tgt|] eqn:Eax; [|discriminate].
    destruct (@foldM_sum_pathways_succeeds _ _ s st tgt _ptypes Est Eax Hc [])
      as (st1 & -> & Hst1); [constructor|].
    eexists. split; [reflexivity|].
    unfold consistent, accumulator_shape.
    rewrite axes_shape_converted, Eax. simpl. rewrite Hini.
    rewrite !(entries_of_shape_fit _ Hst1). reflexivity.
  - apply negb_true_iff in Hc.
    unfold sum_pathways_of_type, attr_d__data. rewrite Est.
    eexists. split; [reflexivity|].
    unfold consistent, accumulator_shape. simpl. rewrite Hc. reflexivity.
Qed.

Lemma types_to_processes_consistent (s : spectrum) :
  storage_resolution s = "types" -> consistent s = true ->
  exists s',
    set_resolution "processes" s = (Ok tt, s') /\ consistent s' = true.
Proof.
  intros Er Hc.
  rewrite (@set_resolution_lower s "processes" 3 2);
    [|now rewrite Er|reflexivity|lia].
  unfold consistent in Hc. rewrite Er in Hc. simpl in Hc.
  destruct (accumulator_shape s) as [tgt|] eqn:Eacc; [|discriminate].
  destruct (_d__data s) as [st|] eqn:Est; [|discriminate].
  unfold _convert_resolution. cbn [Nat.eqb andb].
  cbn [foldM dict_keys map fst _processes].
  destruct (@types_to_processes_succeeds _ _ s st tgt "GSB" Eacc Est Hc)
    as (d1 & -> & E1); [simpl; tauto|].
  destruct (@types_to_processes_succeeds _ _ s st tgt "SE" Eacc Est Hc)
    as (d2 & -> & E2); [simpl; tauto|].
  destruct (@types_to_processes_succeeds _ _ s st tgt "ESA" Eacc Est Hc)
    as (d3 & -> & E3); [simpl; tauto|].
  destruct (@types_to_processes_succeeds _ _ s st tgt "DC" Eacc Est Hc)
    as (d4 & -> & E4); [simpl; tauto|].
  eexists. split; [reflexivity|].
  unfold consistent. rewrite axes_shape_converted.
  unfold accumulator_shape in Eacc.
  destruct (storage_initialized s) eqn:Hini; simpl; rewrite Hini;
    [|reflexivity].
  destruct (axes_shape s) as [tgt'|]; [|discriminate].
  injection Eacc as ->. simpl.
  unfold fits. rewrite E1, E2, E3, E4, broadcastable_refl. reflexivity.
Qed.

Lemma types_to_signals_consistent (s : spectrum) :
  storage_resolution s = "types" -> consistent s = true ->
  exists s',
    set_resolution "signals" s = (Ok tt, s') /\ consistent s' = true.
Proof.
  intros Er Hc.
  rewrite (@set_resolution_lower s "signals" 3 1);
    [|now rewrite Er|reflexivity|lia].
  unfold consistent in Hc. rewrite Er in Hc. simpl in Hc.
  destruct (accumulator_shape s) as [tgt|] eqn:Eacc; [|discriminate].
  destruct (_d__data s) as [st|] eqn:Est; [|discriminate].
  unfold _convert_resolution. cbn [Nat.eqb andb].
  cbn [foldM dict_keys map fst _signals].
  destruct (@types_to_signals_succeeds _ _ s st tgt "REPH" Eacc Est Hc)
    as (d1 & -> & E1); [simpl; tauto|].
  destruct (@types_to_signals_succeeds _ _ s st tgt "NONR" Eacc Est Hc)
    as (d2 & -> & E2); [simpl; tauto|].
  destruct (@types_to_signals_succeeds _ _ s st tgt "DC" Eacc Est Hc)
    as (d3 & -> & E3); [simpl; tauto|].
  eexists. split; [reflexivity|].
  unfold consistent. rewrite axes_shape_converted.
  unfold accumulator_shape in Eacc.
  destruct (storage_initialized s) eqn:Hini; simpl; rewrite Hini;
    [|reflexivity].
  destruct (axes_shape s) as [tgt'|]; [|discriminate].
  injection Eacc as ->. simpl.
  unfold fits. rewrite E1, E2, E3, broadcastable_refl. reflexivity.
Qed.

Lemma signals_to_off_consistent (s : spectrum) :
  storage_resolution s = "signals" -> consistent s = true ->
  set_resolution "off" s = (Ok tt, with_storage_resolution "off" s).
Proof.
  intros Er Hc.
  rewrite (@set_resolution_lower s "off" 1 0);
    [|now rewrite Er|reflexivity|lia].
  unfold _convert_resolution. cbn [Nat.eqb andb].
  now destruct (signals_to_total_succeeds Er Hc) as (y & ->).
Qed.

Lemma processes_to_off_consistent (s : spectrum) :
  storage_resolution s = "processes" -> consistent s = true ->
  set_resolution "off" s = (Ok tt, with_storage_resolution "off" s).
Proof.
  intros Er Hc.
  rewrite (@set_resolution_lower s "off" 2 0);
    [|now rewrite Er|reflexivity|lia].
  unfold _convert_resolution. cbn [Nat.eqb andb].
  now destruct (processes_to_total_succeeds Er Hc) as (y & ->).
Qed.

(** Along every transition, on a consistent spectrum. *)
Lemma set_resolution_consistent (s : spectrum) (r : string) :
  consistent s = true -> allowed (storage_resolution s) r = true ->
  exists s', set_resolution r s = (Ok tt, s') /\ consistent s' = true.
Proof.
  intros Hc Ha. unfold allowed, lowering in Ha.
  repeat rewrite orb_true_iff in Ha. repeat rewrite andb_true_iff in Ha.
  repeat rewrite String.eqb_eq in Ha.
  destruct Ha as [[[[[[Eo En]|[Eo En]]|[Eo En]]|[Eo En]]|[Eo En]]|[Hin E]];
    subst r.
  - now apply pathways_to_types_consistent.
  - now apply types_to_processes_consistent.
  - now apply types_to_signals_consistent.
  - rewrite signals_to_off_consistent by assumption.
    eexists. split; [reflexivity|reflexivity].
  - rewrite processes_to_off_consistent by assumption.
    eexists. split; [reflexivity|reflexivity].
  - rewrite set_resolution_same by assumption. now exists s.
Qed.

(** C2, as amended.  [set_resolution] returns only along the
    transitions pathways -> types, types -> processes, types -> signals,
    signals -> off, processes -> off and from a resolution to itself;
    every other request raises (a higher resolution, types -> off,
    processes -> signals, ...), and a call that returns leaves the
    requested resolution, whose level is not above the former one.
    Along those transitions the call returns whenever the storage is
    consistent with the axes, and leaves it consistent. *)
Theorem set_resolution_transitions (s : spectrum) (r : string) :
  (fst (set_resolution r s) = Ok tt ->
   allowed (storage_resolution s) r = true
   /\ storage_resolution (snd (set_resolution r s)) = r
   /\ level r <= level (storage_resolution s))
  /\ (allowed (storage_resolution s) r = false ->
      exists e, fst (set_resolution r s) = Raise e)
  /\ (consistent s = true ->
      allowed (storage_resolution s) r = true ->
      fst (set_resolution r s) = Ok tt
      /\ consistent (snd (set_resolution r s)) = true).
Proof.
  split; [apply set_resolution_ok_allowed|]. split.
  - intro Hna. destruct (fst (set_resolution r s)) as [[]|e] eqn:E.
    + apply set_resolution_ok_allowed in E. destruct E as [E _]. congruence.
    + now exists e.
  - intros Hc Ha.
    destruct (set_resolution_consistent Hc Ha) as (s' & -> & Hc').
    now split.
Qed.

(** C10.  [set_resolution("off")] from "signals" or "processes" never
    touches the storage mapping; when it returns, the object differs
    from the one before the call in [storage_resolution] only, which is
    "off": the total that the conversion summed is stored nowhere.  It
    returns on every spectrum whose storage is consistent with the
    axes. *)
Theorem set_resolution_off_keeps_storage (s : spectrum) :
  storage_resolution s = "signals" \/ storage_resolution s = "processes" ->
  _d__data (snd (set_resolution "off" s)) = _d__data s
  /\ (fst (set_resolution "off" s) = Ok tt ->
      snd (set_resolution "off" s) = with_storage_resolution "off" s)
  /\ (consistent s = true -> fst (set_resolution "off" s) = Ok tt).
Proof.
  intro Hres.
  assert (Hlow : exists old, (old = 1 \/ old = 2) /\
            set_resolution "off" s
            = match _convert_resolution old 0 s with
              | (Ok _, s') => (Ok tt, with_storage_resolution "off" s')
              | (Raise e, s') => (Raise e, s')
              end).
  { destruct Hres as [Er|Er].
    - exists 1. split; [now left|].
      apply set_resolution_lower; [now rewrite Er|reflexivity|lia].
    - exists 2. split; [now right|].
      apply set_resolution_lower; [now rewrite Er|reflexivity|lia]. }
  split; [|split].
  - destruct Hlow as (old & Hold & ->).
    assert (Hs := convert_resolution_off s Hold).
    destruct (_convert_resolution old 0 s) as [[u|e] s'];
      simpl in Hs; subst s'; reflexivity.
  - destruct Hlow as (old & Hold & ->).
    assert (Hs := convert_resolution_off s Hold).
    destruct (_convert_resolution old 0 s) as [[u|e] s'];
      simpl in Hs; subst s'; simpl; [reflexivity|discriminate].
  - intro Hc. destruct Hres as [Er|Er].
    + now rewrite signals_to_off_consistent.
    + now rewrite processes_to_off_consistent.
Qed.

End Transitions.

(** The counterexample to C2 as stated: pathways -> types is one of the
    listed transitions, and yet the call raises on a spectrum whose
    first axis was replaced after a pathway had been stored (the array
    has 2 rows, the accumulator 3). *)
Lemma set_resolution_listed_transition_raises :
  storage_resolution axis_replaced = "pathways"
  /\ lowering "pathways" "types" = true
  /\ fst (set_resolution "types" axis_replaced) = Raise ValueError.
Proof. repeat split. Qed.

Lemma set_resolution_transitions_witness :
  consistent three_pathways = true
  /\ allowed (storage_resolution three_pathways) "types" = true
  /\ fst (set_resolution "types" three_pathways) = Ok tt
  /\ consistent (snd (set_resolution "types" three_pathways)) = true
  /\ exists e, fst (set_resolution "off" three_pathways) = Raise e.
Proof.
  split; [reflexivity|]. split; [reflexivity|].
  destruct (set_resolution_transitions three_pathways "types")
    as (_ & _ & Hok).
  destruct (set_resolution_transitions three_pathways "off")
    as (_ & Hraise & _).
  destruct (Hok eq_refl eq_refl) as [E1 E2].
  split; [exact E1|]. split; [exact E2|].
  exact (Hraise eq_refl).
Defined.

Lemma set_resolution_off_keeps_storage_witness :
  let s := snd ((set_resolution "types" >> set_resolution "signals")
                  three_pathways) in
  storage_resolution s = "signals"
  /\ consistent s = true
  /\ set_resolution "off" s = (Ok tt, with_storage_resolution "off" s)
  /\ _d__data (snd (set_resolution "off" s)) = _d__data s.
Proof.
  cbv zeta.
  set (s := snd ((set_resolution "types" >> set_resolution "signals")
                   three_pathways)).
  assert (Er : storage_resolution s = "signals") by reflexivity.
  assert (Hc : consistent s = true) by reflexivity.
  destruct (@set_resolution_off_keeps_storage _ _ s (or_introl Er))
    as (Hd & Hs & Hok).
  split; [exact Er|]. split; [exact Hc|]. split; [|exact Hd].
  specialize (Hok Hc). specialize (Hs Hok).
  destruct (set_resolution "off" s) as [o s']. simpl in *. now subst.
Defined.

(** The examples of the docstring of [set_resolution]. *)
Example set_resolution_doctest :
  let spect1 := @__init__ Z in
  let spect2 := @__init__ Z in
  storage_resolution spect1 = "pathways"
  /\ let spect1 := snd (set_resolution "types" spect1) in
     let spect2 := snd (set_resolution "types" spect2) in
     storage_resolution spect1 = "types"
  /\ let spect1 := snd (set_resolution "processes" spect1) in
     storage_resolution spect1 = "processes"
  /\ fst (set_resolution "signals" spect1)
     = Raise (Exception "Cannot convert resolution for level 2 to level 1")
  /\ let spect2 := snd (set_resolution "signals" spect2) in
     storage_resolution spect2 = "signals"
  /\ fst (set_resolution "types" spect1)
     = Raise (Exception "Cannot convert from lower to higher resolution")
  /\ storage_resolution (snd (set_resolution "off" spect1)) = "off"
  /\ storage_resolution (snd (set_resolution "off" spect2)) = "off".
Proof. cbv zeta. repeat split. Qed.

(* ================================================================== *)
(** ** Writing and reading pathways *)
(* ================================================================== *)

Lemma in_list_In (x : string) (l : list string) :
  in_list x l = true -> In x l.
Proof.
  unfold in_list. intro E. apply existsb_exists in E.
  destruct E as (y & Hin & Ey). apply String.eqb_eq in Ey. now subst.
Qed.

Lemma dict_mem_In {V : Type} (d : dict string V) (k : string) :
  dict_mem d k = true -> In k (dict_keys d).
Proof.
  unfold dict_mem. induction d as [|[k' v] d IH]; simpl; [discriminate|].
  destruct (String.eqb_spec k k') as [->|Hne]; [now left|].
  intro E. right. now apply IH.
Qed.

Section Pathways.
Context {C : Type} `{Numeric C}.

Local Abbreviation spectrum := (TwoDSpectrum C).

(** What [set_data_flag([dtype, tag])] leaves. *)
Lemma set_data_flag_pair (dtype tag : option string) (s : spectrum) :
  set_data_flag (FlagList [dtype; tag]) s = (Ok tt, with_flag dtype tag 2 s).
Proof. reflexivity. Qed.

(** The entries of a "pathways" storage are dictionaries. *)
Lemma pathways_store_entry (s : spectrum) (st : storage C) (k : string) :
  pathways_store s = true ->
  storage_initialized s = true ->
  _d__data s = Some st ->
  match dict_get st k with
  | Some (VArr _) => False
  | _ => True
  end.
Proof.
  unfold pathways_store. intros Hp Hini Est.
  apply andb_true_iff in Hp as [_ Hp]. rewrite Hini, Est in Hp. simpl in Hp.
  destruct (dict_get st k) as [[a|p]|] eqn:E; [|exact I|exact I].
  destruct (dict_get_In E) as [k' Hin].
  apply (proj1 (forallb_forall _ _) Hp) in Hin. discriminate.
Qed.

Lemma pathways_store_resolution (s : spectrum) :
  pathways_store s = true -> storage_resolution s = "pathways".
Proof.
  unfold pathways_store. intro Hp. apply andb_true_iff in Hp as [Hp _].
  now apply String.eqb_eq.
Qed.

(** The setter on a spectrum at resolution "pathways" whose flag names a
    pathway type: the entry [piece] of the type, an empty dictionary if
    there is none yet, receives the array under the tag, unless the tag
    is in it already. *)
Lemma d__data_set_pathways (s : spectrum) (st : storage C) (cd : string)
  (a : ndarray C) :
  storage_resolution s = "pathways" ->
  current_dtype s = Some cd ->
  in_list cd _ptypes = true ->
  storage_initialized s = true ->
  _d__data s = Some st ->
  (forall x, dict_get st cd <> Some (VArr x)) ->
  d__data_set (Arr a) s
  = if dict_mem (piece_of st cd) (current_tag s)
    then (Raise (Exception "Tag already exists"),
          with_d__data
            (Some match dict_get st cd with
                  | Some _ => st
                  | None => dict_set st cd (VDict [])
                  end) s)
    else (Ok tt,
          with_d__data
            (Some (dict_set st cd
                     (VDict (dict_set (piece_of st cd) (current_tag s) a))))
            s).
Proof.
  intros Er Ecd Hin Hini Est Hdict. unfold piece_of.
  unfold d__data_set. rewrite Hini. cbn [negb]. cbv zeta.
  unfold attr_d__data. rewrite Est, Er, Ecd, Hin. cbn [String.eqb Ascii.eqb Bool.eqb].
  simpl.
  destruct (dict_get st cd) as [[x|p]|] eqn:E.
  - exfalso. now apply (Hdict x).
  - rewrite E. destruct (dict_mem p (current_tag s)); reflexivity.
  - rewrite dict_get_set_eq. simpl.
    now rewrite dict_set_twice.
Qed.

(** The first write initializes the storage and goes on as on an
    initialized, empty one. *)
Lemma d__data_set_uninitialized (v : pyarg C) (s : spectrum) :
  storage_initialized s = false ->
  d__data_set v s
  = d__data_set v (with_storage_initialized true (with_d__data (Some []) s)).
Proof. intro Hini. unfold d__data_set. rewrite Hini. reflexivity. Qed.

Lemma _add_data_pathways (s : spectrum) (dtype tag : string) (v : pyarg C) :
  storage_resolution s = "pathways" ->
  in_list dtype _ptypes = true ->
  _add_data v None dtype (Some tag) s
  = d__data_set v (with_flag (Some dtype) (Some tag) 2 s).
Proof.
  intros Er Hin. unfold _add_data. rewrite Er, Hin. reflexivity.
Qed.

(** Reading the pair (type, tag) out of an initialized "pathways"
    storage. *)
Lemma read_pathway (s : spectrum) (st : storage C) (dtype tag : string)
  (p : dict (option string) (ndarray C)) (a : ndarray C) :
  storage_resolution s = "pathways" ->
  in_list dtype _ptypes = true ->
  storage_initialized s = true ->
  _d__data s = Some st ->
  dict_get st dtype = Some (VDict p) ->
  dict_get p (Some tag) = Some a ->
  fst (read (FlagList [Some dtype; Some tag]) s) = Ok (Some (VArr a)).
Proof.
  intros Er Hin Hini Est Ep Ea.
  unfold read, mthen, mbind. rewrite set_data_flag_pair.
  unfold d__data_get, attr_d__data.
  cbn [fst with_flag _d__data storage_resolution current_dtype current_tag
       storage_initialized].
  rewrite Est, Er, Hin, Hini. simpl. unfold getitem. rewrite Ep, Ea.
  reflexivity.
Qed.

(** C6.  On a spectrum at resolution "pathways", for a pathway type
    [dtype] and a tag: writing an array under a pair (type, tag) that is
    populated raises "Tag already exists"; writing under a pair that is
    not populated returns, a read with the flag [[dtype, tag]] then gives
    exactly the array written, and a second write under the same pair
    raises "Tag already exists". *)
Theorem write_then_read (s : spectrum) (dtype tag : string)
  (a : ndarray C) :
  pathways_store s = true ->
  in_list dtype _ptypes = true ->
  (populated s dtype tag = true ->
   fst (_add_data (Arr a) None dtype (Some tag) s)
   = Raise (Exception "Tag already exists"))
  /\ (populated s dtype tag = false ->
      exists s',
        _add_data (Arr a) None dtype (Some tag) s = (Ok tt, s')
        /\ fst (read (FlagList [Some dtype; Some tag]) s')
           = Ok (Some (VArr a))
        /\ forall b : ndarray C,
             fst (_add_data (Arr b) None dtype (Some tag) s')
             = Raise (Exception "Tag already exists")).
Proof.
  intros Hp Hin.
  assert (Er := pathways_store_resolution Hp).
  rewrite (_add_data_pathways _ _ Er Hin).
  set (s1 := with_flag (Some dtype) (Some tag) 2 s).
  (* the spectrum and the storage that the body of the setter sees *)
  assert (Hs2 : exists s2 st,
             d__data_set (Arr a) s1 = d__data_set (Arr a) s2
             /\ storage_resolution s2 = "pathways"
             /\ current_dtype s2 = Some dtype
             /\ current_tag s2 = Some tag
             /\ storage_initialized s2 = true
             /\ _d__data s2 = Some st
             /\ (forall x, dict_get st dtype <> Some (VArr x))
             /\ populated s dtype tag
                = dict_mem (piece_of st dtype) (Some tag)).
  { destruct (storage_initialized s) eqn:Hini.
    - assert (Hst : exists st, _d__data s = Some st).
      { unfold pathways_store in Hp. rewrite Hini in Hp.
        apply andb_true_iff in Hp as [_ Hp]. simpl in Hp.
        destruct (_d__data s) as [st|]; [now exists st|discriminate]. }
      destruct Hst as [st Est].
      exists s1, st. repeat split; try assumption; try reflexivity.
      + intros x Ex.
        assert (Hk := @pathways_store_entry s st dtype Hp Hini Est).
        now rewrite Ex in Hk.
      + unfold populated. now rewrite Hini, Est.
    - exists (with_storage_initialized true (with_d__data (Some []) s1)), [].
      repeat split; try assumption; try reflexivity.
      + now apply d__data_set_uninitialized.
      + intros x. discriminate.
      + unfold populated. now rewrite Hini. }
  destruct Hs2 as (s2 & st & -> & Er2 & Ecd & Etag & Hini2 & Est & Hdict & ->).
  rewrite (@d__data_set_pathways s2 st dtype a Er2 Ecd Hin Hini2 Est Hdict).
  set (piece := piece_of st dtype).
  rewrite Etag. split.
  - intros ->. reflexivity.
  - intros ->. eexists. split; [reflexivity|]. split.
    + apply read_pathway
        with (st := dict_set st dtype (VDict (dict_set piece (Some tag) a)))
             (p := dict_set piece (Some tag) a);
        try assumption; try reflexivity.
      * apply dict_get_set_eq.
      * apply dict_get_set_eq.
    + intro b.
      set (st' := dict_set st dtype (VDict (dict_set piece (Some tag) a))).
      rewrite _add_data_pathways by assumption.
      rewrite (@d__data_set_pathways _ st' dtype b);
        try assumption; try reflexivity.
      * simpl. unfold piece_of, st'. rewrite dict_get_set_eq.
        unfold dict_mem. now rewrite dict_get_set_eq.
      * unfold st'. rewrite dict_get_set_eq. discriminate.
Qed.

(** A write leaves the other populated pairs as they are: the array
    under another pair (type, tag) is read back unchanged. *)
Lemma write_keeps_other_pathways (s s' : spectrum) (st : storage C)
  (dtype tag dtype' tag' : string) (a a' : ndarray C) :
  pathways_store s = true ->
  in_list dtype _ptypes = true ->
  in_list dtype' _ptypes = true ->
  storage_initialized s = true ->
  _d__data s = Some st ->
  dict_get (piece_of st dtype') (Some tag') = Some a' ->
  (dtype', tag') <> (dtype, tag) ->
  _add_data (Arr a) None dtype (Some tag) s = (Ok tt, s') ->
  fst (read (FlagList [Some dtype'; Some tag']) s') = Ok (Some (VArr a')).
Proof.
  intros Hp Hin Hin' Hini Est Ea' Hne Hw.
  assert (Er := pathways_store_resolution Hp).
  rewrite (_add_data_pathways _ _ Er Hin) in Hw.
  rewrite (@d__data_set_pathways _ st dtype a) in Hw;
    try assumption; try reflexivity.
  2:{ intros x Ex.
      assert (Hk := @pathways_store_entry s st dtype Hp Hini Est).
      now rewrite Ex in Hk. }
  cbn [with_flag current_tag] in Hw.
  destruct (dict_mem (piece_of st dtype) (Some tag)); [discriminate|].
  injection Hw as <-.
  assert (Hpiece' : dict_get st dtype' = Some (VDict (piece_of st dtype'))).
  { unfold piece_of in *.
    destruct (dict_get st dtype') as [[x|p]|]; try discriminate Ea'.
    reflexivity. }
  destruct (String.eqb_spec dtype' dtype) as [->|Hd].
  - apply read_pathway
      with (st := dict_set st dtype
                    (VDict (dict_set (piece_of st dtype) (Some tag) a)))
           (p := dict_set (piece_of st dtype) (Some tag) a);
      try assumption; try reflexivity.
    + apply dict_get_set_eq.
    + rewrite dict_get_set_ne; [assumption|]. congruence.
  - apply read_pathway
      with (st := dict_set st dtype
                    (VDict (dict_set (piece_of st dtype) (Some tag) a)))
           (p := piece_of st dtype');
      try assumption; try reflexivity.
    rewrite dict_get_set_ne; [assumption|]. congruence.
Qed.

End Pathways.

Lemma write_then_read_witness :
  pathways_store three_pathways = true
  /\ populated three_pathways "R1g" "a" = true
  /\ populated three_pathways "R2g" "a" = false
  /\ fst (_add_data (Arr arr_1x1) None "R1g" (Some "a") three_pathways)
     = Raise (Exception "Tag already exists")
  /\ exists s',
       _add_data (Arr arr_2x2') None "R2g" (Some "a") three_pathways
       = (Ok tt, s')
       /\ fst (read (FlagList [Some "R2g"; Some "a"]) s')
          = Ok (Some (VArr arr_2x2')).
Proof.
  split; [reflexivity|]. split; [reflexivity|]. split; [reflexivity|].
  split.
  - apply (proj1 (@write_then_read _ _ three_pathways "R1g" "a" arr_1x1
                    eq_refl eq_refl)).
    reflexivity.
  - destruct (proj2 (@write_then_read _ _ three_pathways "R2g" "a" arr_2x2'
                       eq_refl eq_refl) eq_refl) as (s' & E1 & E2 & _).
    exists s'. now split.
Defined.

(* ================================================================== *)
(** ** Reading a spectrum that was never written to *)
(* ================================================================== *)

Section Unwritten.
Context {C : Type} `{NumericLaws C}.

Local Abbreviation spectrum := (TwoDSpectrum C).

Lemma iadd_placeholders :
  iadd (zeros 1 1) (zeros 1 1) = Ok (zeros (C:=C) 1 1).
Proof.
  unfold iadd, zeros, tabulate, get, bget. simpl. now rewrite cadd_0_l.
Qed.

(** Summing placeholders gives the placeholder. *)
Lemma foldM_types_placeholders (s : spectrum) (st : storage C)
  (types : list string) :
  _d__data s = Some st ->
  (forall t, In t types -> dict_get st t = Some (VArr (zeros 1 1))) ->
  foldM (fun data dtype =>
           match (st <- attr_d__data s ;; getitem st dtype) with
           | Ok ddata => add_entry data ddata
           | Raise KeyError => Ok data
           | Raise AttributeError => Ok data
           | Raise e => Raise e
           end)
        types (zeros 1 1) = Ok (zeros 1 1).
Proof.
  intros Est. induction types as [|t types IH]; intro Hall; [reflexivity|].
  cbn [foldM]. unfold attr_d__data at 1. rewrite Est. cbn [obind].
  unfold getitem at 1. rewrite (Hall t) by now left.
  cbn [add_entry]. rewrite iadd_placeholders. cbn [obind].
  apply IH. intros t' Hin. apply Hall. now right.
Qed.

(** Without the attribute [_d__data] the getter raises at its first
    statement, whatever the flag and the resolution. *)
Lemma d__data_get_no_storage (s : spectrum) :
  _d__data s = None -> d__data_get s = Raise AttributeError.
Proof. intro E. unfold d__data_get, attr_d__data. now rewrite E. Qed.

(** On a storage that holds the 1 by 1 zero arrays of a lowered
    resolution, the getter returns the 1 by 1 zero array for every data
    type that the resolution serves. *)
Lemma read_placeholders (s : spectrum) (cd : string) :
  unwritten s ->
  current_dtype s = Some cd ->
  served (storage_resolution s) cd = true ->
  d__data_get s = Ok (Some (VArr (zeros 1 1))).
Proof.
  intros (Hini & st & Est & Hkeys) Ecd Hserved.
  unfold served in Hserved. unfold keys_of in Hkeys.
  unfold d__data_get, attr_d__data. rewrite Est, Ecd. cbn [obind].
  destruct (String.eqb_spec (storage_resolution s) "types") as [Er|_].
  { (* types *)
    rewrite Er in *. cbn [String.eqb Ascii.eqb Bool.eqb].
    destruct (in_list cd _ptypes) eqn:Hp.
    - unfold getitem. rewrite (Hkeys cd) by now apply in_list_In.
      reflexivity.
    - destruct (dict_mem _processes cd) eqn:Hproc.
      + unfold _types_to_processes. rewrite Hini. cbn [obind].
        apply dict_mem_In in Hproc. simpl in Hproc.
        destruct Hproc as [<-|[<-|[<-|[<-|[]]]]];
          lazymatch goal with
          | |- context [getitem _processes ?p] =>
              let v := eval vm_compute in (getitem _processes p) in
              change (getitem _processes p) with v
          end; cbn [obind];
          (rewrite foldM_types_placeholders with (st := st);
           [reflexivity|assumption|]);
          intros t Ht; apply Hkeys; simpl in Ht; simpl; tauto.
      + destruct (dict_mem _signals cd) eqn:Hsig.
        * unfold _types_to_signals. rewrite Hini. cbn [obind].
          apply dict_mem_In in Hsig. simpl in Hsig.
          destruct Hsig as [<-|[<-|[<-|[]]]];
            lazymatch goal with
            | |- context [getitem _signals ?p] =>
                let v := eval vm_compute in (getitem _signals p) in
                change (getitem _signals p) with v
            end; cbn [obind];
            (rewrite foldM_types_placeholders with (st := st);
             [reflexivity|assumption|]);
            intros t Ht; apply Hkeys; simpl in Ht; simpl; tauto.
        * simpl in Hserved. rewrite Hserved.
          unfold _types_to_total. now rewrite Hini. }
  destruct (String.eqb_spec (storage_resolution s) "processes") as [Er|_].
  { rewrite Er in *. cbn [String.eqb Ascii.eqb Bool.eqb].
    destruct (dict_mem _processes cd) eqn:Hproc.
    - unfold getitem. rewrite (Hkeys cd) by now apply dict_mem_In.
      reflexivity.
    - simpl in Hserved. rewrite Hserved.
      unfold _processes_to_total. now rewrite Hini. }
  destruct (String.eqb_spec (storage_resolution s) "signals") as [Er|_].
  { rewrite Er in *. cbn [String.eqb Ascii.eqb Bool.eqb].
    destruct (dict_mem _signals cd) eqn:Hsig.
    - unfold getitem. rewrite (Hkeys cd) by now apply dict_mem_In.
      reflexivity.
    - simpl in Hserved. rewrite Hserved.
      unfold _signals_to_total. now rewrite Hini. }
  discriminate.
Qed.

(** At resolution "off" the getter raises. *)
Lemma read_off_raises (s : spectrum) :
  storage_resolution s = "off" -> exists e, d__data_get s = Raise e.
Proof.
  intro Er. unfold d__data_get. rewrite Er.
  destruct (attr_d__data s) as [st|e]; cbn [obind].
  - eexists. reflexivity.
  - now exists e.
Qed.

(** *** From a new spectrum to the placeholders *)

Lemma set_resolution_cases (r : string) (s : spectrum) :
  (exists e, set_resolution r s = (Raise e, s))
  \/ fst (set_resolution r s) = Ok tt.
Proof.
  unfold set_resolution.
  destruct (in_list r _resolutions); [|left; eexists; reflexivity].
  destruct (_resolution2number (storage_resolution s)) as [res_old|];
    [|left; eexists; reflexivity].
  destruct (_resolution2number r) as [res_new|];
    [|left; eexists; reflexivity].
  destruct (res_old <? res_new); [left; eexists; reflexivity|].
  destruct (res_new <? res_old); [|right; reflexivity].
  destruct (_convert_resolution res_old res_new s) as [[[]|e'] s'] eqn:E;
    [right; reflexivity|].
  left. exists e'. f_equal.
  change s' with (snd (Raise (A:=unit) e', s')). rewrite <- E.
  apply convert_resolution_raise with (e := e'). now rewrite E.
Qed.

(** Lowering a new storage to "types" stores the 1 by 1 zero array
    under every pathway type. *)
Lemma lower_new_storage (s : spectrum) :
  new_storage s ->
  exists st,
    set_resolution "types" s
    = (Ok tt, with_storage_resolution "types" (with_d__data (Some st) s))
    /\ forall k, In k _ptypes -> dict_get st k = Some (VArr (zeros 1 1)).
Proof.
  intros (Hini & Est & Er).
  rewrite (@set_resolution_lower _ _ s "types" 4 3);
    [|now rewrite Er|reflexivity|lia].
  unfold _convert_resolution. cbn [Nat.eqb andb].
  unfold _ptypes. cbn [foldM].
  unfold sum_pathways_of_type, attr_d__data. rewrite Est.
  cbn [obind foldM]. eexists. split; [reflexivity|].
  intros k Hk. simpl in Hk.
  repeat (destruct Hk as [<-|Hk]; [reflexivity|]). destruct Hk.
Qed.

(** Lowering the placeholders of "types" stores the 1 by 1 zero array
    under every process, or under every signal. *)
Lemma lower_placeholders (s : spectrum) (r : string) :
  unwritten s ->
  storage_resolution s = "types" ->
  r = "processes" \/ r = "signals" ->
  exists st,
    set_resolution r s
    = (Ok tt, with_storage_resolution r (with_d__data (Some st) s))
    /\ forall k, In k (keys_of r) -> dict_get st k = Some (VArr (zeros 1 1)).
Proof.
  intros (Hini & st & Est & Hkeys) Er Hr. rewrite Er in Hkeys.
  change (keys_of "types") with _ptypes in Hkeys.
  assert (Hproc : forall p, In p (dict_keys _processes) ->
             _types_to_processes s p = Ok (zeros 1 1)).
  { intros p Hp. simpl in Hp. unfold _types_to_processes. rewrite Hini.
    cbn [obind].
    destruct Hp as [<-|[<-|[<-|[<-|[]]]]];
      lazymatch goal with
      | |- context [getitem _processes ?p] =>
          let v := eval vm_compute in (getitem _processes p) in
          change (getitem _processes p) with v
      end; cbn [obind];
      (apply foldM_types_placeholders with (st := st); [assumption|]);
      intros t Ht; apply Hkeys; simpl in Ht; simpl; tauto. }
  assert (Hsig : forall p, In p (dict_keys _signals) ->
             _types_to_signals s p = Ok (zeros 1 1)).
  { intros p Hp. simpl in Hp. unfold _types_to_signals. rewrite Hini.
    cbn [obind].
    destruct Hp as [<-|[<-|[<-|[]]]];
      lazymatch goal with
      | |- context [getitem _signals ?p] =>
          let v := eval vm_compute in (getitem _signals p) in
          change (getitem _signals p) with v
      end; cbn [obind];
      (apply foldM_types_placeholders with (st := st); [assumption|]);
      intros t Ht; apply Hkeys; simpl in Ht; simpl; tauto. }
  destruct Hr as [-> | ->].
  - rewrite (@set_resolution_lower _ _ s "processes" 3 2);
      [|now rewrite Er|reflexivity|lia].
    unfold _convert_resolution. cbn [Nat.eqb andb].
    unfold _processes at 1. cbn [dict_keys map fst foldM].
    rewrite !Hproc by (simpl; tauto).
    cbn [obind]. eexists. split; [reflexivity|].
    intros k Hk. simpl in Hk.
    repeat (destruct Hk as [<-|Hk]; [reflexivity|]). destruct Hk.
  - rewrite (@set_resolution_lower _ _ s "signals" 3 1);
      [|now rewrite Er|reflexivity|lia].
    unfold _convert_resolution. cbn [Nat.eqb andb].
    unfold _signals at 1. cbn [dict_keys map fst foldM].
    rewrite !Hsig by (simpl; tauto).
    cbn [obind]. eexists. split; [reflexivity|].
    intros k Hk. simpl in Hk.
    repeat (destruct Hk as [<-|Hk]; [reflexivity|]). destruct Hk.
Qed.

(** Lowering the placeholders to "off" changes the resolution only. *)
Lemma lower_to_off (s : spectrum) :
  storage_initialized s = false ->
  storage_resolution s = "signals" \/ storage_resolution s = "processes" ->
  set_resolution "off" s = (Ok tt, with_storage_resolution "off" s).
Proof.
  intros Hini [Er|Er].
  - rewrite (@set_resolution_lower _ _ s "off" 1 0);
      [|now rewrite Er|reflexivity|lia].
    unfold _convert_resolution, _signals_to_total. cbn [Nat.eqb andb].
    now rewrite Hini.
  - rewrite (@set_resolution_lower _ _ s "off" 2 0);
      [|now rewrite Er|reflexivity|lia].
    unfold _convert_resolution, _processes_to_total. cbn [Nat.eqb andb].
    now rewrite Hini.
Qed.

Lemma placeholders_same_storage (s s' : spectrum) :
  same_storage s s' -> placeholders s -> placeholders s'.
Proof.
  intros (Ei & Ed & Er) (Hini & Hcases).
  split; [congruence|]. rewrite Er.
  destruct Hcases as [(H1 & H2 & H3)|[[Hres (H1 & st & Est & Hk)]|Hoff]].
  - left. repeat split; congruence.
  - right. left. split; [exact Hres|]. split; [congruence|].
    exists st. split; [congruence|]. now rewrite Er.
  - right. right. exact Hoff.
Qed.

(** [set_resolution] keeps the placeholders in place. *)
Lemma placeholders_set_resolution (r : string) (s : spectrum) :
  placeholders s -> placeholders (snd (set_resolution r s)).
Proof.
  intros Hp. destruct (set_resolution_cases r s) as [(e & E)|Hok].
  { now rewrite E. }
  destruct (set_resolution_ok_allowed Hok) as (Hallowed & _ & _).
  unfold allowed in Hallowed. apply orb_true_iff in Hallowed.
  destruct Hallowed as [Hlow|Hsame].
  2:{ apply andb_true_iff in Hsame as [Hin Heq].
      apply String.eqb_eq in Heq. subst r.
      now rewrite (set_resolution_same Hin). }
  destruct Hp as (Hini & Hcases).
  unfold lowering in Hlow.
  rewrite !orb_true_iff, !andb_true_iff, !String.eqb_eq in Hlow.
  destruct Hcases as [Hnew|[[Hres Hu]|Hoff]].
  - (* a new storage: only "types" can follow *)
    destruct Hnew as (H1 & H2 & H3).
    destruct Hlow as [[[[[_ ->]|[E _]]|[E _]]|[E _]]|[E _]];
      try congruence.
    destruct (@lower_new_storage s) as (st & E & Hk);
      [repeat split; assumption|].
    rewrite E. split; [exact Hini|]. right. left.
    split; [now left|]. split; [exact Hini|].
    exists st. split; [reflexivity|exact Hk].
  - destruct Hlow as [[[[[E _]|[E ->]]|[E ->]]|[E ->]]|[E ->]];
      try (destruct Hres as [Hr|[Hr|Hr]]; congruence).
    + destruct (@lower_placeholders s "processes" Hu E) as (st & E' & Hk);
        [now left|].
      rewrite E'. split; [exact Hini|]. right. left.
      split; [right; now left|]. split; [exact Hini|].
      exists st. split; [reflexivity|exact Hk].
    + destruct (@lower_placeholders s "signals" Hu E) as (st & E' & Hk);
        [now right|].
      rewrite E'. split; [exact Hini|]. right. left.
      split; [right; now right|]. split; [exact Hini|].
      exists st. split; [reflexivity|exact Hk].
    + rewrite (@lower_to_off s Hini) by now left.
      split; [exact Hini|]. right. now right.
    + rewrite (@lower_to_off s Hini) by now right.
      split; [exact Hini|]. right. now right.
  - destruct Hlow as [[[[[E _]|[E _]]|[E _]]|[E _]]|[E _]]; congruence.
Qed.

Lemma same_storage_set_data_flag (f : flag) (s : spectrum) :
  same_storage s (snd (set_data_flag f s)).
Proof.
  unfold set_data_flag. destruct f as [l|x].
  - destruct (py_index l 0) as [d|e]; [|repeat split].
    destruct (py_index l 1) as [t|[]]; repeat split.
  - repeat split.
Qed.

Lemma same_storage_set_data_type (d : string) (s : spectrum) :
  same_storage s (snd (set_data_type d s)).
Proof.
  unfold set_data_type. destruct (in_list d dtypes); repeat split.
Qed.

Lemma same_storage_set_data (a : ndarray C) (d : option string)
  (s : spectrum) :
  same_storage s (snd (set_data a d s)).
Proof.
  unfold set_data.
  destruct (self_dtype s) as [d0|]; [destruct (py_ne d (Some d0))|];
    destruct d as [d|]; try (repeat split; fail);
    try destruct (in_list d dtypes);
    destruct (String.eqb d "Tot"); try (repeat split; fail);
    destruct (String.eqb d "Reph"); try (repeat split; fail);
    destruct (String.eqb d "Nonr"); repeat split.
Qed.

Lemma same_storage_add_data (a : ndarray C) (d : option string)
  (s : spectrum) :
  same_storage s (snd (add_data a d s)).
Proof.
  unfold add_data. destruct d as [d|]; [|repeat split].
  destruct (py_ne (Some d) (self_dtype s)); [repeat split|].
  destruct (String.eqb d "Tot");
    [destruct (iadd _ a); repeat split|].
  destruct (String.eqb d "Reph");
    [destruct (iadd _ a); repeat split|].
  destruct (String.eqb d "Nonr");
    [destruct (iadd _ a); repeat split|].
  repeat split.
Qed.

(** A spectrum that was never written to holds placeholders. *)
Lemma never_written_placeholders (s : spectrum) :
  never_written s -> placeholders s.
Proof.
  induction 1 as [s Hnew|r s _ IH|f s _ IH|a s _ IH|a s _ IH|d s _ IH
                  |a d s _ IH|a d s _ IH].
  - split; [apply Hnew|now left].
  - now apply placeholders_set_resolution.
  - exact (placeholders_same_storage (same_storage_set_data_flag f s) IH).
  - apply (@placeholders_same_storage s); [repeat split|exact IH].
  - apply (@placeholders_same_storage s); [repeat split|exact IH].
  - exact (placeholders_same_storage (same_storage_set_data_type d s) IH).
  - exact (placeholders_same_storage (same_storage_set_data a d s) IH).
  - exact (placeholders_same_storage (same_storage_add_data a d s) IH).
Qed.

(** C7, as amended.  A spectrum that was never written to -- one reached
    from a new spectrum by [set_resolution], [set_data_flag],
    [set_axis_1], [set_axis_3], [set_data_type], [set_data] and
    [add_data], none of which assigns [d__data] -- has the flag
    [storage_initialized] false, and once its resolution is "types",
    "processes" or "signals" the getter returns the 1 by 1 zero array
    for every data type that the resolution serves: at "types" a
    pathway type, a process, a signal or "total"; at "processes" a
    process or "total"; at "signals" a signal or "total".  At resolution
    "off" the getter raises for every flag. *)
Theorem read_unwritten (s : spectrum) (cd : string) :
  never_written s ->
  storage_initialized s = false
  /\ (current_dtype s = Some cd ->
      served (storage_resolution s) cd = true ->
      d__data_get s = Ok (Some (VArr (zeros 1 1))))
  /\ (storage_resolution s = "off" -> exists e, d__data_get s = Raise e).
Proof.
  intro Hnw. destruct (never_written_placeholders Hnw) as (Hini & Hcases).
  split; [exact Hini|]. split; [|apply read_off_raises].
  intros Ecd Hserved.
  destruct Hcases as [(_ & _ & Er)|[[_ Hu]|Er]].
  - rewrite Er in Hserved. discriminate.
  - now apply read_placeholders with (cd := cd).
  - rewrite Er in Hserved. discriminate.
Qed.

End Unwritten.

(** The counterexample to C7 as stated: a spectrum that was never
    written to and was lowered to "off" raises when "total" is read. *)
Lemma read_unwritten_off_raises :
  storage_initialized lowered_to_off = false
  /\ recognized "total" = true
  /\ fst (read (FlagAtom (Some "total")) lowered_to_off)
     = Raise (Exception "not implemented").
Proof. repeat split. Qed.

(** A pathway type is not served at resolution "processes": the getter
    returns [None]. *)
Lemma read_type_at_processes :
  fst ((set_resolution "types" >> set_resolution "processes"
        >> read (FlagAtom (Some "R1g"))) (@__init__ Z))
  = Ok None.
Proof. reflexivity. Qed.

(** A new spectrum has no attribute [_d__data] yet, and reading it
    raises before the branch that would return the 1 by 1 zero array. *)
Lemma read_new_spectrum_raises (f : flag) :
  fst (read f (@__init__ Z)) <> Ok (Some (VArr (zeros 1 1))).
Proof.
  unfold read, mthen, mbind.
  destruct (set_data_flag f __init__) as [[u|e] s'] eqn:E; [|discriminate].
  assert (Es : _d__data s' = None).
  { destruct f as [l|x]; simpl in E.
    - destruct (py_index l 0) as [d|]; [|discriminate].
      destruct (py_index l 1) as [t|[]]; try discriminate.
      now injection E as _ <-.
    - now injection E as _ <-. }
  simpl. rewrite (d__data_get_no_storage Es). discriminate.
Qed.

Lemma read_unwritten_witness :
  let s := snd (set_data_flag (FlagAtom (Some "GSB"))
                  (snd (set_resolution "types" (@__init__ Z)))) in
  never_written s
  /\ storage_resolution s = "types"
  /\ d__data_get s = Ok (Some (VArr (zeros 1 1)))
  /\ exists e, d__data_get lowered_to_off = Raise e.
Proof.
  cbv zeta.
  assert (Hnew : never_written (@__init__ Z)).
  { apply nw_new. repeat split. }
  assert (Hs : never_written
                 (snd (set_data_flag (FlagAtom (Some "GSB"))
                         (snd (set_resolution "types" (@__init__ Z)))))).
  { apply nw_set_data_flag, nw_set_resolution, Hnew. }
  assert (Hoff : never_written lowered_to_off).
  { change lowered_to_off
      with (snd (set_resolution "off"
                   (snd (set_resolution "signals"
                           (snd (set_resolution "types" (@__init__ Z))))))).
    apply nw_set_resolution, nw_set_resolution, nw_set_resolution, Hnew. }
  split; [exact Hs|]. split; [reflexivity|]. split.
  - apply (proj1 (proj2 (@read_unwritten Z _ _ _ "GSB" Hs))); reflexivity.
  - apply (proj2 (proj2 (@read_unwritten Z _ _ _ "total" Hoff))).
    reflexivity.
Defined.

(* ================================================================== *)
(** ** Where the code departs from its own intent *)
(* ================================================================== *)

Section Defects.
Context {C : Type} {N : Numeric C}.

Local Abbreviation spectrum := (TwoDSpectrum C).

(** At resolution "types", "total" cannot be read from an initialized
    storage: [_types_to_total] calls [_types_to_processes] with one
    argument. *)
Lemma types_total_raises (s : spectrum) (st : storage C)
  (tgt : nat * nat) :
  storage_resolution s = "types" ->
  storage_initialized s = true ->
  _d__data s = Some st ->
  axes_shape s = Ok tgt ->
  current_dtype s = Some "total" ->
  d__data_get s = Raise TypeError.
Proof.
  intros Er Hini Est Eax Ecd.
  unfold d__data_get, attr_d__data. rewrite Est, Er, Ecd. simpl.
  unfold _types_to_total, zeros_axes. now rewrite Hini, Eax.
Qed.

(** [add_data] raises on every spectrum whose attribute [dtype] is not
    the argument already: in particular on every new spectrum. *)
Lemma add_data_dtype_differs (s : spectrum) (a : ndarray C) (d : string) :
  self_dtype s <> Some d ->
  add_data a (Some d) s
  = (Raise (Exception "Incorrect data type in TwoDSpectrum"), s).
Proof.
  intro Hne. unfold add_data, py_ne.
  destruct (option_string_eqb (Some d) (self_dtype s)) eqn:E; [|reflexivity].
  apply (@keqb_eq _ _ tag_KeyLaws) in E. congruence.
Qed.

(** Once the attribute [dtype] is "Tot", two calls of [add_data] on an
    empty accumulator leave the elementwise sum. *)
Lemma add_data_twice {L : @NumericLaws C N} (s : spectrum) (a b : ndarray C) :
  self_dtype s = Some "Tot" ->
  self_data s = None ->
  shape b = shape a ->
  exists s' y,
    (add_data a (Some "Tot") >> add_data b (Some "Tot")) s = (Ok tt, s')
    /\ self_data s' = Some y
    /\ is_sum y a b.
Proof.
  intros Ed Ea Es. unfold mthen, mbind.
  assert (Hstep : forall (s0 : spectrum) (x : ndarray C),
             self_dtype s0 = Some "Tot" ->
             add_data x (Some "Tot") s0
             = match iadd (lazy_zeros (self_data s0) x) x with
               | Ok y => (Ok tt, with_data (Some y) s0)
               | Raise e =>
                 (Raise e, with_data (Some (lazy_zeros (self_data s0) x)) s0)
               end).
  { intros s0 x E0. unfold add_data, py_ne. rewrite E0. reflexivity. }
  rewrite (Hstep s a Ed), Ea. cbn [lazy_zeros].
  destruct (@iadd_succeeds _ _ (zeros (fst (shape a)) (snd (shape a))) a)
    as (y1 & E1 & Es1); [simpl; apply broadcastable_refl|].
  assert (Hs1 : shape y1 = shape a).
  { rewrite Es1. simpl. now destruct (shape a). }
  rewrite E1.
  rewrite (Hstep (with_data (Some y1) s) b Ed).
  change (self_data (with_data (Some y1) s)) with (Some y1).
  cbn [lazy_zeros].
  destruct (@iadd_succeeds _ _ y1 b) as (y2 & E2 & Es2).
  { rewrite Hs1, Es. apply broadcastable_refl. }
  rewrite E2. exists (with_data (Some y2) s), y2.
  split; [reflexivity|]. split; [reflexivity|]. split.
  - now rewrite Es2.
  - intros i j Hi Hj.
    rewrite (get_iadd E2) by (rewrite Hs1; assumption).
    rewrite (get_iadd E1) by (simpl; assumption).
    rewrite get_zeros.
    rewrite (@bget_same_shape _ _ a (fst (shape a)) (snd (shape a)))
      by (try assumption; now destruct (shape a)).
    rewrite (@bget_same_shape _ _ b (fst (shape a)) (snd (shape a)))
      by (try assumption; rewrite Es; now destruct (shape a)).
    now rewrite cadd_0_l.
Qed.

End Defects.

(** C1.  On a spectrum that holds three pathways, "total" read at
    resolution "pathways", read after the conversions types ->
    processes and read after the conversions types -> signals is one
    and the same array; read at resolution "types" it is a
    [TypeError]. *)
Theorem total_at_types_raises :
  let total := Ok (Some (VArr {| shape := (2, 2);
                                 buf := [12; 24; 36; 48]%Z |})) in
  fst (read (FlagAtom (Some "total")) three_pathways) = total
  /\ fst ((set_resolution "types" >> set_resolution "processes"
           >> read (FlagAtom (Some "total"))) three_pathways) = total
  /\ fst ((set_resolution "types" >> set_resolution "signals"
           >> read (FlagAtom (Some "total"))) three_pathways) = total
  /\ fst ((set_resolution "types"
           >> read (FlagAtom (Some "total"))) three_pathways)
     = Raise TypeError.
Proof. cbv zeta. repeat split. Qed.

(** C4.  On a 2 by 2 grid, an array of shape (1, 3) written under a new
    pair (type, tag) is stored, and read back, without any error. *)
Theorem write_wrong_shape_is_stored :
  let s := fresh_with_axes 2 2 in
  axes_shape s = Ok (2, 2)
  /\ shape arr_1x3 = (1, 3)
  /\ fst (_add_data (Arr arr_1x3) None "R1g" (Some "a") s) = Ok tt
  /\ fst ((_add_data (Arr arr_1x3) None "R1g" (Some "a")
           >> read (FlagList [Some "R1g"; Some "a"])) s)
     = Ok (Some (VArr arr_1x3)).
Proof. cbv zeta. repeat split. Qed.

(** C5.  On a new spectrum, [add_data] raises for each of "Tot", "Reph"
    and "Nonr" and stores nothing. *)
Theorem add_data_new_spectrum_raises :
  forall d, In d dtypes ->
    add_data arr_2x2 (Some d) __init__
    = (Raise (Exception "Incorrect data type in TwoDSpectrum"), __init__).
Proof.
  intros d Hd. apply add_data_dtype_differs. discriminate.
Qed.

Lemma add_data_new_spectrum_raises_witness :
  In "Tot" dtypes
  /\ add_data arr_2x2 (Some "Tot") __init__
     = (Raise (Exception "Incorrect data type in TwoDSpectrum"), __init__).
Proof.
  split; [now left|]. apply add_data_new_spectrum_raises. now left.
Defined.

(** With the attribute set beforehand, the two calls accumulate. *)
Example add_data_after_set_data_type :
  self_data (snd ((set_data_type "Tot" >> add_data arr_2x2 (Some "Tot")
                   >> add_data arr_2x2' (Some "Tot")) __init__))
  = Some {| shape := (2, 2); buf := [11; 22; 33; 44]%Z |}.
Proof. reflexivity. Qed.

(* ================================================================== *)
(** ** Lineshapes *)
(* ================================================================== *)

Lemma py_index_nat {A : Type} (l : list A) (i : nat) (d : A) :
  i < List.length l -> py_index l (Z.of_nat i) = Ok (nth i l d).
Proof.
  intro Hlt. unfold py_index.
  destruct (Z.ltb_spec (Z.of_nat i) 0) as [Hneg|_]; [lia|].
  destruct (Z.ltb_spec (Z.of_nat i) 0) as [Hneg|_]; [lia|].
  destruct (Z.leb_spec (Z.of_nat (List.length l)) (Z.of_nat i)) as [Hge|_];
    [lia|].
  simpl. rewrite Nat2Z.id.
  destruct (nth_error l i) as [a|] eqn:E.
  - now rewrite (nth_error_nth _ _ d E).
  - apply nth_error_None in E. lia.
Qed.

Section Columns.
Context {C : Type} `{Numeric C}.

Lemma set_column_spec (a : ndarray C) (n m k : nat) (v : list C) :
  shape a = (n, m) -> k < m -> List.length v = n ->
  exists a',
    set_column a k v = Ok a'
    /\ shape a' = (n, m)
    /\ forall i j, i < n -> j < m ->
         get a' i j = if j =? k then nth i v czero else get a i j.
Proof.
  intros Es Hk Hv. unfold set_column. rewrite Es.
  destruct (Nat.leb_spec m k) as [Hle|_]; [lia|].
  rewrite Hv, Nat.eqb_refl. simpl orb. cbv iota.
  eexists. split; [reflexivity|]. split; [reflexivity|].
  intros i j Hi Hj. unfold get at 1. simpl.
  rewrite nth_tabulate by assumption.
  destruct (j =? k); [|reflexivity].
  destruct (Nat.eqb_spec n 1) as [->|_]; [|reflexivity].
  now replace i with 0 by lia.
Qed.

End Columns.

(** The loop over the columns, on axes of one length [N]: it returns,
    and the entry [(a, b)] of the array is the entry [a] of the column
    computed from the sample [b] of the first axis. *)
Lemma fill_columns_spec (self : Mock.t) (sample : R -> R)
  (column : R -> list complex) (N : nat) (arr : ndarray complex) :
  List.length (FrequencyAxis.data (Mock.oa1 self)) = N ->
  (forall o1, List.length (column o1) = N) ->
  shape arr = (N, N) ->
  exists arr',
    fill_columns self sample column N arr = Ok arr'
    /\ shape arr' = (N, N)
    /\ forall a b, a < N -> b < N ->
         get arr' a b
         = nth a (column (sample (nth b (FrequencyAxis.data (Mock.oa1 self))
                                        0%R)))
               czero.
Proof.
  intros Hlen Hcol Hshape. unfold fill_columns.
  set (body := fun (arr : ndarray complex) (i1 : nat) =>
                 x <- py_index (FrequencyAxis.data (Mock.oa1 self))
                               (Z.of_nat i1) ;;
                 set_column arr i1 (column (sample x))).
  enough (Hgen : forall n k (arr0 : ndarray complex),
             k + n = N -> shape arr0 = (N, N) ->
             exists arr',
               foldM body (seq k n) arr0 = Ok arr'
               /\ shape arr' = (N, N)
               /\ forall a b, a < N -> b < N ->
                    get arr' a b
                    = if k <=? b
                      then nth a (column
                                    (sample
                                       (nth b (FrequencyAxis.data
                                                 (Mock.oa1 self)) 0%R)))
                               czero
                      else get arr0 a b).
  { destruct (Hgen N 0 arr eq_refl Hshape) as (arr' & E & Es & Hget).
    exists arr'. split; [exact E|]. split; [exact Es|].
    intros a b Ha Hb. now rewrite (Hget a b Ha Hb). }
  induction n as [|n IH]; intros k arr0 Hk Hs0.
  - exists arr0. split; [reflexivity|]. split; [assumption|].
    intros a b Ha Hb. destruct (Nat.leb_spec k b); [lia|reflexivity].
  - cbn [seq foldM]. unfold body at 1.
    rewrite (@py_index_nat _ _ k 0%R) by lia. cbn [obind].
    destruct (@set_column_spec _ _ arr0 N N k
                (column (sample (nth k (FrequencyAxis.data (Mock.oa1 self))
                                     0%R))) Hs0)
      as (arr1 & -> & Es1 & Hget1); [lia|apply Hcol|].
    cbn [obind].
    destruct (IH (S k) arr1) as (arr' & E & Es & Hget); [lia|assumption|].
    exists arr'. split; [exact E|]. split; [exact Es|].
    intros a b Ha Hb. rewrite (Hget a b Ha Hb), (Hget1 a b Ha Hb).
    destruct (Nat.leb_spec (S k) b), (Nat.leb_spec k b),
      (Nat.eqb_spec b k); try lia; try reflexivity.
    now subst.
Qed.

Section Gaussian.
Local Open Scope R_scope.

Lemma sqr_abs_le (d1 d2 : R) : Rabs d1 <= Rabs d2 -> d1 ^ 2 <= d2 ^ 2.
Proof.
  intro Hle. rewrite <- (pow2_abs d1), <- (pow2_abs d2).
  apply pow_incr. split; [apply Rabs_pos|assumption].
Qed.

(** The Gaussian factor decreases with the distance to the centre. *)
Lemma gaussian_factor_le (d1 d2 w : R) :
  Rabs d1 <= Rabs d2 ->
  exp (- (d2 / w) ^ 2) <= exp (- (d1 / w) ^ 2).
Proof.
  intro Hle.
  assert (Hsq : (d1 / w) ^ 2 <= (d2 / w) ^ 2).
  { unfold Rdiv. rewrite !Rpow_mult_distr.
    apply Rmult_le_compat_r; [apply pow2_ge_0|now apply sqr_abs_le]. }
  destruct (Rle_lt_or_eq_dec _ _ Hsq) as [Hlt|Heq].
  - left. apply exp_increasing. lra.
  - rewrite Heq. right. reflexivity.
Qed.

Lemma nth_gaussian_column (pref : complex) (o1 cen1 widthx : R)
  (oo3 : list R) (cen3 widthy : R) (a : nat) :
  (a < List.length oo3)%nat ->
  nth a (gaussian_column pref o1 cen1 widthx oo3 cen3 widthy) czero
  = cscale (cscale pref (exp (- ((o1 - cen1) / widthx) ^ 2)))
           (exp (- ((nth a oo3 0 - cen3) / widthy) ^ 2)).
Proof.
  intro Ha. unfold gaussian_column.
  set (f := fun o3 : R =>
              cscale (cscale pref (exp (- ((o1 - cen1) / widthx) ^ 2)))
                     (exp (- ((o3 - cen3) / widthy) ^ 2))).
  rewrite (nth_indep _ czero (f 0)) by now rewrite length_map.
  now rewrite map_nth.
Qed.

(** The prefactor 1.0, whether its absolute value is taken or not. *)
Lemma unit_prefactor (b : bool) :
  re (if b then cabs (mk_complex 1 0) else mk_complex 1 0) = 1.
Proof.
  destruct b; [|reflexivity]. unfold cabs. simpl.
  replace (1 * (1 * 1) + 0 * (0 * 1)) with 1 by ring. apply sqrt_1.
Qed.

(** The parameters of a line with default widths. *)
Lemma line_parameters_default (self : Mock.t) (p : LiouvillePathway.t) :
  centred_100_100 p ->
  exists dephx,
    line_parameters self p
    = Ok (Mock.widthx self, Mock.widthy self, dephx, Mock.dephy self).
Proof.
  intros (_ & _ & _ & (w1 & E1 & H1) & (w3 & E3 & H3) & (d1 & Ed)).
  unfold line_parameters. rewrite E1, E3, Ed. cbn [obind].
  destruct (Rlt_dec w1 0) as [_|Hn]; [|contradiction].
  destruct (Rlt_dec w3 0) as [_|Hn]; [|contradiction].
  cbn [obind].
  destruct (Rlt_dec d1 0); cbn [obind]; eexists; reflexivity.
Qed.

(** The Gaussian array of a pathway on axes of one length: the entry
    [(a, b)] belongs to the sample [a] of the axis omega_3 and the
    sample [b] of the axis omega_1. *)
Lemma calculate_pathway_gaussian (self : Mock.t) (p : LiouvillePathway.t)
  (sample : R -> R) :
  axis_ok (Mock.oa1 self) -> axis_ok (Mock.oa3 self) ->
  List.length (FrequencyAxis.data (Mock.oa1 self))
  = List.length (FrequencyAxis.data (Mock.oa3 self)) ->
  centred_100_100 p ->
  (LiouvillePathway.pathway_type p = "R"%string /\ sample = Ropp
   \/ LiouvillePathway.pathway_type p = "NR"%string
      /\ sample = (fun x => x)) ->
  exists arr,
    calculate_pathway self p "Gaussian" = Ok (Some arr)
    /\ shape arr = (List.length (FrequencyAxis.data (Mock.oa1 self)),
                    List.length (FrequencyAxis.data (Mock.oa1 self)))
    /\ forall a b,
         (a < List.length (FrequencyAxis.data (Mock.oa1 self)))%nat ->
         (b < List.length (FrequencyAxis.data (Mock.oa1 self)))%nat ->
         re (get arr a b)
         = exp (- ((sample (nth b (FrequencyAxis.data (Mock.oa1 self)) 0)
                    - 100) / Mock.widthx self) ^ 2)
           * exp (- ((nth a (FrequencyAxis.data (Mock.oa3 self)) 0 - 100)
                     / Mock.widthy self) ^ 2).
Proof.
  intros Hax1 Hax3 Hlen Hp Htype.
  destruct (line_parameters_default self Hp) as (dephx & Eparams).
  destruct Hp as (Ef0 & Ef & Epref & _).
  unfold calculate_pathway. rewrite Ef0, Ef, Eparams. cbn [obind].
  rewrite Hax1, Hax3, <- Hlen.
  set (N := List.length (FrequencyAxis.data (Mock.oa1 self))) in *.
  set (pref := if Mock.all_positive self
               then cabs (LiouvillePathway.pref p)
               else LiouvillePathway.pref p).
  assert (Hpref : re pref = 1).
  { unfold pref. rewrite Epref. apply unit_prefactor. }
  assert (Hfill : exists arr,
             fill_columns self sample
               (fun o1 => gaussian_column pref o1 100 (Mock.widthx self)
                            (FrequencyAxis.data (Mock.oa3 self)) 100
                            (Mock.widthy self)) N (zeros N N) = Ok arr
             /\ shape arr = (N, N)
             /\ forall a b, (a < N)%nat -> (b < N)%nat ->
                  re (get arr a b)
                  = exp (- ((sample (nth b (FrequencyAxis.data
                                              (Mock.oa1 self)) 0)
                             - 100) / Mock.widthx self) ^ 2)
                    * exp (- ((nth a (FrequencyAxis.data (Mock.oa3 self)) 0
                               - 100) / Mock.widthy self) ^ 2)).
  { destruct (@fill_columns_spec self sample
                (fun o1 => gaussian_column pref o1 100 (Mock.widthx self)
                             (FrequencyAxis.data (Mock.oa3 self)) 100
                             (Mock.widthy self)) N (zeros N N))
      as (arr & E & Es & Hget).
    - reflexivity.
    - intro o1. unfold gaussian_column. now rewrite length_map, <- Hlen.
    - reflexivity.
    - exists arr. split; [exact E|]. split; [exact Es|].
      intros a b Ha Hb. rewrite (Hget a b Ha Hb).
      rewrite nth_gaussian_column by (rewrite <- Hlen; exact Ha).
      simpl. rewrite Hpref. ring. }
  destruct Hfill as (arr & E & Es & Hget).
  destruct Htype as [[-> ->]|[-> ->]]; simpl String.eqb; cbv iota;
    rewrite E; cbn [obind]; exists arr; repeat split; assumption.
Qed.

End Gaussian.

Section LineshapeExamples.
Local Open Scope R_scope.

(** C3.  The dephasing of the y-axis follows the sign of [widths[3]],
    not that of [dephs[3]].  With default widths and [dephs[3] = 5] the
    line is computed with the default 2 (the value at the centre is 1/2,
    not 1/5); with given widths and [dephs[3] = -1] it is computed with
    -1, not with the default. *)
Theorem dephy_follows_widths :
  line_parameters one_point_calculator given_dephasing = Ok (300, 300, 1, 2)
  /\ line_parameters one_point_calculator default_dephasing
     = Ok (10, 10, 2, -1)
  /\ exists arr,
       calculate_pathway one_point_calculator given_dephasing "Lorentzian"
       = Ok (Some arr)
       /\ re (get arr 0 0) = 1 / 2.
Proof.
  assert (E1 : line_parameters one_point_calculator given_dephasing
               = Ok (300, 300, 1, 2)).
  { unfold line_parameters. simpl.
    repeat match goal with
           | |- context [Rlt_dec ?a ?b] =>
               destruct (Rlt_dec a b); try lra; simpl
           end.
    reflexivity. }
  assert (E2 : line_parameters one_point_calculator default_dephasing
               = Ok (10, 10, 2, -1)).
  { unfold line_parameters. simpl.
    repeat match goal with
           | |- context [Rlt_dec ?a ?b] =>
               destruct (Rlt_dec a b); try lra; simpl
           end.
    reflexivity. }
  split; [exact E1|]. split; [exact E2|].
  unfold calculate_pathway. rewrite E1.
  eexists. split; [reflexivity|].
  simpl. field.
Qed.

End LineshapeExamples.

(* ================================================================== *)
(** ** Further properties of the storage *)
(* ================================================================== *)

(** X1.  [_resolution2number] is the position of the name in
    [_resolutions]: it returns [n] for [res] exactly when the [n]-th
    resolution is [res] (off 0, signals 1, processes 2, types 3,
    pathways 4), and it raises for every other string. *)
Theorem resolution2number_position (res : string) :
  (forall n, _resolution2number res = Ok n
             <-> nth_error _resolutions n = Some res)
  /\ (in_list res _resolutions = false ->
      _resolution2number res
      = Raise (Exception "Unknow resolution level in TwoDSpectrum")).
Proof.
  split.
  - intro n. split.
    + intro E. destruct (resolution2number_level E) as [Hin ->].
      apply in_resolutions in Hin.
      destruct Hin as [->|[->|[->|[->| ->]]]]; reflexivity.
    + intro E.
      do 5 (destruct n as [|n]; [injection E as <-; reflexivity|]).
      destruct n; discriminate.
  - intro Hin. unfold _resolution2number. now rewrite Hin.
Qed.

Lemma resolution2number_position_witness :
  in_list "fine" _resolutions = false
  /\ _resolution2number "fine"
     = Raise (Exception "Unknow resolution level in TwoDSpectrum")
  /\ _resolution2number "types" = Ok 3.
Proof.
  split; [reflexivity|]. split.
  - apply (proj2 (resolution2number_position "fine")). reflexivity.
  - apply (proj1 (resolution2number_position "types")). reflexivity.
Defined.

Lemma dict_mem_keys {K V : Type} `{KeyLaws K} (d : dict K V) (k : K) :
  dict_mem d k = true <-> In k (dict_keys d).
Proof.
  unfold dict_mem. induction d as [|[k' v] d IH]; simpl.
  - split; [discriminate|tauto].
  - destruct (keqb k k') eqn:E.
    + apply keqb_eq in E. subst. split; [now left|reflexivity].
    + rewrite IH. split; [now right|].
      intros [->|Hin]; [|assumption].
      rewrite keqb_refl in E. discriminate.
Qed.

Section StoreExtras.
Context {C : Type} `{Numeric C}.

Local Abbreviation spectrum := (TwoDSpectrum C).

(** The tags of an initialized "pathways" storage, type by type. *)
Lemma get_all_tags_pathways (s : spectrum) (st : storage C) :
  pathways_store s = true ->
  storage_initialized s = true ->
  _d__data s = Some st ->
  get_all_tags s
  = Ok (flat_map (fun typ => map (fun key => (typ, key))
                               (dict_keys (piece_of st typ))) _ptypes).
Proof.
  intros Hp Hini Est. unfold get_all_tags.
  assert (Hbody : forall typ (tags : list (string * option string)),
             (pdict <- match (st <- attr_d__data s ;; getitem st typ) with
                       | Ok pdict => Ok pdict
                       | Raise KeyError => Ok (VDict [])
                       | Raise e => Raise e
                       end ;;
              match pdict with
              | VDict p =>
                Ok (tags ++ map (fun key => (typ, key)) (dict_keys p))
              | VArr _ => Raise AttributeError
              end)
             = Ok (tags ++ map (fun key => (typ, key))
                             (dict_keys (piece_of st typ)))).
  { intros typ tags. unfold attr_d__data, getitem, piece_of.
    rewrite Est. cbn [obind].
    assert (Hk := @pathways_store_entry _ s st typ Hp Hini Est).
    destruct (dict_get st typ) as [[x|p]|]; [destruct Hk| |]; reflexivity. }
  change (flat_map (fun typ => map (fun key => (typ, key))
                                (dict_keys (piece_of st typ))) _ptypes)
    with ([] ++ flat_map (fun typ => map (fun key => (typ, key))
                                       (dict_keys (piece_of st typ)))
                         _ptypes).
  generalize (@nil (string * option string)).
  induction _ptypes as [|typ ks IH]; intro tags.
  - simpl. now rewrite app_nil_r.
  - cbn [foldM]. rewrite Hbody. cbn [obind]. rewrite IH.
    simpl. now rewrite app_assoc.
Qed.

(** X2.  On an initialized spectrum at resolution "pathways",
    [get_all_tags] returns, and the pair of a type and a tag is in its
    list exactly when the type is a pathway type and the pair is
    populated.  On a spectrum that has no storage yet it raises
    [AttributeError]. *)
Theorem get_all_tags_populated (s : spectrum) :
  (pathways_store s = true ->
   storage_initialized s = true ->
   exists tags,
     get_all_tags s = Ok tags
     /\ forall typ tag,
          In (typ, Some tag) tags
          <-> In typ _ptypes /\ populated s typ tag = true)
  /\ (_d__data s = None -> get_all_tags s = Raise AttributeError).
Proof.
  split.
  - intros Hp Hini.
    assert (Hst : exists st, _d__data s = Some st).
    { unfold pathways_store in Hp. rewrite Hini in Hp.
      apply andb_true_iff in Hp as [_ Hp]. simpl in Hp.
      destruct (_d__data s) as [st|]; [now exists st|discriminate]. }
    destruct Hst as [st Est].
    eexists. split; [apply (get_all_tags_pathways Hp Hini Est)|].
    intros typ tag. unfold populated. rewrite Hini, Est. cbn [andb].
    rewrite in_flat_map. split.
    + intros (t & Ht & Hin). apply in_map_iff in Hin.
      destruct Hin as (key & [= -> ->] & Hkey).
      split; [assumption|]. now apply dict_mem_keys.
    + intros [Ht Hm]. exists typ. split; [assumption|].
      apply in_map_iff. exists (Some tag). split; [reflexivity|].
      now apply dict_mem_keys.
  - intro Est. unfold get_all_tags, _ptypes, attr_d__data.
    rewrite Est. reflexivity.
Qed.

(** X3.  [_add_data] changes the object only on the path to the setter:
    the resolution of the data (the argument, or the resolution of the
    storage for [None]) is "pathways", the type is a pathway type and
    the tag is not [None].  In particular, data given for a lower
    resolution are dropped without an error. *)
Theorem _add_data_frame (v : pyarg C) (resolution : option string)
  (dtype : string) (tag : option string) (s : spectrum) :
  let effective := match resolution with
                   | Some r => r
                   | None => storage_resolution s
                   end in
  (snd (_add_data v resolution dtype tag s) <> s ->
   effective = "pathways" /\ in_list dtype _ptypes = true /\ tag <> None)
  /\ (effective <> "pathways" ->
      match resolution with
      | Some r => level r <= level (storage_resolution s)
                  /\ in_list r _resolutions = true
                  /\ in_list (storage_resolution s) _resolutions = true
      | None => True
      end ->
      _add_data v resolution dtype tag s = (Ok tt, s)).
Proof.
  cbv zeta. unfold _add_data. split.
  - intro Hne.
    destruct resolution as [r|].
    + destruct (_resolution2number r) as [res1|]; cbn [obind] in *;
        [|now destruct Hne].
      destruct (_resolution2number (storage_resolution s)) as [res2|];
        cbn [obind] in *; [|now destruct Hne].
      destruct (res1 <=? res2); [|now destruct Hne].
      destruct (String.eqb_spec r "pathways") as [->|]; [|now destruct Hne].
      destruct (in_list dtype _ptypes); [|now destruct Hne].
      destruct tag; [|now destruct Hne].
      repeat split. discriminate.
    + destruct (String.eqb_spec (storage_resolution s) "pathways") as [E|];
        [|now destruct Hne].
      destruct (in_list dtype _ptypes); [|now destruct Hne].
      destruct tag; [|now destruct Hne].
      repeat split; [assumption|discriminate].
  - intros Hne Hres. destruct resolution as [r|].
    + destruct Hres as (Hle & Hr & Hs).
      unfold _resolution2number. rewrite Hr, Hs. cbn [obind].
      fold (level r). fold (level (storage_resolution s)).
      destruct (Nat.leb_spec (level r) (level (storage_resolution s)));
        [|lia].
      destruct (String.eqb_spec r "pathways"); [contradiction|reflexivity].
    + destruct (String.eqb_spec (storage_resolution s) "pathways");
        [contradiction|reflexivity].
Qed.

End StoreExtras.

Lemma _add_data_frame_witness :
  let s := snd (set_resolution "types" three_pathways) in
  _add_data (Arr arr_2x2) None "R1g" (Some "z") s = (Ok tt, s)
  /\ _add_data (Arr arr_2x2) (Some "types") "R1g" (Some "z") three_pathways
     = (Ok tt, three_pathways).
Proof.
  cbv zeta. split.
  - apply (proj2 (@_add_data_frame Z (Arr arr_2x2) None "R1g" (Some "z")
                    (snd (set_resolution "types" three_pathways))));
      [discriminate|exact I].
  - apply (proj2 (@_add_data_frame Z (Arr arr_2x2) (Some "types") "R1g"
                    (Some "z") three_pathways));
      [discriminate|].
    split; [vm_compute; lia|split; reflexivity].
Defined.

Lemma get_all_tags_populated_witness :
  pathways_store three_pathways = true
  /\ storage_initialized three_pathways = true
  /\ get_all_tags three_pathways
     = Ok [("R1g", Some "a"); ("R1g", Some "b"); ("R2g", Some "c")]
  /\ get_all_tags (@__init__ Z) = Raise AttributeError.
Proof.
  split; [reflexivity|]. split; [reflexivity|]. split; [reflexivity|].
  apply (proj2 (@get_all_tags_populated Z __init__)). reflexivity.
Defined.

(* ================================================================== *)
(** ** Further properties of [set_data] and [add_data] *)
(* ================================================================== *)

Section DataExtras.
Context {C : Type} {N : Numeric C}.

Local Abbreviation spectrum := (TwoDSpectrum C).

Lemma with_data_same (s : spectrum) (a : ndarray C) :
  self_data s = Some a -> with_data (Some a) s = s.
Proof. unfold self_data. destruct s; simpl. now intros ->. Qed.

Lemma with_reph2D_same (s : spectrum) (a : ndarray C) :
  reph2D s = Some a -> with_reph2D (Some a) s = s.
Proof. destruct s; simpl. now intros ->. Qed.

Lemma with_nonr2D_same (s : spectrum) (a : ndarray C) :
  nonr2D s = Some a -> with_nonr2D (Some a) s = s.
Proof. destruct s; simpl. now intros ->. Qed.

Lemma iadd_lazy_zeros (a : ndarray C) :
  exists y, iadd (zeros (fst (shape a)) (snd (shape a))) a = Ok y
            /\ shape y = shape a.
Proof.
  destruct (@iadd_succeeds _ _ (zeros (fst (shape a)) (snd (shape a))) a)
    as (y & E & Es); [simpl; apply broadcastable_refl|].
  exists y. split; [exact E|]. rewrite Es. simpl. now destruct (shape a).
Qed.

(** X4.  A call of [add_data] that raises leaves the object as it was:
    no accumulator is created or changed. *)
Theorem add_data_raise_unchanged (a : ndarray C) (dtype : option string)
  (s : spectrum) (e : exn) :
  fst (add_data a dtype s) = Raise e -> snd (add_data a dtype s) = s.
Proof.
  unfold add_data. destruct dtype as [d|]; [|reflexivity].
  destruct (py_ne (Some d) (self_dtype s)); [reflexivity|].
  destruct (iadd_lazy_zeros a) as (y & Ey & _).
  destruct (String.eqb d "Tot").
  { destruct (self_data s) as [x|] eqn:Ex; cbn [lazy_zeros].
    - destruct (iadd x a); [discriminate|]. intros _. simpl.
      now apply with_data_same.
    - rewrite Ey. discriminate. }
  destruct (String.eqb d "Reph").
  { destruct (reph2D s) as [x|] eqn:Ex; cbn [lazy_zeros].
    - destruct (iadd x a); [discriminate|]. intros _. simpl.
      now apply with_reph2D_same.
    - rewrite Ey. discriminate. }
  destruct (String.eqb d "Nonr").
  { destruct (nonr2D s) as [x|] eqn:Ex; cbn [lazy_zeros].
    - destruct (iadd x a); [discriminate|]. intros _. simpl.
      now apply with_nonr2D_same.
    - rewrite Ey. discriminate. }
  reflexivity.
Qed.




(** X6.  [set_data] on a spectrum whose data type is not fixed yet, for
    one of "Tot", "Reph" and "Nonr": the array is stored and the data
    type is fixed.  From then on [set_data] with the same data type
    replaces the array, and [set_data] with any other data type raises
    and stores nothing. *)
Theorem set_data_fixes_dtype (d : string) (a : ndarray C) (s : spectrum) :
  In d dtypes ->
  self_dtype s = None ->
  exists s1,
    set_data a (Some d) s = (Ok tt, s1)
    /\ array_of d s1 = Some a
    /\ self_dtype s1 = Some d
    /\ (forall b, exists s2,
          set_data b (Some d) s1 = (Ok tt, s2)
          /\ array_of d s2 = Some b /\ self_dtype s2 = Some d)
    /\ (forall b d', d' <> Some d ->
          set_data b d' s1
          = (Raise (Exception "Incorrect data type in TwoDSpectrum"), s1)).
Proof.
  intros Hd Edt.
  assert (Hin : in_list d dtypes = true).
  { apply existsb_exists. exists d. split; [exact Hd|apply String.eqb_refl]. }
  assert (Hne : forall d', d' <> Some d -> py_ne d' (Some d) = true).
  { intros d' Hd'. unfold py_ne.
    destruct (option_string_eqb d' (Some d)) eqn:E; [|reflexivity].
    apply (@keqb_eq _ _ tag_KeyLaws) in E. contradiction. }
  unfold set_data at 1. rewrite Edt, Hin.
  simpl in Hd.
  destruct Hd as [<-|[<-|[<-|[]]]]; simpl String.eqb; cbv iota;
    (eexists; split; [reflexivity|]);
    (split; [reflexivity|]); (split; [reflexivity|]);
    (split;
     [ intro b; eexists; split; [reflexivity|split; reflexivity]
     | intros b d' Hd'; unfold set_data; cbn [self_dtype dtype with_data
         with_reph2D with_nonr2D];
       unfold self_dtype; simpl dtype; now rewrite (Hne d' Hd') ]).
Qed.

End DataExtras.

Lemma add_data_raise_unchanged_witness :
  let s := snd ((set_data_type "Tot" >> add_data arr_2x2 (Some "Tot"))
                  __init__) in
  fst (add_data arr_2x3 (Some "Tot") s) = Raise ValueError
  /\ snd (add_data arr_2x3 (Some "Tot") s) = s.
Proof.
  cbv zeta. split; [reflexivity|].
  apply add_data_raise_unchanged with (e := ValueError). reflexivity.
Defined.


Lemma set_data_fixes_dtype_witness :
  exists s1,
    set_data arr_2x2 (Some "Reph") __init__ = (Ok tt, s1)
    /\ set_data arr_2x2' (Some "Nonr") s1
       = (Raise (Exception "Incorrect data type in TwoDSpectrum"), s1).
Proof.
  destruct (@set_data_fixes_dtype Z "Reph" arr_2x2 __init__)
    as (s1 & E & _ & _ & _ & Hother); [simpl; tauto|reflexivity|].
  exists s1. split; [exact E|]. apply Hother. discriminate.
Defined.

(* ================================================================== *)
(** ** Further properties of the conversions *)
(* ================================================================== *)

Lemma dict_keys_set_fresh {K V : Type} `{KeyLaws K} (d : dict K V) (k : K)
  (v : V) :
  ~ In k (dict_keys d) -> dict_keys (dict_set d k v) = dict_keys d ++ [k].
Proof.
  induction d as [|[k' v'] d IH]; simpl; intro Hnin; [reflexivity|].
  rewrite keqb_neq by (intro E; apply Hnin; now left).
  simpl. rewrite IH; [reflexivity|]. intro Hin. apply Hnin. now right.
Qed.

Section ConvertExtras.
Context {C : Type} `{Numeric C}.

Local Abbreviation spectrum := (TwoDSpectrum C).

(** The keys that the conversion of "pathways" to "types" leaves. *)
Lemma foldM_sum_pathways_keys (s : spectrum) (ks : list string) :
  forall (st0 st1 : storage C) (b b' : bool),
    NoDup (dict_keys st0 ++ ks) ->
    foldM (sum_pathways_of_type s) ks (st0, b) = Ok (st1, b') ->
    dict_keys st1 = dict_keys st0 ++ ks.
Proof.
  induction ks as [|k ks IH]; intros st0 st1 b b' Hnd E.
  - simpl in E. injection E as <- _. now rewrite app_nil_r.
  - cbn [foldM] in E.
    destruct (sum_pathways_of_type s (st0, b) k) as [[st2 b2]|] eqn:Ek;
      [|discriminate].
    cbn [obind] in E.
    assert (Hst2 : exists y, st2 = dict_set st0 k (VArr y)).
    { unfold sum_pathways_of_type in Ek.
      destruct (match attr_d__data s with
                | Ok st => match dict_get st k with
                           | Some v => (v, b)
                           | None => (VDict [], b)
                           end
                | Raise _ => (VDict [], false)
                end) as [pdict dp].
      destruct (if dp then zeros_axes s else Ok (zeros 1 1)) as [data|];
        [|discriminate].
      cbn [obind] in Ek.
      destruct pdict as [x|p]; [discriminate|].
      destruct (foldM (fun data kv => iadd data (snd kv)) p data) as [y|];
        [|discriminate].
      cbn [obind] in Ek. injection Ek as <- _. now exists y. }
    destruct Hst2 as [y ->].
    assert (Hk : ~ In k (dict_keys st0)).
    { intro Hin. apply NoDup_remove_2 in Hnd. apply Hnd.
      apply in_or_app. now left. }
    assert (Hnd' : NoDup (dict_keys (dict_set st0 k (VArr y)) ++ ks)).
    { rewrite dict_keys_set_fresh by assumption.
      rewrite <- app_assoc. exact Hnd. }
    rewrite (IH _ _ _ _ Hnd' E).
    rewrite dict_keys_set_fresh by assumption. now rewrite <- app_assoc.
Qed.

Lemma NoDup_strings (l : list string) :
  (forallb (fun k => Nat.eqb (count_occ string_dec l k) 1) l) = true ->
  NoDup l.
Proof.
  intro Hall. apply (NoDup_count_occ' string_dec).
  intros k Hin. apply Nat.eqb_eq.
  apply (proj1 (forallb_forall _ _) Hall k Hin).
Qed.

(** X7.  After [set_resolution] has lowered the resolution of a
    consistent spectrum to "types", "processes" or "signals", the
    storage holds exactly the keys of the new resolution, in the order
    of the tables, and under each key an array of the shape of the
    accumulators (the shape of the axes, or 1 by 1 on a spectrum that
    was never written to). *)
Theorem lowered_storage_keys (s : spectrum) (r : string) :
  consistent s = true ->
  lowering (storage_resolution s) r = true ->
  r <> "off" ->
  exists s' st tgt,
    set_resolution r s = (Ok tt, s')
    /\ _d__data s' = Some st
    /\ dict_keys st = keys_of r
    /\ accumulator_shape s' = Some tgt
    /\ Forall (of_shape tgt) st.
Proof.
  intros Hc Hlow Hoff.
  unfold lowering in Hlow.
  repeat rewrite orb_true_iff in Hlow. repeat rewrite andb_true_iff in Hlow.
  repeat rewrite String.eqb_eq in Hlow.
  destruct Hlow as [[[[[Eo En]|[Eo En]]|[Eo En]]|[Eo En]]|[Eo En]];
    subst r; try (now destruct Hoff).
  - (* pathways -> types *)
    rewrite (@set_resolution_lower _ _ s "types" 4 3);
      [|now rewrite Eo|reflexivity|lia].
    unfold consistent in Hc. rewrite Eo in Hc. simpl in Hc.
    unfold _convert_resolution. cbn [Nat.eqb andb].
    destruct (_d__data s) as [st|] eqn:Est.
    + apply andb_true_iff in Hc as [Hini Hc].
      destruct (axes_shape s) as [tgt|] eqn:Eax; [|discriminate].
      destruct (@foldM_sum_pathways_succeeds _ _ s st tgt _ptypes Est Eax Hc
                  []) as (st1 & E1 & Hst1); [constructor|].
      rewrite E1.
      eexists. exists st1, tgt. split; [reflexivity|].
      split; [reflexivity|]. split.
      * apply (@foldM_sum_pathways_keys s _ptypes [] st1 true true);
          [|exact E1].
        apply NoDup_strings. reflexivity.
      * split; [|exact Hst1].
        unfold accumulator_shape. rewrite axes_shape_converted, Eax.
        simpl. now rewrite Hini.
    + apply negb_true_iff in Hc.
      unfold sum_pathways_of_type, attr_d__data. rewrite Est.
      eexists. eexists. exists (1, 1). split; [reflexivity|].
      split; [reflexivity|]. split; [reflexivity|]. split.
      * unfold accumulator_shape. simpl. now rewrite Hc.
      * repeat constructor; eexists; split; reflexivity.
  - (* types -> processes *)
    rewrite (@set_resolution_lower _ _ s "processes" 3 2);
      [|now rewrite Eo|reflexivity|lia].
    unfold consistent in Hc. rewrite Eo in Hc. simpl in Hc.
    destruct (accumulator_shape s) as [tgt|] eqn:Eacc; [|discriminate].
    destruct (_d__data s) as [st|] eqn:Est; [|discriminate].
    unfold _convert_resolution. cbn [Nat.eqb andb].
    cbn [foldM dict_keys map fst _processes].
    destruct (@types_to_processes_succeeds _ _ s st tgt "GSB" Eacc Est Hc)
      as (d1 & -> & E1); [simpl; tauto|].
    destruct (@types_to_processes_succeeds _ _ s st tgt "SE" Eacc Est Hc)
      as (d2 & -> & E2); [simpl; tauto|].
    destruct (@types_to_processes_succeeds _ _ s st tgt "ESA" Eacc Est Hc)
      as (d3 & -> & E3); [simpl; tauto|].
    destruct (@types_to_processes_succeeds _ _ s st tgt "DC" Eacc Est Hc)
      as (d4 & -> & E4); [simpl; tauto|].
    eexists. eexists. exists tgt. split; [reflexivity|].
    split; [reflexivity|]. split; [reflexivity|]. split.
    + rewrite <- Eacc. unfold accumulator_shape.
      now rewrite axes_shape_converted.
    + repeat constructor; eexists; (split; [reflexivity|assumption]).
  - (* types -> signals *)
    rewrite (@set_resolution_lower _ _ s "signals" 3 1);
      [|now rewrite Eo|reflexivity|lia].
    unfold consistent in Hc. rewrite Eo in Hc. simpl in Hc.
    destruct (accumulator_shape s) as [tgt|] eqn:Eacc; [|discriminate].
    destruct (_d__data s) as [st|] eqn:Est; [|discriminate].
    unfold _convert_resolution. cbn [Nat.eqb andb].
    cbn [foldM dict_keys map fst _signals].
    destruct (@types_to_signals_succeeds _ _ s st tgt "REPH" Eacc Est Hc)
      as (d1 & -> & E1); [simpl; tauto|].
    destruct (@types_to_signals_succeeds _ _ s st tgt "NONR" Eacc Est Hc)
      as (d2 & -> & E2); [simpl; tauto|].
    destruct (@types_to_signals_succeeds _ _ s st tgt "DC" Eacc Est Hc)
      as (d3 & -> & E3); [simpl; tauto|].
    eexists. eexists. exists tgt. split; [reflexivity|].
    split; [reflexivity|]. split; [reflexivity|]. split.
    + rewrite <- Eacc. unfold accumulator_shape.
      now rewrite axes_shape_converted.
    + repeat constructor; eexists; (split; [reflexivity|assumption]).
Qed.

(** X8.  Lowering "types" to "processes" or to "signals" stores what the
    getter computed: reading a process (or a signal) after the
    conversion returns the array that reading it before the conversion
    returned. *)
Theorem read_after_types_lowered (s s' : spectrum) (st : storage C)
  (r cd : string) :
  storage_resolution s = "types" ->
  _d__data s = Some st ->
  r = "processes" \/ r = "signals" ->
  set_resolution r s = (Ok tt, s') ->
  current_dtype s = Some cd ->
  In cd (keys_of r) ->
  exists a,
    d__data_get s = Ok (Some (VArr a))
    /\ d__data_get s' = Ok (Some (VArr a)).
Proof.
  intros Er Est Hr Hset Ecd Hcd.
  destruct Hr as [-> | ->].
  - rewrite (@set_resolution_lower _ _ s "processes" 3 2) in Hset;
      [|now rewrite Er|reflexivity|lia].
    unfold _convert_resolution in Hset. cbn [Nat.eqb andb] in Hset.
    cbn [foldM dict_keys map fst _processes] in Hset.
    destruct (_types_to_processes s "GSB") as [d1|] eqn:E1;
      [|discriminate]; cbn [obind] in Hset.
    destruct (_types_to_processes s "SE") as [d2|] eqn:E2;
      [|discriminate]; cbn [obind] in Hset.
    destruct (_types_to_processes s "ESA") as [d3|] eqn:E3;
      [|discriminate]; cbn [obind] in Hset.
    destruct (_types_to_processes s "DC") as [d4|] eqn:E4;
      [|discriminate]; cbn [obind] in Hset.
    injection Hset as <-.
    unfold d__data_get, attr_d__data.
    cbn [with_storage_resolution with_d__data _d__data storage_resolution
         current_dtype].
    rewrite Est, Er, Ecd. cbn [obind].
    simpl in Hcd.
    destruct Hcd as [<-|[<-|[<-|[<-|[]]]]]; simpl;
      rewrite ?E1, ?E2, ?E3, ?E4; eexists; split; reflexivity.
  - rewrite (@set_resolution_lower _ _ s "signals" 3 1) in Hset;
      [|now rewrite Er|reflexivity|lia].
    unfold _convert_resolution in Hset. cbn [Nat.eqb andb] in Hset.
    cbn [foldM dict_keys map fst _signals] in Hset.
    destruct (_types_to_signals s "REPH") as [d1|] eqn:E1;
      [|discriminate]; cbn [obind] in Hset.
    destruct (_types_to_signals s "NONR") as [d2|] eqn:E2;
      [|discriminate]; cbn [obind] in Hset.
    destruct (_types_to_signals s "DC") as [d3|] eqn:E3;
      [|discriminate]; cbn [obind] in Hset.
    injection Hset as <-.
    change (_types_to_signals s "DC") with (_types_to_processes s "DC")
      in E3.
    unfold d__data_get, attr_d__data.
    cbn [with_storage_resolution with_d__data _d__data storage_resolution
         current_dtype].
    rewrite Est, Er, Ecd. cbn [obind].
    simpl in Hcd.
    destruct Hcd as [<-|[<-|[<-|[]]]]; simpl;
      rewrite ?E1, ?E2, ?E3; eexists; split; reflexivity.
Qed.

(** X9.  An array assigned to [d__data] below the resolution "pathways"
    is not stored, at any of the resolutions "types", "processes",
    "signals" and "off": on a spectrum that was written to the
    assignment returns and leaves the whole object as it was; on one
    that was never written to it replaces the storage by an empty one
    and marks it initialized.  On a never-written spectrum at
    resolution "signals" or "processes" that has axes, the conversion
    to "off", which would have returned, then raises [KeyError]. *)
Theorem write_below_pathways (s : spectrum) (a : ndarray C) :
  (storage_resolution s <> "pathways" ->
   (storage_initialized s = true -> _d__data s <> None) ->
   d__data_set (Arr a) s
   = (Ok tt,
      if storage_initialized s then s
      else with_storage_initialized true (with_d__data (Some []) s)))
  /\ (forall x y : FrequencyAxis.t,
        storage_initialized s = false ->
        storage_resolution s = "signals"
        \/ storage_resolution s = "processes" ->
        xaxis s = Some x -> yaxis s = Some y ->
        set_resolution "off" s = (Ok tt, with_storage_resolution "off" s)
        /\ (d__data_set (Arr a) >> set_resolution "off") s
           = (Raise KeyError,
              with_storage_initialized true (with_d__data (Some []) s))).
Proof.
  assert (Hgen : storage_resolution s <> "pathways" ->
                 (storage_initialized s = true -> _d__data s <> None) ->
                 d__data_set (Arr a) s
                 = (Ok tt,
                    if storage_initialized s then s
                    else with_storage_initialized true
                           (with_d__data (Some []) s))).
  { intros Hres Hst.
    assert (Hne : String.eqb (storage_resolution s) "pathways" = false).
    { now apply String.eqb_neq. }
    unfold d__data_set. destruct (storage_initialized s) eqn:Hini;
      cbn [negb]; cbv zeta; unfold attr_d__data.
    - destruct (_d__data s) as [st|] eqn:Est;
        [|now destruct (Hst eq_refl)].
      now rewrite Hne.
    - cbn [with_storage_initialized with_d__data _d__data
           storage_resolution].
      now rewrite Hne. }
  split; [exact Hgen|].
  intros x y Hini Hres Ex Ey.
  assert (Hset : d__data_set (Arr a) s
                 = (Ok tt, with_storage_initialized true
                             (with_d__data (Some []) s))).
  { rewrite Hgen.
    - now rewrite Hini.
    - destruct Hres as [-> | ->]; discriminate.
    - rewrite Hini. discriminate. }
  split.
  - destruct Hres as [Er|Er].
    + rewrite (@set_resolution_lower _ _ s "off" 1 0);
        [|now rewrite Er|reflexivity|lia].
      unfold _convert_resolution, _signals_to_total. cbn [Nat.eqb andb].
      now rewrite Hini.
    + rewrite (@set_resolution_lower _ _ s "off" 2 0);
        [|now rewrite Er|reflexivity|lia].
      unfold _convert_resolution, _processes_to_total. cbn [Nat.eqb andb].
      now rewrite Hini.
  - unfold mthen, mbind. rewrite Hset.
    set (s1 := with_storage_initialized true (with_d__data (Some []) s)).
    assert (Eax : axes_shape s1 = Ok (FrequencyAxis.length x,
                                      FrequencyAxis.length y)).
    { unfold axes_shape, s1. simpl. now rewrite Ex, Ey. }
    destruct Hres as [Er|Er].
    + rewrite (@set_resolution_lower _ _ s1 "off" 1 0);
        [|unfold s1; simpl; now rewrite Er|reflexivity|lia].
      unfold _convert_resolution, _signals_to_total, zeros_axes.
      cbn [Nat.eqb andb]. rewrite Eax. reflexivity.
    + rewrite (@set_resolution_lower _ _ s1 "off" 2 0);
        [|unfold s1; simpl; now rewrite Er|reflexivity|lia].
      unfold _convert_resolution, _processes_to_total, zeros_axes.
      cbn [Nat.eqb andb]. rewrite Eax. reflexivity.
Qed.

End ConvertExtras.

Lemma lowered_storage_keys_witness :
  exists s' st,
    set_resolution "types" three_pathways = (Ok tt, s')
    /\ _d__data s' = Some st
    /\ dict_keys st = _ptypes
    /\ Forall (of_shape (2, 2)) st.
Proof.
  destruct (@lowered_storage_keys Z _ three_pathways "types")
    as (s' & st & tgt & E & Est & Hk & Hacc & Hall);
    [reflexivity|reflexivity|discriminate|].
  exists s', st. split; [exact E|]. split; [exact Est|].
  split; [exact Hk|].
  replace s' with (snd (set_resolution "types" three_pathways)) in Hacc
    by now rewrite E.
  vm_compute in Hacc. injection Hacc as <-. exact Hall.
Defined.

Lemma read_after_types_lowered_witness :
  let s := snd ((set_resolution "types"
                 >> set_data_flag (FlagAtom (Some "GSB"))) three_pathways) in
  exists a,
    d__data_get s = Ok (Some (VArr a))
    /\ d__data_get (snd (set_resolution "processes" s))
       = Ok (Some (VArr a)).
Proof.
  cbv zeta.
  set (s := snd ((set_resolution "types"
                  >> set_data_flag (FlagAtom (Some "GSB"))) three_pathways)).
  destruct (_d__data s) as [st|] eqn:Est; [|discriminate].
  apply (@read_after_types_lowered Z _ s
           (snd (set_resolution "processes" s)) st "processes" "GSB");
    try reflexivity; try assumption.
  - now left.
  - simpl. tauto.
Defined.

Lemma write_below_pathways_witness :
  let written := snd (set_resolution "types" three_pathways) in
  let s := snd ((set_resolution "types" >> set_resolution "signals")
                  (fresh_with_axes 2 2)) in
  d__data_set (Arr arr_2x2) written = (Ok tt, written)
  /\ set_resolution "off" s = (Ok tt, with_storage_resolution "off" s)
  /\ fst ((d__data_set (Arr arr_2x2) >> set_resolution "off") s)
     = Raise KeyError.
Proof.
  cbv zeta. split.
  - apply (proj1 (@write_below_pathways Z _
                    (snd (set_resolution "types" three_pathways))
                    arr_2x2)); discriminate.
  - destruct (proj2 (@write_below_pathways Z _
                       (snd ((set_resolution "types"
                              >> set_resolution "signals")
                               (fresh_with_axes 2 2)))
                       arr_2x2)
                (axis_of_length 2) (axis_of_length 2))
      as (E1 & E3); try reflexivity.
    + now left.
    + split; [exact E1|]. now rewrite E3.
Defined.

(* ================================================================== *)
(** ** Lowering "pathways" to "types" regroups the sums *)
(* ================================================================== *)

Section Extensionality.
Context {C : Type} `{Numeric C}.

Lemma well_formed_zeros (n m : nat) : well_formed (zeros n m).
Proof. unfold well_formed, zeros. simpl. apply repeat_length. Qed.

Lemma well_formed_iadd (data x y : ndarray C) :
  iadd data x = Ok y -> well_formed y.
Proof.
  unfold iadd. destruct (shape data) as [n m].
  destruct (broadcastable (shape x) n m); [|discriminate].
  intros [= <-]. unfold well_formed. simpl. apply length_tabulate.
Qed.


(** The entries of the result of a loop of [+=]. *)
Lemma foldM_iadd_get {K : Type} (p : list (K * ndarray C)) :
  forall data y : ndarray C,
    foldM (fun data kv => iadd data (snd kv)) p data = Ok y ->
    shape y = shape data
    /\ (well_formed data -> well_formed y)
    /\ forall i j, i < fst (shape data) -> j < snd (shape data) ->
         get y i j = sum_at i j (map snd p) (get data i j).
Proof.
  induction p as [|kv p IH]; intros data y E.
  - simpl in E. injection E as <-. repeat split; auto.
  - cbn [foldM] in E. destruct (iadd data (snd kv)) as [d1|] eqn:E1;
      [|discriminate].
    cbn [obind] in E. destruct (IH d1 y E) as (Es & Hwf & Hget).
    assert (Es1 := iadd_shape E1).
    split; [congruence|]. split.
    + intros _. apply Hwf. exact (well_formed_iadd E1).
    + intros i j Hi Hj. rewrite Hget by (rewrite Es1; assumption).
      simpl. unfold sum_at at 2. simpl. unfold point.
      now rewrite (get_iadd E1).
Qed.

End Extensionality.

Section Preservation.
Context {C : Type} {N : Numeric C}.

Local Abbreviation spectrum := (TwoDSpectrum C).

Variable s : spectrum.
Variable st : storage C.
Variable tgt : nat * nat.
Hypothesis Est : _d__data s = Some st.
Hypothesis Eax : axes_shape s = Ok tgt.
Hypothesis Hfit :
  forallb (fun t => piece_fits tgt (dict_get st t)) _ptypes = true.

Lemma piece_of_fits (t : string) :
  In t _ptypes ->
  (dict_get st t = None \/ dict_get st t = Some (VDict (piece_of st t)))
  /\ Forall (fun kv => broadcastable (shape (snd kv)) (fst tgt) (snd tgt)
                       = true) (piece_of st t).
Proof.
  intro Hin. assert (Ht := proj1 (forallb_forall _ _) Hfit t Hin).
  unfold piece_of. simpl in Ht.
  destruct (dict_get st t) as [[x|p]|]; simpl in Ht; try discriminate.
  - split; [now right|]. apply Forall_forall. intros kv Hkv.
    apply (proj1 (forallb_forall _ _) Ht kv Hkv).
  - split; [now left|constructor].
Qed.

(** The loop over the types of a process or signal at resolution
    "pathways". *)
Lemma pathways_loop (types : list string) :
  incl types _ptypes ->
  forall data : ndarray C,
    shape data = tgt -> well_formed data ->
    exists y,
      foldM (fun data typ =>
               match (st <- attr_d__data s ;; getitem st typ) with
               | Ok pways => add_pathways data pways
               | Raise _ => Ok data
               end) types data = Ok y
      /\ shape y = tgt /\ well_formed y
      /\ forall i j, i < fst tgt -> j < snd tgt ->
           get y i j = sum_at i j (pathways_of st types) (get data i j).
Proof.
  induction types as [|t types IH]; intros Hincl data Es Hwf.
  - exists data. repeat split; auto.
  - cbn [foldM]. unfold attr_d__data at 1. rewrite Est. cbn [obind].
    destruct (piece_of_fits (Hincl t (or_introl eq_refl))) as [Hget Hall].
    assert (Hp : exists d1,
               foldM (fun data kv => iadd data (snd kv)) (piece_of st t) data
               = Ok d1).
    { destruct (@foldM_iadd_succeeds _ _ _ (piece_of st t) data)
        as (d1 & E1 & _); [now rewrite Es|now exists d1]. }
    destruct Hp as (d1 & E1).
    destruct (foldM_iadd_get E1) as (Es1 & Hwf1 & Hget1).
    assert (Estep :
              match getitem st t with
              | Ok pways => add_pathways data pways
              | Raise _ => Ok data
              end = Ok d1).
    { unfold getitem. destruct Hget as [E|E].
      - assert (Epiece : piece_of st t = []).
        { unfold piece_of. now rewrite E. }
        rewrite Epiece in E1. simpl in E1. injection E1 as <-.
        now rewrite E.
      - rewrite E. exact E1. }
    rewrite Estep. cbn [obind].
    destruct (IH (fun x Hx => Hincl x (or_intror Hx)) d1)
      as (y & Ey & Esy & Hwfy & Hgety); [congruence|auto|].
    exists y. split; [exact Ey|]. split; [exact Esy|].
    split; [exact Hwfy|].
    intros i j Hi Hj. rewrite (Hgety i j Hi Hj).
    rewrite Hget1 by (rewrite Es; assumption).
    unfold pathways_of. simpl. unfold sum_at.
    now rewrite fold_left_app.
Qed.

(** What the conversion stores under each type: the sum of its
    pathways. *)
Lemma converted_entries (ks : list string) :
  NoDup ks -> incl ks _ptypes ->
  forall st0 : storage C,
  exists st1,
    foldM (sum_pathways_of_type s) ks (st0, true) = Ok (st1, true)
    /\ (forall t, In t ks ->
          exists y, dict_get st1 t = Some (VArr y)
                    /\ shape y = tgt
                    /\ well_formed y
                    /\ forall i j, i < fst tgt -> j < snd tgt ->
                         get y i j
                         = sum_at i j (dict_values (piece_of st t)) czero)
    /\ (forall t, ~ In t ks -> dict_get st1 t = dict_get st0 t).
Proof.
  induction ks as [|k ks IH]; intros Hnd Hincl st0.
  - exists st0. split; [reflexivity|]. split; [intros t []|auto].
  - inversion Hnd as [|? ? Hk Hnd']; subst.
    destruct (piece_of_fits (Hincl k (or_introl eq_refl))) as [Hget Hall].
    destruct (@foldM_iadd_succeeds _ _ _ (piece_of st k)
                (zeros (fst tgt) (snd tgt)))
      as (y & Ey & _); [exact Hall|].
    destruct (foldM_iadd_get Ey) as (Esy & Hwfy & Hgety).
    assert (Estep : sum_pathways_of_type s (st0, true) k
                    = Ok (dict_set st0 k (VArr y), true)).
    { unfold sum_pathways_of_type, attr_d__data, zeros_axes.
      rewrite Est, Eax. cbn [obind].
      destruct Hget as [E|E]; rewrite E.
      - assert (Epiece : piece_of st k = []).
        { unfold piece_of. now rewrite E. }
        rewrite Epiece in Ey. simpl in Ey. injection Ey as <-.
        reflexivity.
      - cbn [obind]. rewrite Ey. reflexivity. }
    destruct (IH Hnd' (fun x Hx => Hincl x (or_intror Hx))
                (dict_set st0 k (VArr y))) as (st1 & E1 & Hin1 & Hout1).
    exists st1. split.
    + cbn [foldM]. rewrite Estep. cbn [obind]. exact E1.
    + split.
      * intros t [<-|Ht]; [|now apply Hin1].
        exists y. split.
        -- rewrite (Hout1 k Hk). apply dict_get_set_eq.
        -- split; [rewrite Esy; simpl; now destruct tgt|].
           split; [apply Hwfy, well_formed_zeros|].
           intros i j Hi Hj. rewrite Hgety by (simpl; assumption).
           now rewrite get_zeros.
      * intros t Ht. rewrite Hout1 by (intro; apply Ht; now right).
        apply dict_get_set_ne. intro E. apply Ht. now left.
Qed.

End Preservation.

Section PreservationTheorem.
Context {C : Type} {N : Numeric C}.

Local Abbreviation spectrum := (TwoDSpectrum C).

(** The loop over the types of a process or signal at resolution
    "types", on a storage whose entries are known at every point. *)
Lemma types_loop (s' : spectrum) (st1 : storage C) (tgt : nat * nat)
  (S : string -> nat -> nat -> C) (types : list string) :
  _d__data s' = Some st1 ->
  (forall t, In t types ->
     exists y, dict_get st1 t = Some (VArr y)
               /\ shape y = tgt
               /\ forall i j, i < fst tgt -> j < snd tgt ->
                    get y i j = S t i j) ->
  forall data : ndarray C,
    shape data = tgt -> well_formed data ->
    exists y',
      foldM (fun data dtype =>
               match (st <- attr_d__data s' ;; getitem st dtype) with
               | Ok ddata => add_entry data ddata
               | Raise KeyError => Ok data
               | Raise AttributeError => Ok data
               | Raise e => Raise e
               end) types data = Ok y'
      /\ shape y' = tgt /\ well_formed y'
      /\ forall i j, i < fst tgt -> j < snd tgt ->
           get y' i j
           = fold_left (fun acc t => cadd acc (S t i j)) types (get data i j).
Proof.
  intros Est1. induction types as [|t types IH]; intros Hent data Es Hwf.
  - exists data. repeat split; auto.
  - cbn [foldM]. unfold attr_d__data at 1. rewrite Est1. cbn [obind].
    destruct (Hent t (or_introl eq_refl)) as (yt & Eyt & Esyt & Hgetyt).
    unfold getitem at 1. rewrite Eyt. cbn [add_entry].
    destruct (@iadd_succeeds _ _ data yt) as (d1 & E1 & Es1).
    { rewrite Es, Esyt. apply broadcastable_refl. }
    rewrite E1. cbn [obind].
    destruct (IH (fun x Hx => Hent x (or_intror Hx)) d1)
      as (y' & Ey' & Esy' & Hwfy' & Hgety');
      [congruence|exact (well_formed_iadd E1)|].
    exists y'. split; [exact Ey'|]. split; [exact Esy'|].
    split; [exact Hwfy'|].
    intros i j Hi Hj. rewrite (Hgety' i j Hi Hj). simpl.
    rewrite (get_iadd E1) by (rewrite Es; assumption).
    rewrite (@bget_same_shape _ _ yt (fst tgt) (snd tgt))
      by (try assumption; rewrite Esyt; now destruct tgt).
    now rewrite Hgetyt.
Qed.

(** The types of a process and of a signal are pathway types. *)
Lemma table_types (cd : string) (types : list string) :
  dict_get _processes cd = Some types \/ dict_get _signals cd = Some types ->
  incl types _ptypes.
Proof.
  unfold _processes, _signals, dict_get. cbn [keqb string_Key].
  intros [E|E];
    repeat match type of E with
           | context [String.eqb ?a ?b] => destruct (String.eqb a b)
           end;
    try discriminate; injection E as <-;
    intros t Ht; simpl in Ht; simpl; tauto.
Qed.

(** X10.  Lowering a consistent, initialized spectrum from "pathways" to
    "types" returns, and regroups the sum that reading a process or a
    signal gives.  Before the conversion the read adds all pathways of
    the types of the process, one after the other, to zero; after it,
    the read adds to zero the sums of the types, each of which the
    conversion has added up from zero.  Both arrays have the shape of
    the axes.  (The two agree where addition is associative; the
    rounded addition of [complex128] is not.) *)
Theorem read_after_pathways_lowered (s : spectrum) (st : storage C)
  (cd : string) (types : list string) (tgt : nat * nat) :
  storage_resolution s = "pathways" ->
  consistent s = true ->
  _d__data s = Some st ->
  axes_shape s = Ok tgt ->
  current_dtype s = Some cd ->
  dict_get _processes cd = Some types
  \/ (dict_get _processes cd = None /\ dict_get _signals cd = Some types) ->
  exists s' a a',
    set_resolution "types" s = (Ok tt, s')
    /\ d__data_get s = Ok (Some (VArr a))
    /\ d__data_get s' = Ok (Some (VArr a'))
    /\ shape a = tgt /\ shape a' = tgt
    /\ forall i j, i < fst tgt -> j < snd tgt ->
         get a i j = sum_at i j (pathways_of st types) czero
         /\ get a' i j
            = fold_left
                (fun acc t =>
                   cadd acc (sum_at i j (dict_values (piece_of st t)) czero))
                types czero.
Proof.
  intros Er Hc Est Eax Ecd Hcd.
  unfold consistent in Hc. rewrite Er, Est, Eax in Hc. simpl in Hc.
  apply andb_true_iff in Hc as [Hini Hfit].
  destruct (@converted_entries _ _ s st tgt Est Eax Hfit _ptypes)
    with (st0 := @nil (string * value C))
    as (st1 & E1 & Hent & _).
  { apply NoDup_strings. reflexivity. }
  { apply incl_refl. }
  set (s' := with_storage_resolution "types" (with_d__data (Some st1) s)).
  assert (Hset : set_resolution "types" s = (Ok tt, s')).
  { rewrite (@set_resolution_lower _ _ s "types" 4 3);
      [|now rewrite Er|reflexivity|lia].
    unfold _convert_resolution. cbn [Nat.eqb andb]. now rewrite E1. }
  assert (Hincl : incl types _ptypes).
  { apply (@table_types cd). destruct Hcd as [E|[_ E]]; auto. }
  destruct (@pathways_loop _ _ s st tgt Est Hfit types Hincl
              (zeros (fst tgt) (snd tgt)))
    as (a & Ea & Esa & _ & Hgeta);
    [simpl; now destruct tgt|apply well_formed_zeros|].
  destruct (@types_loop s' st1 tgt
              (fun t i j => sum_at i j (dict_values (piece_of st t)) czero)
              types eq_refl)
    with (data := zeros (fst tgt) (snd tgt))
    as (a' & Ea' & Esa' & _ & Hgeta');
    [intros t Ht; destruct (Hent t (Hincl t Ht)) as (y0 & ? & ? & _ & ?);
     now exists y0
    |simpl; now destruct tgt|apply well_formed_zeros|].
  exists s', a, a'. split; [exact Hset|].
  assert (Hz : zeros_axes s = Ok (zeros (fst tgt) (snd tgt))).
  { unfold zeros_axes. now rewrite Eax. }
  assert (Hz' : zeros_axes s' = Ok (zeros (fst tgt) (snd tgt))).
  { exact Hz. }
  assert (Hini' : storage_initialized s' = true) by exact Hini.
  assert (Hnp : forall k, dict_mem _processes k = true ->
                  in_list k _ptypes = false).
  { intros k Hk. apply dict_mem_In in Hk. simpl in Hk.
    destruct Hk as [<-|[<-|[<-|[<-|[]]]]]; reflexivity. }
  assert (Hns : forall k, dict_mem _signals k = true ->
                  in_list k _ptypes = false).
  { intros k Hk. apply dict_mem_In in Hk. simpl in Hk.
    destruct Hk as [<-|[<-|[<-|[]]]]; reflexivity. }
  assert (Hreads : d__data_get s = Ok (Some (VArr a))
                   /\ d__data_get s' = Ok (Some (VArr a'))).
  { unfold d__data_get, attr_d__data.
    cbn [s' with_storage_resolution with_d__data _d__data
         storage_resolution current_dtype].
    rewrite Est, Er, Ecd. cbn [obind].
    rewrite String.eqb_refl.
    change (String.eqb "types" "pathways") with false.
    change (String.eqb "types" "types") with true. cbv iota.
    destruct Hcd as [Ep|[Ep Es]].
    - assert (Hm : dict_mem _processes cd = true).
      { unfold dict_mem. now rewrite Ep. }
      rewrite (Hnp cd Hm), Hm.
      unfold _pathways_to_processes, _types_to_processes.
      fold s'. rewrite Hini, Hini', Hz, Hz'. cbn [obind].
      assert (Eg : getitem _processes cd = Ok types).
      { unfold getitem. now rewrite Ep. }
      rewrite Hm, Eg. cbn [negb obind].
      rewrite Ea, Ea'. split; reflexivity.
    - assert (Hm : dict_mem _processes cd = false).
      { unfold dict_mem. now rewrite Ep. }
      assert (Hm' : dict_mem _signals cd = true).
      { unfold dict_mem. now rewrite Es. }
      rewrite (Hns cd Hm'), Hm, Hm'.
      unfold _pathways_to_signals, _types_to_signals.
      fold s'. rewrite Hini, Hini', Hz, Hz'. cbn [obind].
      assert (Eg : getitem _signals cd = Ok types).
      { unfold getitem. now rewrite Es. }
      rewrite Hm', Eg. cbn [negb obind].
      rewrite Ea, Ea'. split; reflexivity. }
  destruct Hreads as [Hr Hr'].
  split; [exact Hr|]. split; [exact Hr'|].
  split; [exact Esa|]. split; [exact Esa'|].
  intros i j Hi Hj. split.
  - rewrite (Hgeta i j Hi Hj). now rewrite get_zeros.
  - rewrite (Hgeta' i j Hi Hj). now rewrite get_zeros.
Qed.

End PreservationTheorem.

Section DoublesExample.
Import PrimFloat.

(** At [complex128] the two sums differ: 1e16 + 1 + 1 is 1e16, and
    1e16 + (1 + 1) is the next number. *)
Lemma read_after_pathways_lowered_witness :
  exists s' a a',
    set_resolution "types" large_and_small = (Ok tt, s')
    /\ d__data_get large_and_small = Ok (Some (VArr a))
    /\ d__data_get s' = Ok (Some (VArr a'))
    /\ get a 0 0 = mk_complex128 1e16%float 0%float
    /\ get a' 0 0 = mk_complex128 10000000000000002%float 0%float.
Proof.
  destruct (_d__data large_and_small) as [st|] eqn:Est; [|discriminate].
  destruct (@read_after_pathways_lowered complex128 _ large_and_small st
              "GSB" ["R1g"; "R2g"] (1, 1))
    as (s' & a & a' & E & Ea & Ea' & _ & _ & Hget);
    try reflexivity; try assumption.
  - now left.
  - exists s', a, a'. split; [exact E|]. split; [exact Ea|].
    split; [exact Ea'|].
    destruct (Hget 0 0) as [H1 H2]; [simpl; lia|simpl; lia|].
    rewrite H1, H2. injection Est as <-. split; vm_compute; reflexivity.
Defined.

End DoublesExample.

(* ================================================================== *)
(** ** Reading a pathway type before and after lowering *)
(* ================================================================== *)

Section TypeReads.
Context {C : Type} {N : Numeric C} {L : @NumericLaws C N}.

Local Abbreviation spectrum := (TwoDSpectrum C).



End TypeReads.


(* ================================================================== *)
(** ** The mock calculator: grids, lists of pathways, prefactors *)
(* ================================================================== *)

Section Grid.
Local Open Scope R_scope.

(** The loop over the columns on a grid that is not square: the vector
    of [N3] values does not fit a column of [N1] entries, or column 0
    takes a single value and there is no column 1. *)
Lemma fill_columns_not_square (self : Mock.t) (sample : R -> R)
  (column : R -> list complex) (N1 N3 : nat) (arr : ndarray complex) :
  shape arr = (N1, N3) ->
  (forall o1, List.length (column o1) = N3) ->
  (0 < N1)%nat -> N1 <> N3 ->
  exists e, fill_columns self sample column N1 arr = Raise e.
Proof.
  intros Es Hcol Hpos Hne. unfold fill_columns.
  destruct N1 as [|n]; [lia|]. cbn [seq foldM].
  destruct (py_index (FrequencyAxis.data (Mock.oa1 self)) (Z.of_nat 0))
    as [x|e]; [|eexists; reflexivity].
  cbn [obind]. unfold set_column at 1. rewrite Es, Hcol.
  destruct (Nat.leb_spec N3 0) as [_|Hpos3]; [eexists; reflexivity|].
  destruct (Nat.eqb_spec N3 (S n)) as [E|_]; [congruence|].
  destruct (Nat.eqb_spec N3 1) as [->|_]; [|eexists; reflexivity].
  cbn [orb obind].
  destruct n as [|n]; [congruence|]. cbn [seq foldM].
  destruct (py_index (FrequencyAxis.data (Mock.oa1 self)) (Z.of_nat 1))
    as [x'|e]; [|eexists; reflexivity].
  cbn [obind]. unfold set_column at 1. cbn [shape Nat.leb].
  eexists; reflexivity.
Qed.

(** X12.  On a grid that is not square ([N1] samples of omega_1 with
    [0 < N1], a different number [N3] of samples of omega_3)
    [calculate_pathway] raises for every rephasing and non-rephasing
    pathway and every line shape: it never returns an array. *)
Theorem calculate_pathway_needs_square_grid (self : Mock.t)
  (p : LiouvillePathway.t) (shape : string) :
  axis_ok (Mock.oa3 self) ->
  (0 < FrequencyAxis.length (Mock.oa1 self))%nat ->
  FrequencyAxis.length (Mock.oa1 self)
  <> FrequencyAxis.length (Mock.oa3 self) ->
  LiouvillePathway.pathway_type p = "R"%string
  \/ LiouvillePathway.pathway_type p = "NR"%string ->
  exists e, calculate_pathway self p shape = Raise e.
Proof.
  intros Hax3 Hpos Hne Htype.
  assert (Hfill : forall sample column,
             (forall o1 : R,
                List.length (column o1)
                = FrequencyAxis.length (Mock.oa3 self)) ->
             exists e,
               fill_columns self sample column
                 (FrequencyAxis.length (Mock.oa1 self))
                 (zeros (FrequencyAxis.length (Mock.oa1 self))
                        (FrequencyAxis.length (Mock.oa3 self)))
               = Raise e).
  { intros sample column Hcol.
    now apply (@fill_columns_not_square self sample column
                 (FrequencyAxis.length (Mock.oa1 self))
                 (FrequencyAxis.length (Mock.oa3 self))). }
  unfold calculate_pathway.
  destruct (py_index (LiouvillePathway.frequency p) 0) as [cen1|e];
    [|eexists; reflexivity].
  cbn [obind].
  destruct (py_index (LiouvillePathway.frequency p) _) as [cen3|e];
    [|eexists; reflexivity].
  cbn [obind].
  destruct (line_parameters self p) as [[[[widthx widthy] dephx] dephy]|e];
    [|eexists; reflexivity].
  cbn [obind].
  assert (Hg : forall pref o1 c1 w1 c3 w3,
             List.length (gaussian_column pref o1 c1 w1
                            (FrequencyAxis.data (Mock.oa3 self)) c3 w3)
             = FrequencyAxis.length (Mock.oa3 self)).
  { intros. unfold gaussian_column. now rewrite length_map, Hax3. }
  assert (Hl : forall pref o1 c1 w1 c3 w3,
             List.length (lorentzian_column pref o1 c1 w1
                            (FrequencyAxis.data (Mock.oa3 self)) c3 w3)
             = FrequencyAxis.length (Mock.oa3 self)).
  { intros. unfold lorentzian_column. now rewrite length_map, Hax3. }
  destruct Htype as [->| ->]; simpl String.eqb; cbv iota;
    (destruct (String.eqb shape "Gaussian");
     [ match goal with
       | |- context [fill_columns self ?s ?c _ _] =>
           destruct (Hfill s c) as (e & ->);
           [intro; apply Hg|eexists; reflexivity]
       end
     | destruct (String.eqb shape "Lorentzian");
       [ match goal with
         | |- context [fill_columns self ?s ?c _ _] =>
             destruct (Hfill s c) as (e & ->);
             [intro; apply Hl|eexists; reflexivity]
         end
       | eexists; reflexivity ] ]).
Qed.

End Grid.

Lemma calculate_pathway_needs_square_grid_witness :
  exists e,
    calculate_pathway two_by_three_calculator nonrephasing_100_100 "Gaussian"
    = Raise e.
Proof.
  apply (@calculate_pathway_needs_square_grid two_by_three_calculator
           nonrephasing_100_100 "Gaussian").
  - reflexivity.
  - simpl. lia.
  - simpl. lia.
  - now right.
Defined.

Section ListsOfPathways.

(** One turn of the loop on a spectrum whose data type is not fixed. *)
Lemma add_pathway_no_dtype (self : Mock.t) (shape : string)
  (onetwod : TwoDSpectrum complex) (pwy : LiouvillePathway.t) :
  self_dtype onetwod = None ->
  exists e,
    add_pathway self shape onetwod pwy = Raise e
    /\ forall arr, calculate_pathway self pwy shape = Ok (Some arr) ->
         e = Exception "Incorrect data type in TwoDSpectrum".
Proof.
  intro Edt. unfold add_pathway.
  destruct (String.eqb (LiouvillePathway.pathway_type pwy) "R") eqn:ER;
    [|destruct (String.eqb (LiouvillePathway.pathway_type pwy) "NR")
        eqn:ENR].
  - destruct (calculate_pathway self pwy shape) as [[data|]|e]; cbn [obind].
    + unfold add_data. rewrite Edt. cbn [py_ne]. eexists.
      split; [reflexivity|reflexivity].
    + rewrite Edt. eexists. split; [reflexivity|discriminate].
    + eexists. split; [reflexivity|discriminate].
  - destruct (calculate_pathway self pwy shape) as [[data|]|e]; cbn [obind].
    + unfold add_data. rewrite Edt. cbn [py_ne]. eexists.
      split; [reflexivity|reflexivity].
    + rewrite Edt. eexists. split; [reflexivity|discriminate].
    + eexists. split; [reflexivity|discriminate].
  - assert (Hnone : forall arr,
               calculate_pathway self pwy shape <> Ok (Some arr)).
    { intros arr. unfold calculate_pathway. rewrite ER, ENR.
      destruct (py_index (LiouvillePathway.frequency pwy) 0);
        cbn [obind]; [|discriminate].
      destruct (py_index (LiouvillePathway.frequency pwy) _);
        cbn [obind]; [|discriminate].
      destruct (line_parameters self pwy) as [[[[? ?] ?] ?]|];
        cbn [obind]; discriminate. }
    destruct (calculate_pathway self pwy shape) as [data|e] eqn:E;
      cbn [obind].
    + eexists. split; [reflexivity|].
      intros arr [= ->]. now destruct (Hnone arr).
    + eexists. split; [reflexivity|discriminate].
Qed.

(** X13.  [calculate] and [calculate_one] of the mock calculator raise
    for every list of pathways that is not empty: the spectrum they
    create has no data type, and [add_data] with a data type refuses
    it.  Where [calculate_pathway] returns the array of the first
    pathway, the exception is that of [add_data]. *)
Theorem calculate_raises (self : Mock.t) (pwy : LiouvillePathway.t)
  (rest : list LiouvillePathway.t) (shape : string) (t2data : list R)
  (tc : Z) :
  exists e,
    calculate self (pwy :: rest) shape = Raise e
    /\ calculate_one self (pwy :: rest) shape t2data tc = Raise e
    /\ forall arr, calculate_pathway self pwy shape = Ok (Some arr) ->
         e = Exception "Incorrect data type in TwoDSpectrum".
Proof.
  destruct (@add_pathway_no_dtype self shape (new_onetwod self) pwy eq_refl)
    as (e & E & He).
  exists e. unfold calculate, calculate_one. cbn [foldM].
  rewrite E. cbn [obind]. repeat split. exact He.
Qed.

End ListsOfPathways.

(* ================================================================== *)
(** ** Gaussian lines of arbitrary pathways *)
(* ================================================================== *)

Section Lines.
Local Open Scope R_scope.

(** The Gaussian array of any rephasing or non-rephasing pathway on
    axes of one length. *)
Lemma calculate_pathway_gaussian_entries (self : Mock.t)
  (p : LiouvillePathway.t) (sample : R -> R) (cen1 cen3 widthx widthy : R) :
  axis_ok (Mock.oa1 self) -> axis_ok (Mock.oa3 self) ->
  List.length (FrequencyAxis.data (Mock.oa1 self))
  = List.length (FrequencyAxis.data (Mock.oa3 self)) ->
  line_of self p cen1 cen3 widthx widthy ->
  (LiouvillePathway.pathway_type p = "R"%string /\ sample = Ropp
   \/ LiouvillePathway.pathway_type p = "NR"%string
      /\ sample = (fun x => x)) ->
  exists arr,
    calculate_pathway self p "Gaussian" = Ok (Some arr)
    /\ shape arr = (List.length (FrequencyAxis.data (Mock.oa1 self)),
                    List.length (FrequencyAxis.data (Mock.oa1 self)))
    /\ forall a b,
         (a < List.length (FrequencyAxis.data (Mock.oa1 self)))%nat ->
         (b < List.length (FrequencyAxis.data (Mock.oa1 self)))%nat ->
         get arr a b
         = cscale
             (cscale (prefactor self p)
                (exp (- ((sample (nth b (FrequencyAxis.data (Mock.oa1 self))
                                      0) - cen1) / widthx) ^ 2)))
             (exp (- ((nth a (FrequencyAxis.data (Mock.oa3 self)) 0 - cen3)
                      / widthy) ^ 2)).
Proof.
  intros Hax1 Hax3 Hlen (Ef0 & Ef & dephx & dephy & Eparams) Htype.
  unfold calculate_pathway. rewrite Ef0, Ef, Eparams. cbn [obind].
  rewrite Hax1, Hax3, <- Hlen. fold (prefactor self p).
  set (N := List.length (FrequencyAxis.data (Mock.oa1 self))) in *.
  destruct (@fill_columns_spec self sample
              (fun o1 => gaussian_column (prefactor self p) o1 cen1 widthx
                           (FrequencyAxis.data (Mock.oa3 self)) cen3
                           widthy) N (zeros N N))
    as (arr & E & Es & Hget).
  - reflexivity.
  - intro o1. unfold gaussian_column. now rewrite length_map, <- Hlen.
  - reflexivity.
  - assert (Hget' : forall a b, (a < N)%nat -> (b < N)%nat ->
               get arr a b
               = cscale
                   (cscale (prefactor self p)
                      (exp (- ((sample
                                  (nth b (FrequencyAxis.data (Mock.oa1 self))
                                       0) - cen1) / widthx) ^ 2)))
                   (exp (- ((nth a (FrequencyAxis.data (Mock.oa3 self)) 0
                             - cen3) / widthy) ^ 2))).
    { intros a b Ha Hb. rewrite (Hget a b Ha Hb).
      apply nth_gaussian_column. rewrite <- Hlen. exact Ha. }
    destruct Htype as [[-> ->]|[-> ->]]; simpl String.eqb; cbv iota;
      rewrite E; cbn [obind]; exists arr; repeat split; assumption.
Qed.

(** X14.  With [all_positive] set, the Gaussian array of a rephasing or
    non-rephasing pathway on a square grid is returned, and each of its
    entries is real and not negative, whatever the prefactor of the
    pathway. *)
Theorem all_positive_gaussian (self : Mock.t) (p : LiouvillePathway.t)
  (cen1 cen3 widthx widthy : R) :
  Mock.all_positive self = true ->
  axis_ok (Mock.oa1 self) -> axis_ok (Mock.oa3 self) ->
  List.length (FrequencyAxis.data (Mock.oa1 self))
  = List.length (FrequencyAxis.data (Mock.oa3 self)) ->
  line_of self p cen1 cen3 widthx widthy ->
  widthx <> 0 -> widthy <> 0 ->
  LiouvillePathway.pathway_type p = "R"%string
  \/ LiouvillePathway.pathway_type p = "NR"%string ->
  exists arr,
    calculate_pathway self p "Gaussian" = Ok (Some arr)
    /\ forall a b,
         (a < fst (shape arr))%nat -> (b < snd (shape arr))%nat ->
         im (get arr a b) = 0 /\ 0 <= re (get arr a b).
Proof.
  intros Hpos Hax1 Hax3 Hlen Hline _ _ Htype.
  assert (Hs : exists sample,
             LiouvillePathway.pathway_type p = "R"%string /\ sample = Ropp
             \/ LiouvillePathway.pathway_type p = "NR"%string
                /\ sample = (fun x : R => x)).
  { destruct Htype as [E|E]; eexists; [left|right]; split;
      try exact E; reflexivity. }
  destruct Hs as (sample & Hs).
  destruct (@calculate_pathway_gaussian_entries self p sample cen1 cen3
              widthx widthy Hax1 Hax3 Hlen Hline Hs)
    as (arr & E & Es & Hget).
  exists arr. split; [exact E|].
  intros a b Ha Hb. rewrite Es in Ha, Hb. cbn [fst snd] in Ha, Hb.
  rewrite (Hget a b Ha Hb). unfold prefactor. rewrite Hpos.
  unfold cscale, cabs. cbn [re im]. split; [ring|].
  apply Rmult_le_pos; [apply Rmult_le_pos|]; try (left; apply exp_pos).
  apply sqrt_pos.
Qed.

(** X15.  For any rephasing or non-rephasing pathway whose prefactor, as
    [calculate_pathway] uses it, has a real part that is not negative,
    on a square grid: the real part of the Gaussian array is largest at
    the sample of omega_3 nearest to the centre [cen3] and the sample of
    omega_1 nearest to [-cen1] (rephasing) or to [cen1]
    (non-rephasing). *)
Theorem gaussian_peak_at_centre (self : Mock.t) (p : LiouvillePathway.t)
  (cen1 cen3 widthx widthy c : R) :
  axis_ok (Mock.oa1 self) -> axis_ok (Mock.oa3 self) ->
  List.length (FrequencyAxis.data (Mock.oa1 self))
  = List.length (FrequencyAxis.data (Mock.oa3 self)) ->
  line_of self p cen1 cen3 widthx widthy ->
  widthx <> 0 -> widthy <> 0 ->
  0 <= re (prefactor self p) ->
  (LiouvillePathway.pathway_type p = "R"%string /\ c = - cen1
   \/ LiouvillePathway.pathway_type p = "NR"%string /\ c = cen1) ->
  exists arr,
    calculate_pathway self p "Gaussian" = Ok (Some arr)
    /\ forall i3 i1,
         nearest (FrequencyAxis.data (Mock.oa3 self)) cen3 i3 ->
         nearest (FrequencyAxis.data (Mock.oa1 self)) c i1 ->
         peak_at arr i3 i1.
Proof.
  intros Hax1 Hax3 Hlen Hline _ _ Hpref Htype.
  set (sample := fun x : R =>
                   if String.eqb (LiouvillePathway.pathway_type p) "R"
                   then - x else x).
  assert (Hs : LiouvillePathway.pathway_type p = "R"%string
               /\ sample = Ropp
               \/ LiouvillePathway.pathway_type p = "NR"%string
                  /\ sample = (fun x : R => x)).
  { unfold sample.
    destruct Htype as [[E _]|[E _]]; rewrite E; [left|right];
      split; reflexivity. }
  assert (Hdist : forall x, Rabs (sample x - cen1) = Rabs (x - c)).
  { intro x. unfold sample.
    destruct Htype as [[E ->]|[E ->]]; rewrite E; simpl String.eqb;
      cbv iota; [|reflexivity].
    replace (- x - cen1) with (- (x - - cen1)) by ring.
    apply Rabs_Ropp. }
  destruct (@calculate_pathway_gaussian_entries self p sample cen1 cen3
              widthx widthy Hax1 Hax3 Hlen Hline Hs)
    as (arr & E & Es & Hget).
  exists arr. split; [exact E|].
  intros i3 i1 [Hi3 Hn3] [Hi1 Hn1] a b Ha Hb.
  rewrite Es in Ha, Hb. cbn [fst snd] in Ha, Hb.
  rewrite (Hget a b Ha Hb), (Hget i3 i1)
    by (try assumption; rewrite Hlen; assumption).
  unfold cscale. cbn [re]. rewrite !Rmult_assoc.
  apply Rmult_le_compat_l; [exact Hpref|].
  apply Rmult_le_compat; try (left; apply exp_pos).
  - apply gaussian_factor_le. rewrite !Hdist. now apply Hn1.
  - apply gaussian_factor_le. apply Hn3. now rewrite <- Hlen.
Qed.

End Lines.

Section LineExamples.
Local Open Scope R_scope.

Lemma negative_pathway_line :
  line_of all_positive_calculator negative_pathway 100 (-100) 50 80.
Proof.
  split; [reflexivity|]. split; [reflexivity|].
  exists 300, (-1). unfold line_parameters. simpl.
  repeat match goal with
         | |- context [Rlt_dec ?a ?b] =>
             destruct (Rlt_dec a b); try lra; simpl
         end.
  reflexivity.
Defined.

Lemma all_positive_gaussian_witness :
  exists arr,
    calculate_pathway all_positive_calculator negative_pathway "Gaussian"
    = Ok (Some arr)
    /\ forall a b,
         (a < fst (shape arr))%nat -> (b < snd (shape arr))%nat ->
         im (get arr a b) = 0 /\ 0 <= re (get arr a b).
Proof.
  apply (@all_positive_gaussian all_positive_calculator negative_pathway
           100 (-100) 50 80);
    try reflexivity; try lra.
  - exact negative_pathway_line.
  - now left.
Defined.

Lemma gaussian_peak_at_centre_witness :
  exists arr,
    calculate_pathway all_positive_calculator negative_pathway "Gaussian"
    = Ok (Some arr)
    /\ peak_at arr 0 0.
Proof.
  destruct (@gaussian_peak_at_centre all_positive_calculator
              negative_pathway 100 (-100) 50 80 (-100))
    as (arr & E & Hpeak);
    try reflexivity; try lra.
  - exact negative_pathway_line.
  - unfold prefactor. simpl. apply sqrt_pos.
  - left. split; [reflexivity|reflexivity].
  - exists arr. split; [exact E|].
    assert (Hnear : forall x i l,
               (i < List.length l)%nat -> nth i l 0 = x -> nearest l x i).
    { intros x i l Hi Ex. split; [exact Hi|]. intros j _. rewrite Ex.
      replace (x - x) with 0 by ring. rewrite Rabs_R0. apply Rabs_pos. }
    apply Hpeak; apply Hnear; simpl; try lia; reflexivity.
Defined.

End LineExamples.

(* ================================================================== *)
(** ** The end-to-end scenario: two Gaussian lines *)
(* ================================================================== *)

Section Synthesis.
Local Open Scope R_scope.

(** The Gaussian factor decreases strictly with the distance to the
    centre, for a width that is not zero. *)
Lemma gaussian_factor_lt (d1 d2 w : R) :
  w <> 0 -> Rabs d1 < Rabs d2 ->
  exp (- (d2 / w) ^ 2) < exp (- (d1 / w) ^ 2).
Proof.
  intros Hw Hlt. apply exp_increasing. apply Ropp_lt_contravar.
  rewrite <- !Rsqr_pow2. apply Rsqr_lt_abs_1.
  unfold Rdiv. rewrite !Rabs_mult. apply Rmult_lt_compat_r; [|exact Hlt].
  apply Rabs_pos_lt. now apply Rinv_neq_0_compat.
Qed.

(** A product of two Gaussian factors, one of which is strictly
    smaller. *)
Lemma gaussian_product_lt (x1 x1' x3 x3' w1 w3 : R) :
  w1 <> 0 -> w3 <> 0 ->
  Rabs x1' <= Rabs x1 -> Rabs x3' <= Rabs x3 ->
  Rabs x3' < Rabs x3 \/ Rabs x1' < Rabs x1 ->
  exp (- (x1 / w1) ^ 2) * exp (- (x3 / w3) ^ 2)
  < exp (- (x1' / w1) ^ 2) * exp (- (x3' / w3) ^ 2).
Proof.
  intros Hw1 Hw3 H1 H3 [Hlt|Hlt].
  - apply Rle_lt_trans
      with (exp (- (x1' / w1) ^ 2) * exp (- (x3 / w3) ^ 2)).
    + apply Rmult_le_compat_r; [left; apply exp_pos|].
      now apply gaussian_factor_le.
    + apply Rmult_lt_compat_l; [apply exp_pos|].
      now apply gaussian_factor_lt.
  - apply Rlt_le_trans
      with (exp (- (x1' / w1) ^ 2) * exp (- (x3 / w3) ^ 2)).
    + apply Rmult_lt_compat_r; [apply exp_pos|].
      now apply gaussian_factor_lt.
    + apply Rmult_le_compat_l; [left; apply exp_pos|].
      now apply gaussian_factor_le.
Qed.

(** The strict peak of an array whose real part is a product of two
    Gaussian factors. *)
Lemma gaussian_strict_peak (arr : ndarray complex) (N : nat)
  (l3 l1 : list R) (sample : R -> R) (x3 x1 c1 w1 w3 : R) (i3 i1 : nat) :
  shape arr = (N, N) ->
  List.length l3 = N -> List.length l1 = N ->
  w1 <> 0 -> w3 <> 0 ->
  (forall x, Rabs (sample x - c1) = Rabs (x - x1)) ->
  (forall a b, (a < N)%nat -> (b < N)%nat ->
     re (get arr a b)
     = exp (- ((sample (nth b l1 0) - c1) / w1) ^ 2)
       * exp (- ((nth a l3 0 - x3) / w3) ^ 2)) ->
  nearest l3 x3 i3 -> nearest l1 x1 i1 ->
  strict_peak_at arr l3 l1 x3 x1 i3 i1.
Proof.
  intros Es E3 E1 Hw1 Hw3 Hdist Hget [Hi3 Hn3] [Hi1 Hn1].
  rewrite E3 in Hi3, Hn3. rewrite E1 in Hi1, Hn1.
  split; [|split].
  - intros a b Ha Hb. rewrite Es in Ha, Hb. cbn [fst snd] in Ha, Hb.
    rewrite (Hget a b Ha Hb), (Hget i3 i1 Hi3 Hi1).
    apply Rmult_le_compat; try (left; apply exp_pos);
      apply gaussian_factor_le.
    + rewrite !Hdist. now apply Hn1.
    + now apply Hn3.
  - rewrite (Hget i3 i1 Hi3 Hi1).
    apply Rmult_lt_0_compat; apply exp_pos.
  - intros a b Ha Hb Hfar. rewrite Es in Ha, Hb. cbn [fst snd] in Ha, Hb.
    rewrite (Hget a b Ha Hb), (Hget i3 i1 Hi3 Hi1).
    apply gaussian_product_lt; try assumption.
    + rewrite !Hdist. now apply Hn1.
    + now apply Hn3.
    + destruct Hfar as [Hfar|Hfar]; [now left|right].
      now rewrite !Hdist.
Qed.

(** C8.  The scenario of two pathway descriptors with centre frequencies
    (100, 100), prefactor 1.0 and default widths, one rephasing and one
    non-rephasing, with the Gaussian shape, on two axes of one length
    and with default widths that are not zero.

    [calculate_pathway] returns the array of each pathway, and the real
    part of the rephasing array has its strict peak at the samples
    nearest to omega_1 = -100 and omega_3 = 100, that of the
    non-rephasing array at the samples nearest to omega_1 = 100 and
    omega_3 = 100 (first index omega_3, second index omega_1).

    The synthesis itself does not produce the two arrays: [calculate]
    and [calculate_one] raise at the first pathway of the list, whichever
    of the two it is, because [add_data] refuses a data type on the
    spectrum they have just created. *)
Theorem gaussian_peaks_not_accumulated (self : Mock.t)
  (pR pNR : LiouvillePathway.t) :
  axis_ok (Mock.oa1 self) -> axis_ok (Mock.oa3 self) ->
  List.length (FrequencyAxis.data (Mock.oa1 self))
  = List.length (FrequencyAxis.data (Mock.oa3 self)) ->
  Mock.widthx self <> 0 -> Mock.widthy self <> 0 ->
  LiouvillePathway.pathway_type pR = "R"%string -> centred_100_100 pR ->
  LiouvillePathway.pathway_type pNR = "NR"%string -> centred_100_100 pNR ->
  exists reph2D nonr2D,
    calculate_pathway self pR "Gaussian" = Ok (Some reph2D)
    /\ calculate_pathway self pNR "Gaussian" = Ok (Some nonr2D)
    /\ (forall i3 i1,
          nearest (FrequencyAxis.data (Mock.oa3 self)) 100 i3 ->
          nearest (FrequencyAxis.data (Mock.oa1 self)) (-100) i1 ->
          strict_peak_at reph2D (FrequencyAxis.data (Mock.oa3 self))
            (FrequencyAxis.data (Mock.oa1 self)) 100 (-100) i3 i1)
    /\ (forall i3 i1,
          nearest (FrequencyAxis.data (Mock.oa3 self)) 100 i3 ->
          nearest (FrequencyAxis.data (Mock.oa1 self)) 100 i1 ->
          strict_peak_at nonr2D (FrequencyAxis.data (Mock.oa3 self))
            (FrequencyAxis.data (Mock.oa1 self)) 100 100 i3 i1)
    /\ forall (first : LiouvillePathway.t) (rest : list LiouvillePathway.t)
         (t2data : list R) (tc : Z),
         first = pR \/ first = pNR ->
         calculate self (first :: rest) "Gaussian"
         = Raise (Exception "Incorrect data type in TwoDSpectrum")
         /\ calculate_one self (first :: rest) "Gaussian" t2data tc
            = Raise (Exception "Incorrect data type in TwoDSpectrum").
Proof.
  intros Hax1 Hax3 Hlen Hwx Hwy HR HpR HNR HpNR.
  destruct (@calculate_pathway_gaussian self pR Ropp Hax1 Hax3 Hlen HpR)
    as (reph & ER & EsR & HgetR); [left; now split|].
  destruct (@calculate_pathway_gaussian self pNR (fun x => x)
              Hax1 Hax3 Hlen HpNR)
    as (nonr & EN & EsN & HgetN); [right; now split|].
  exists reph, nonr. split; [exact ER|]. split; [exact EN|].
  split; [|split].
  - intros i3 i1 H3 H1.
    apply (@gaussian_strict_peak reph _ _ _ Ropp 100 (-100) 100
             (Mock.widthx self) (Mock.widthy self) i3 i1 EsR);
      try assumption; try reflexivity; [now symmetry|].
    intro x. replace (- x - 100) with (- (x - -100)) by ring.
    apply Rabs_Ropp.
  - intros i3 i1 H3 H1.
    apply (@gaussian_strict_peak nonr _ _ _ (fun x => x) 100 100 100
             (Mock.widthx self) (Mock.widthy self) i3 i1 EsN);
      try assumption; try reflexivity. now symmetry.
  - intros first rest t2data tc Hfirst.
    destruct (@add_pathway_no_dtype self "Gaussian" (new_onetwod self)
                first eq_refl) as (e & E & He).
    assert (Ee : e = Exception "Incorrect data type in TwoDSpectrum").
    { destruct Hfirst as [-> | ->]; [apply (He reph ER)|apply (He nonr EN)]. }
    subst e. unfold calculate, calculate_one. cbn [foldM].
    rewrite E. split; reflexivity.
Qed.

End Synthesis.

Section SynthesisExample.
Local Open Scope R_scope.

Lemma gaussian_peaks_not_accumulated_witness :
  exists reph2D nonr2D,
    calculate_pathway three_point_calculator rephasing_100_100 "Gaussian"
    = Ok (Some reph2D)
    /\ calculate_pathway three_point_calculator nonrephasing_100_100
         "Gaussian" = Ok (Some nonr2D)
    /\ strict_peak_at reph2D [-100; 0; 100] [-100; 0; 100] 100 (-100) 2 0
    /\ strict_peak_at nonr2D [-100; 0; 100] [-100; 0; 100] 100 100 2 2
    /\ calculate three_point_calculator
         [rephasing_100_100; nonrephasing_100_100] "Gaussian"
       = Raise (Exception "Incorrect data type in TwoDSpectrum").
Proof.
  assert (Hc : forall t, centred_100_100
                 (LiouvillePathway.mk t 3 0 [100; 0; 100] (mk_complex 1 0)
                    [-1; -1; -1; -1] [-1; -1; -1; -1])).
  { intro t. repeat split; try reflexivity.
    - exists (-1). split; [reflexivity|lra].
    - exists (-1). split; [reflexivity|lra].
    - exists (-1). reflexivity. }
  assert (Hnear : forall x i l,
             (i < List.length l)%nat -> nth i l 0 = x -> nearest l x i).
  { intros x i l Hi Ex. split; [exact Hi|]. intros j _. rewrite Ex.
    replace (x - x) with 0 by ring. rewrite Rabs_R0. apply Rabs_pos. }
  destruct (@gaussian_peaks_not_accumulated three_point_calculator
              rephasing_100_100 nonrephasing_100_100)
    as (reph & nonr & ER & EN & HR & HN & Hcalc);
    try reflexivity; try apply Hc; try (simpl; lra).
  exists reph, nonr. split; [exact ER|]. split; [exact EN|].
  split; [|split].
  - apply HR; apply Hnear; simpl; try lia; reflexivity.
  - apply HN; apply Hnear; simpl; try lia; reflexivity.
  - apply (Hcalc rephasing_100_100 [nonrephasing_100_100] [] 0%Z).
    now left.
Defined.

End SynthesisExample.
